(** * Todo manager: task tools, agent orchestrators and chat endpoint

    A shallow embedding of the Python sources

    - [Phase05/backend/app/models/task.py] and
      [Phase05/backend/app/mcp/tools/{add,list,complete,delete,update}_task.py]
      (the domain tool set over the tasks table),
    - [Phase03/backend/app/agent/runner.py] and [Phase05/backend/app/agent.py]
      (the two agent orchestrators),
    - [Phase03/backend/app/routes/chat.py] (the chat endpoint) with
      [Phase03/backend/app/schemas/chat.py] (its request schema),
    - [Phase05/backend/app/mcp/server.py] (the tool registry),
      [Phase05/services/recurring-service/main.py] and
      [Phase05/backend/app/services/stats_service.py],

    together with the properties the specification states about them and
    further properties read off the code.

    Conventions.  A Python [str] is a Rocq [string] read as a sequence of
    code points below 256.  A Python [int] is a [Z].  [Optional[T]] is
    [option T].  A raised exception is a value of [exn]; a function that may
    raise returns [result].  The tasks table is a finite map from the primary
    key, a value of an INTEGER column, to the remaining columns, and a tool maps the store before the call
    to its result and the store after it; what [session.commit()] does not
    reach is not in the store after.  [datetime.utcnow()] is an argument
    [now] of the tool that reads it.  The orchestrators and the endpoint
    return, next to their result, the trace of what they did to their
    collaborators: calls to the model, tool invocations, writes to the
    conversation store. *)

From Stdlib Require Import Ascii.
From stdpp Require Import base option gmap sets list strings pretty sorting.

Local Open Scope Z_scope.

(* ===================================================================== *)
(** * Python primitives *)
(* ===================================================================== *)

Module Py.

(** [str.isspace] on one code point below 256. *)
Definition isspace (c : ascii) : bool :=
  let n := Z.of_nat (nat_of_ascii c) in
  ((9 <=? n) && (n <=? 13)) || ((28 <=? n) && (n <=? 32))
  || (n =? 133) || (n =? 160).

Fixpoint lstrip (s : string) : string :=
  match s with
  | EmptyString => EmptyString
  | String c s' => if isspace c then lstrip s' else s
  end.

Fixpoint rstrip (s : string) : string :=
  match s with
  | EmptyString => EmptyString
  | String c s' =>
      match rstrip s' with
      | EmptyString => if isspace c then EmptyString else String c EmptyString
      | r => String c r
      end
  end.

(** [s.strip()] *)
Definition strip (s : string) : string := rstrip (lstrip s).

Definition lower_char (c : ascii) : ascii :=
  let n := nat_of_ascii c in
  let z := Z.of_nat n in
  if ((65 <=? z) && (z <=? 90))
     || ((192 <=? z) && (z <=? 222) && negb (z =? 215))
  then ascii_of_nat (n + 32) else c.

(** [s.lower()] *)
Fixpoint lower (s : string) : string :=
  match s with
  | EmptyString => EmptyString
  | String c s' => String (lower_char c) (lower s')
  end.

(** [needle in hay] on strings. *)
Fixpoint contains (needle hay : string) : bool :=
  String.prefix needle hay
  || match hay with
     | EmptyString => false
     | String _ hay' => contains needle hay'
     end.

(** [s.replace('Z', '+00:00')] *)
Fixpoint replace_Z (s : string) : string :=
  match s with
  | EmptyString => EmptyString
  | String c s' =>
      if Ascii.eqb c "Z"%char then "+00:00" +:+ replace_Z s'
      else String c (replace_Z s')
  end.

(** [str(n)] for an [int]. *)
Definition str_int (n : Z) : string := pretty n.

(** Truth value of a [str]: the empty string is false. *)
Definition truthy (s : string) : bool := negb (String.eqb s EmptyString).

(** Truth value of an [Optional[str]]: [None] and [""] are false. *)
Definition truthy_opt (o : option string) : bool :=
  match o with Some s => truthy s | None => false end.

(** Truth value of an [Optional[int]]: [None] and [0] are false. *)
Definition truthy_int (o : option Z) : bool :=
  match o with Some n => negb (n =? 0) | None => false end.

(** [len(s)] *)
Definition len (s : string) : Z := Z.of_nat (String.length s).

End Py.

(* ===================================================================== *)
(** * Exceptions and results *)
(* ===================================================================== *)

(** The exception classes the modelled code raises or catches.  All of them
    derive from [Exception]; [JSONDecodeError] derives from [ValueError], and
    the three specific OpenAI errors derive from [APIError]. *)
Inductive exn_class :=
  | ValueError
  | PlainException     (* [Exception(...)] itself *)
  | OverflowError
  | TypeError
  | KeyError
  | IndexError
  | JSONDecodeError
  | SyntaxError
  | DBAPIError         (* sqlalchemy.exc.DBAPIError and subclasses *)
  | APITimeoutError
  | RateLimitError
  | AuthenticationError
  | APIError.

Global Instance exn_class_eq_dec : EqDecision exn_class.
Proof. solve_decision. Defined.

(** An exception: its class and [str(e)]. *)
Record exn := Exn { exn_cls : exn_class; exn_str : string }.

Global Instance exn_eq_dec : EqDecision exn.
Proof. solve_decision. Defined.

(** [isinstance(e, ValueError)] *)
Definition is_ValueError (e : exn) : bool :=
  match exn_cls e with
  | ValueError | JSONDecodeError => true
  | _ => false
  end.

Inductive result (A : Type) :=
  | Ok (a : A)
  | Raise (e : exn).
Arguments Ok {A} a.
Arguments Raise {A} e.

Definition is_ok {A} (r : result A) : bool :=
  match r with Ok _ => true | Raise _ => false end.

(* ===================================================================== *)
(** * [datetime] and [timedelta] *)
(* ===================================================================== *)

Module Datetime.

(** A [datetime] is the number of microseconds since 0001-01-01T00:00:00.
    [datetime.max] is 9999-12-31T23:59:59.999999, whose date has ordinal
    3652059. *)
Definition t := Z.

Definition us_per_day : Z := 86400 * 1000000.
Definition max_ordinal : Z := 3652059.

Definition in_range (d : Z) : bool :=
  (0 <=? d) && (d <? max_ordinal * us_per_day).

(** [timedelta(days=n)]: the constructor refuses more than 999999999
    days in either direction. *)
Definition timedelta_days (n : Z) : result Z :=
  if (Z.abs n <=? 999999999) then Ok (n * us_per_day)
  else Raise (Exn OverflowError
                ("days=" +:+ Py.str_int n +:+ "; must have magnitude <= 999999999")).

(** [timedelta(weeks=n)] *)
Definition timedelta_weeks (n : Z) : result Z := timedelta_days (7 * n).

(** [d + delta] *)
Definition add (d : t) (delta : Z) : result t :=
  if in_range (d + delta) then Ok (d + delta)
  else Raise (Exn OverflowError "date value out of range").

(** [d + timedelta(days=n)] *)
Definition add_days (d : t) (n : Z) : result t :=
  match timedelta_days n with
  | Ok delta => add d delta
  | Raise e => Raise e
  end.

(** [d + timedelta(weeks=n)] *)
Definition add_weeks (d : t) (n : Z) : result t :=
  match timedelta_weeks n with
  | Ok delta => add d delta
  | Raise e => Raise e
  end.

End Datetime.

(* ===================================================================== *)
(** * The tasks table ([app/models/task.py]) *)
(* ===================================================================== *)

Module Task.

(** The columns of a row of [tasks] other than the primary key [id]; the
    key itself is the key of the row in [store_tasks] below. *)
Record t := Make {
  user_id : string;
  title : string;
  description : option string;
  completed : bool;
  created_at : Datetime.t;
  updated_at : Datetime.t;
  priority : option string;
  tags : option (list string);
  due_date : option Datetime.t;
  recurrence : option string;
  recurrence_interval : option Z;
  parent_task_id : option Z
}.

End Task.

(** [PriorityEnum(s)]: the member whose value is [s], [None] when the
    constructor raises [ValueError].  The result is the member's [.value]. *)
Definition PriorityEnum (s : string) : option string :=
  if String.eqb s "high" then Some "high"
  else if String.eqb s "medium" then Some "medium"
  else if String.eqb s "low" then Some "low"
  else None.

(** [RecurrenceEnum(s)], likewise. *)
Definition RecurrenceEnum (s : string) : option string :=
  if String.eqb s "daily" then Some "daily"
  else if String.eqb s "weekly" then Some "weekly"
  else if String.eqb s "monthly" then Some "monthly"
  else if String.eqb s "custom" then Some "custom"
  else None.

(** [tasks.id], [sa.Column('id', sa.Integer(), primary_key=True)], holds
    the integers of 32 bits. *)
Definition int4_min : Z := -2147483648.
Definition int4_max : Z := 2147483647.

Definition is_int4 (n : Z) : bool := (int4_min <=? n) && (n <=? int4_max).

(** The database: what is stored by primary key, and the sequence that
    feeds the key of the next inserted row. *)
Record store := Store {
  store_rows : gmap Z Task.t;
  store_next_id : Z
}.

(** The rows of [tasks].  The key is a value of the INTEGER column: what
    [store_rows] holds under a key of more than 32 bits is no row of the
    table. *)
Definition store_tasks (s : store) : gmap Z Task.t :=
  filter (λ r : Z * Task.t, is_int4 (fst r)) (store_rows s).

(** What the tools use but do not define. *)
Class Platform := {
  (** [datetime.fromisoformat]: [None] when it raises [ValueError]. *)
  fromisoformat : string -> option Datetime.t;
  (** The database's verdict on a row written by INSERT or UPDATE: [Some m]
      when it refuses the row (a column constraint of the schema), [m] being
      the text of the driver's error. *)
  db_rejects : Task.t -> option string
}.

(** ** Session operations, all inside one transaction *)

(** What [db.execute] raises when the driver cannot encode [task_id] for
    the INTEGER column it is compared with.  [str(e)] carries the driver's
    message and the parameters of the statement. *)
Definition out_of_int32_range (task_id : Z) (user_id : string) : exn :=
  Exn DBAPIError
    ("invalid input for query argument $1: " +:+ Py.str_int task_id
     +:+ " (value out of int32 range) [parameters: (" +:+ Py.str_int task_id
     +:+ ", '" +:+ user_id +:+ "')]").

(** [db.execute(select(Task).where(Task.id == task_id,
    Task.user_id == user_id))] followed by [scalar_one_or_none()].  The
    driver encodes [task_id] as an integer of 32 bits before the statement
    is sent, and raises when it does not fit. *)
Definition select_task (task_id : Z) (user_id : string) (s : store)
  : result (option Task.t) :=
  if negb (is_int4 task_id) then Raise (out_of_int32_range task_id user_id)
  else
    Ok (match store_tasks s !! task_id with
        | Some row =>
            if decide (Task.user_id row = user_id) then Some row else None
        | None => None
        end).

(** UPDATE of the row [task_id] at flush. *)
Definition flush_update `{Platform} (task_id : Z) (row : Task.t) (s : store)
  : result store :=
  match db_rejects row with
  | Some m => Raise (Exn DBAPIError m)
  | None => Ok (Store (<[task_id := row]> (store_tasks s)) (store_next_id s))
  end.

(** INSERT of a new row at flush: the key comes from the sequence, and the
    column refuses a key of more than 32 bits. *)
Definition flush_insert `{Platform} (row : Task.t) (s : store)
  : result (Z * store) :=
  match db_rejects row with
  | Some m => Raise (Exn DBAPIError m)
  | None =>
      let new_id := store_next_id s in
      if negb (is_int4 new_id) then
        Raise (Exn DBAPIError "integer out of range")
      else
        match store_tasks s !! new_id with
        | Some _ =>
            Raise (Exn DBAPIError
                     "duplicate key value violates unique constraint")
        | None =>
            Ok (new_id, Store (<[new_id := row]> (store_tasks s)) (new_id + 1))
        end
  end.

(** DELETE of the row [task_id] at flush. *)
Definition flush_delete (task_id : Z) (s : store) : store :=
  Store (delete task_id (store_tasks s)) (store_next_id s).

(** ** Returned dictionaries *)

(** The ["task"] entry of [complete_task]'s result. *)
Record task_brief := TaskBrief {
  tb_id : Z;
  tb_title : string;
  tb_description : option string;
  tb_completed : bool;
  tb_user_id : string
}.

(** The ["task"] entry of [add_task]'s and [update_task]'s result;
    ["due_date"] is kept as the [datetime] that [isoformat()] prints. *)
Record task_info := TaskInfo {
  ti_id : Z;
  ti_title : string;
  ti_description : option string;
  ti_completed : bool;
  ti_user_id : string;
  ti_priority : option string;
  ti_tags : option (list string);
  ti_due_date : option Datetime.t;
  ti_recurrence : option string;
  ti_recurrence_interval : option Z
}.

(** An entry of [list_tasks]'s ["tasks"] list. *)
Record task_entry := TaskEntry {
  te_id : Z;
  te_title : string;
  te_description : option string;
  te_completed : bool;
  te_user_id : string;
  te_created_at : Datetime.t;
  te_updated_at : Datetime.t;
  te_priority : option string;
  te_tags : option (list string);
  te_due_date : option Datetime.t;
  te_recurrence : option string;
  te_recurrence_interval : option Z;
  te_parent_task_id : option Z
}.

(** [{"success": True, "task": ..., "message": ...}] *)
Record task_response := TaskResponse {
  tr_task : task_info;
  tr_message : string
}.

(** [complete_task]'s result; ["next_task"] is present when a successor was
    created. *)
Record complete_response := CompleteResponse {
  cr_task : task_brief;
  cr_message : string;
  cr_next_task : option (Z * option Datetime.t)
}.

(** [{"success": True, "tasks": ..., "count": ..., "message": ...}] *)
Record list_response := ListResponse {
  lr_tasks : list task_entry;
  lr_count : Z;
  lr_message : string
}.

(** [{"success": True, "task_id": ..., "message": ...}] *)
Record delete_response := DeleteResponse {
  dr_task_id : Z;
  dr_message : string
}.

Definition task_info_of (task_id : Z) (row : Task.t) : task_info :=
  {| ti_id := task_id;
     ti_title := Task.title row;
     ti_description := Task.description row;
     ti_completed := Task.completed row;
     ti_user_id := Task.user_id row;
     ti_priority := Task.priority row;
     ti_tags := Task.tags row;
     ti_due_date := Task.due_date row;
     ti_recurrence := Task.recurrence row;
     ti_recurrence_interval := Task.recurrence_interval row |}.

(* ===================================================================== *)
(** * The tool set ([app/mcp/tools/]) *)
(* ===================================================================== *)

Global Instance result_ret : MRet result := @Ok.
Global Instance result_bind : MBind result := λ A B f r,
  match r with Ok a => f a | Raise e => Raise e end.

Global Instance result_fmap : FMap result := λ A B f r,
  match r with Ok a => Ok (f a) | Raise e => Raise e end.

(** [if cond: raise e] *)
Definition raise_if (cond : bool) (e : exn) : result unit :=
  if cond then Raise e else Ok ().

(** ** [add_task] *)

Definition add_task_invalid_priority (priority : string) : exn :=
  Exn ValueError
    ("Invalid priority: " +:+ priority +:+ ". Must be one of: high, medium, low").

Definition add_task_invalid_recurrence (recurrence : string) : exn :=
  Exn ValueError
    ("Invalid recurrence: " +:+ recurrence
     +:+ ". Must be one of: daily, weekly, monthly, custom").

Definition invalid_due_date (due_date : string) : exn :=
  Exn ValueError
    ("Invalid due_date format: " +:+ due_date
     +:+ ". Use ISO format (YYYY-MM-DD or YYYY-MM-DDTHH:MM:SS)").

(** The statements of [add_task] before its [try]: validation and
    normalisation of the arguments.  The result is the tuple
    [(title, description, priority_enum, recurrence_enum, due_date_dt)]. *)
Definition add_task_validate `{Platform}
    (user_id title : string) (description priority : option string)
    (due_date recurrence : option string) (recurrence_interval : option Z)
  : result (string * option string * option string * option string
            * option Datetime.t) :=
  raise_if (negb (Py.truthy user_id) || (Py.len user_id =? 0))
    (Exn ValueError "user_id must be a non-empty string");;
  raise_if (negb (Py.truthy title) || negb (Py.truthy (Py.strip title)))
    (Exn ValueError "title cannot be empty");;
  let title := Py.strip title in
  let description :=
    match description with
    | Some d =>
        if Py.truthy d
        then (if Py.truthy (Py.strip d) then Some (Py.strip d) else None)
        else description
    | None => None
    end in
  priority_enum ←
    match priority with
    | Some p =>
        if Py.truthy p then
          match PriorityEnum (Py.lower p) with
          | Some v => Ok (Some v)
          | None => Raise (add_task_invalid_priority p)
          end
        else Ok None
    | None => Ok None
    end;
  recurrence_enum ←
    match recurrence with
    | Some r =>
        if Py.truthy r then
          match RecurrenceEnum (Py.lower r) with
          | Some v =>
              raise_if (bool_decide (v = "custom")
                        && negb (Py.truthy_int recurrence_interval))
                (Exn ValueError
                   "recurrence_interval is required when recurrence is 'custom'");;
              raise_if (Py.truthy_int recurrence_interval
                        && match recurrence_interval with
                           | Some n => n <? 1
                           | None => false
                           end)
                (Exn ValueError "recurrence_interval must be a positive integer");;
              Ok (Some v)
          | None => Raise (add_task_invalid_recurrence r)
          end
        else Ok None
    | None => Ok None
    end;
  due_date_dt ←
    match due_date with
    | Some d =>
        if Py.truthy d then
          match fromisoformat (Py.replace_Z d) with
          | Some dt => Ok (Some dt)
          | None => Raise (invalid_due_date d)
          end
        else Ok None
    | None => Ok None
    end;
  Ok (title, description, priority_enum, recurrence_enum, due_date_dt).

(** [add_task(user_id, title, description, priority, tags, due_date,
    recurrence, recurrence_interval)].  [now] is what [datetime.utcnow]
    returns while the row is built. *)
Definition add_task `{Platform} (now : Datetime.t)
    (user_id title : string) (description priority : option string)
    (tags : option (list string)) (due_date recurrence : option string)
    (recurrence_interval : option Z) (s : store)
  : result task_response * store :=
  match add_task_validate user_id title description priority due_date
          recurrence recurrence_interval with
  | Raise e => (Raise e, s)
  | Ok (title, description, priority_enum, recurrence_enum, due_date_dt) =>
      (* try: *)
      let task :=
        {| Task.user_id := user_id;
           Task.title := title;
           Task.description := description;
           Task.completed := false;
           Task.created_at := now;
           Task.updated_at := now;
           Task.priority := priority_enum;
           Task.tags := tags;
           Task.due_date := due_date_dt;
           Task.recurrence := recurrence_enum;
           Task.recurrence_interval := recurrence_interval;
           Task.parent_task_id := None |} in
      match flush_insert task s with
      | Ok (new_id, s') =>
          (Ok {| tr_task := task_info_of new_id task;
                 tr_message := "Task '" +:+ title +:+ "' created successfully" |},
           s')
      | Raise e =>
          (* except Exception as e: *)
          (Raise (Exn PlainException ("Database error: " +:+ exn_str e)), s)
      end
  end.

(** ** [list_tasks] *)

Definition valid_statuses : list string := ["all"; "pending"; "completed"].

(** [ORDER BY created_at DESC] *)
Definition newer_first (a b : Z * Task.t) : Prop :=
  Task.created_at (snd b) ≤ Task.created_at (snd a).

Global Instance newer_first_dec a b : Decision (newer_first a b).
Proof. unfold newer_first. apply _. Defined.

Definition task_entry_of (r : Z * Task.t) : task_entry :=
  let task := snd r in
  {| te_id := fst r;
     te_title := Task.title task;
     te_description := Task.description task;
     te_completed := Task.completed task;
     te_user_id := Task.user_id task;
     te_created_at := Task.created_at task;
     te_updated_at := Task.updated_at task;
     te_priority :=
       if Py.truthy_opt (Task.priority task) then Task.priority task else None;
     te_tags :=
       match Task.tags task with
       | Some (_ :: _) => Task.tags task
       | _ => None
       end;
     te_due_date := Task.due_date task;
     te_recurrence :=
       if Py.truthy_opt (Task.recurrence task) then Task.recurrence task
       else None;
     te_recurrence_interval :=
       if Py.truthy_int (Task.recurrence_interval task)
       then Task.recurrence_interval task else None;
     te_parent_task_id :=
       if Py.truthy_int (Task.parent_task_id task)
       then Task.parent_task_id task else None |}.

(** The rows that the query of [list_tasks] selects, before ordering. *)
Definition list_tasks_where (user_id status : string) (r : Z * Task.t) : bool :=
  bool_decide (Task.user_id (snd r) = user_id)
  && (if String.eqb status "pending" then negb (Task.completed (snd r))
      else if String.eqb status "completed" then Task.completed (snd r)
      else true).

(** [list_tasks(user_id, status="all")] *)
Definition list_tasks (user_id status : string) (s : store)
  : result list_response * store :=
  if negb (Py.truthy user_id) || negb (Py.truthy (Py.strip user_id)) then
    (Raise (Exn ValueError "user_id must be a non-empty string"), s)
  else if negb (bool_decide (status ∈ valid_statuses)) then
    (Raise (Exn ValueError "status must be one of: all, pending, completed"), s)
  else
    let user_id := Py.strip user_id in
    let tasks :=
      merge_sort newer_first
        (filter (λ r, list_tasks_where user_id status r)
           (map_to_list (store_tasks s))) in
    let task_list := task_entry_of <$> tasks in
    let count := Z.of_nat (length task_list) in
    let message :=
      if String.eqb status "all"
      then "Retrieved " +:+ Py.str_int count +:+ " task(s)"
      else "Retrieved " +:+ Py.str_int count +:+ " " +:+ status +:+ " task(s)" in
    (Ok {| lr_tasks := task_list; lr_count := count; lr_message := message |}, s).

(** ** [complete_task] *)

Definition task_id_invalid : exn :=
  Exn ValueError "task_id must be a positive integer".

Definition user_id_invalid : exn :=
  Exn ValueError "user_id must be a non-empty string".

(** [not task_id or task_id <= 0], where [task_id] may be [None]. *)
Definition task_id_rejected (task_id : option Z) : bool :=
  match task_id with
  | None => true
  | Some n => (n =? 0) || (n <=? 0)
  end.

Definition complete_task_not_found (task_id : Z) : exn :=
  Exn PlainException
    ("Task with id " +:+ Py.str_int task_id
     +:+ " not found or you don't have permission to access it").

(** The due date of the successor of a recurring task. *)
Definition next_due_date (task : Task.t) : result (option Datetime.t) :=
  match Task.due_date task with
  | Some due =>
      if bool_decide (Task.recurrence task = Some "daily") then
        Some <$> Datetime.add_days due 1
      else if bool_decide (Task.recurrence task = Some "weekly") then
        Some <$> Datetime.add_weeks due 1
      else if bool_decide (Task.recurrence task = Some "monthly") then
        Some <$> Datetime.add_days due 30
      else if bool_decide (Task.recurrence task = Some "custom")
              && Py.truthy_int (Task.recurrence_interval task) then
        match Task.recurrence_interval task with
        | Some n => Some <$> Datetime.add_days due n
        | None => Ok None
        end
      else Ok None
  | None => Ok None
  end.

(** [task.completed = True; task.updated_at = datetime.utcnow()] *)
Definition mark_completed (now : Datetime.t) (task : Task.t) : Task.t :=
  {| Task.user_id := Task.user_id task;
     Task.title := Task.title task;
     Task.description := Task.description task;
     Task.completed := true;
     Task.created_at := Task.created_at task;
     Task.updated_at := now;
     Task.priority := Task.priority task;
     Task.tags := Task.tags task;
     Task.due_date := Task.due_date task;
     Task.recurrence := Task.recurrence task;
     Task.recurrence_interval := Task.recurrence_interval task;
     Task.parent_task_id := Task.parent_task_id task |}.

(** The [Task(...)] that [complete_task] builds for the next instance. *)
Definition successor (now : Datetime.t) (task_id : Z) (task : Task.t)
    (next_due : option Datetime.t) : Task.t :=
  {| Task.user_id := Task.user_id task;
     Task.title := Task.title task;
     Task.description := Task.description task;
     Task.completed := false;
     Task.created_at := now;
     Task.updated_at := now;
     Task.priority := Task.priority task;
     Task.tags := Task.tags task;
     Task.due_date := next_due;
     Task.recurrence := Task.recurrence task;
     Task.recurrence_interval := Task.recurrence_interval task;
     Task.parent_task_id := Some task_id |}.

(** The body of the [try] of [complete_task].  The session flushes the
    UPDATE of the completed row before the INSERT of the successor, both in
    the transaction that [db.commit()] ends. *)
Definition complete_task_body `{Platform} (now : Datetime.t)
    (user_id : string) (task_id : Z) (s : store)
  : result (complete_response * store) :=
  selected ← select_task task_id user_id s;
  match selected with
  | None => Raise (complete_task_not_found task_id)
  | Some task =>
      let task := mark_completed now task in
      next_task ←
        (if Py.truthy_opt (Task.recurrence task) then
           next_due ← next_due_date task;
           Ok (Some (successor now task_id task next_due))
         else Ok None);
      s1 ← flush_update task_id task s;
      let brief :=
        {| tb_id := task_id;
           tb_title := Task.title task;
           tb_description := Task.description task;
           tb_completed := Task.completed task;
           tb_user_id := Task.user_id task |} in
      let message := "Task '" +:+ Task.title task +:+ "' marked as completed" in
      match next_task with
      | None =>
          Ok ({| cr_task := brief; cr_message := message;
                 cr_next_task := None |}, s1)
      | Some nt =>
          '(next_id, s2) ← flush_insert nt s1;
          Ok ({| cr_task := brief;
                 cr_message :=
                   message +:+ " (Next instance created with ID "
                   +:+ Py.str_int next_id +:+ ")";
                 cr_next_task := Some (next_id, Task.due_date nt) |}, s2)
      end
  end.

(** The [except] clauses of [complete_task]. *)
Definition complete_task_except (e : exn) : exn :=
  if is_ValueError e then e
  else if Py.contains "not found" (exn_str e) then e
  else Exn PlainException ("Database error: " +:+ exn_str e).

(** [complete_task(user_id, task_id)] *)
Definition complete_task `{Platform} (now : Datetime.t)
    (user_id : string) (task_id : option Z) (s : store)
  : result complete_response * store :=
  if negb (Py.truthy user_id) || (Py.len user_id =? 0) then
    (Raise user_id_invalid, s)
  else if task_id_rejected task_id then (Raise task_id_invalid, s)
  else
    match task_id with
    | None => (Raise task_id_invalid, s)
    | Some task_id =>
        match complete_task_body now user_id task_id s with
        | Ok (response, s') => (Ok response, s')
        | Raise e => (Raise (complete_task_except e), s)
        end
    end.

(** The result that [complete_task] builds for a recurring task. *)
Definition recurring_response (task_id : Z) (task : Task.t) (next_id : Z)
    (next_due : option Datetime.t) : complete_response :=
  {| cr_task :=
       {| tb_id := task_id;
          tb_title := Task.title task;
          tb_description := Task.description task;
          tb_completed := true;
          tb_user_id := Task.user_id task |};
     cr_message :=
       ("Task '" +:+ Task.title task +:+ "' marked as completed")
       +:+ " (Next instance created with ID " +:+ Py.str_int next_id +:+ ")";
     cr_next_task := Some (next_id, next_due) |}.

(** ** [delete_task] *)

Definition delete_task_not_found (task_id : Z) : exn :=
  Exn PlainException
    ("Task with id " +:+ Py.str_int task_id
     +:+ " not found or you don't have permission to delete it").

Definition delete_task_body (user_id : string) (task_id : Z) (s : store)
  : result (delete_response * store) :=
  selected ← select_task task_id user_id s;
  match selected with
  | None => Raise (delete_task_not_found task_id)
  | Some task =>
      let task_title := Task.title task in
      Ok ({| dr_task_id := task_id;
             dr_message := "Task '" +:+ task_title +:+ "' deleted successfully" |},
          flush_delete task_id s)
  end.

(** The [except] clause of [delete_task]. *)
Definition delete_task_except (e : exn) : exn :=
  if Py.contains "not found or you don't have permission" (exn_str e) then e
  else Exn PlainException ("Database error: " +:+ exn_str e).

(** [delete_task(user_id, task_id)] *)
Definition delete_task (user_id : string) (task_id : option Z) (s : store)
  : result delete_response * store :=
  if negb (Py.truthy user_id) || (Py.len user_id =? 0) then
    (Raise user_id_invalid, s)
  else if task_id_rejected task_id then (Raise task_id_invalid, s)
  else
    match task_id with
    | None => (Raise task_id_invalid, s)
    | Some task_id =>
        match delete_task_body user_id task_id s with
        | Ok (response, s') => (Ok response, s')
        | Raise e => (Raise (delete_task_except e), s)
        end
    end.

(** ** [update_task] *)

(** The optional arguments of [update_task]; [None] is "not supplied". *)
Record update_fields := UpdateFields {
  uf_title : option string;
  uf_description : option string;
  uf_priority : option string;
  uf_tags : option (list string);
  uf_due_date : option string;
  uf_recurrence : option string;
  uf_recurrence_interval : option Z
}.

(** [all(v is None for v in [title, description, priority, tags, due_date,
    recurrence, recurrence_interval])] *)
Definition no_updates (f : update_fields) : bool :=
  match uf_title f, uf_description f, uf_priority f, uf_tags f,
        uf_due_date f, uf_recurrence f, uf_recurrence_interval f with
  | None, None, None, None, None, None, None => true
  | _, _, _, _, _, _, _ => false
  end.

(** The arguments after validation: the values that the assignments under
    [# Update provided fields] read.  [uv_due_date_dt] is [due_date_dt]. *)
Record update_values := UpdateValues {
  uv_title : option string;
  uv_description : option string;
  uv_priority_enum : option string;
  uv_due_date_dt : option Datetime.t;
  uv_recurrence_enum : option string
}.

Definition update_task_not_found (task_id : Z) (user_id : string) : exn :=
  Exn ValueError
    ("Task with id " +:+ Py.str_int task_id
     +:+ " not found or does not belong to user " +:+ user_id).

(** The statements of [update_task] before its [try]. *)
Definition update_task_validate `{Platform}
    (user_id : string) (task_id : option Z) (f : update_fields)
  : result update_values :=
  raise_if (negb (Py.truthy user_id) || (Py.len user_id =? 0)) user_id_invalid;;
  raise_if (task_id_rejected task_id) task_id_invalid;;
  raise_if (no_updates f)
    (Exn ValueError "At least one field must be provided for update");;
  title ←
    match uf_title f with
    | Some t =>
        raise_if (negb (Py.truthy (Py.strip t)))
          (Exn ValueError "title cannot be empty");;
        Ok (Some (Py.strip t))
    | None => Ok None
    end;
  let description :=
    match uf_description f with
    | Some d => if Py.truthy (Py.strip d) then Some (Py.strip d) else None
    | None => None
    end in
  priority_enum ←
    match uf_priority f with
    | Some p =>
        match PriorityEnum (Py.lower p) with
        | Some v => Ok (Some v)
        | None => Raise (add_task_invalid_priority p)
        end
    | None => Ok None
    end;
  recurrence_enum ←
    match uf_recurrence f with
    | Some r =>
        match RecurrenceEnum (Py.lower r) with
        | Some v =>
            raise_if (bool_decide (v = "custom")
                      && negb (Py.truthy_int (uf_recurrence_interval f)))
              (Exn ValueError
                 "recurrence_interval is required when recurrence is 'custom'");;
            Ok (Some v)
        | None => Raise (add_task_invalid_recurrence r)
        end
    | None => Ok None
    end;
  due_date_dt ←
    match uf_due_date f with
    | Some d =>
        match fromisoformat (Py.replace_Z d) with
        | Some dt => Ok (Some dt)
        | None => Raise (invalid_due_date d)
        end
    | None => Ok None
    end;
  Ok {| uv_title := title;
        uv_description := description;
        uv_priority_enum := priority_enum;
        uv_due_date_dt := due_date_dt;
        uv_recurrence_enum := recurrence_enum |}.

(** The assignments under [# Update provided fields] and
    [# Update timestamp]. *)
Definition apply_updates (now : Datetime.t) (f : update_fields)
    (v : update_values) (task : Task.t) : Task.t :=
  {| Task.user_id := Task.user_id task;
     Task.title :=
       match uv_title v with Some t => t | None => Task.title task end;
     Task.description :=
       match uv_description v with
       | Some d => Some d
       | None => Task.description task
       end;
     Task.completed := Task.completed task;
     Task.created_at := Task.created_at task;
     Task.updated_at := now;
     Task.priority :=
       match uf_priority f with
       | Some _ => uv_priority_enum v
       | None => Task.priority task
       end;
     Task.tags :=
       match uf_tags f with
       | Some tags => Some tags
       | None => Task.tags task
       end;
     Task.due_date :=
       match uf_due_date f with
       | Some _ => uv_due_date_dt v
       | None => Task.due_date task
       end;
     Task.recurrence :=
       match uf_recurrence f with
       | Some _ => uv_recurrence_enum v
       | None => Task.recurrence task
       end;
     Task.recurrence_interval :=
       match uf_recurrence_interval f with
       | Some n => Some n
       | None => Task.recurrence_interval task
       end;
     Task.parent_task_id := Task.parent_task_id task |}.

Definition update_task_body `{Platform} (now : Datetime.t)
    (user_id : string) (task_id : Z) (f : update_fields) (v : update_values)
    (s : store)
  : result (task_response * store) :=
  selected ← select_task task_id user_id s;
  match selected with
  | None => Raise (update_task_not_found task_id user_id)
  | Some task =>
      let task := apply_updates now f v task in
      s' ← flush_update task_id task s;
      Ok ({| tr_task := task_info_of task_id task;
             tr_message := "Task updated successfully" |}, s')
  end.

(** The [except] clauses of [update_task]. *)
Definition update_task_except (e : exn) : exn :=
  if is_ValueError e then e
  else Exn PlainException ("Database error: " +:+ exn_str e).

(** [update_task(user_id, task_id, title, description, priority, tags,
    due_date, recurrence, recurrence_interval)] *)
Definition update_task `{Platform} (now : Datetime.t)
    (user_id : string) (task_id : option Z) (f : update_fields) (s : store)
  : result task_response * store :=
  match update_task_validate user_id task_id f with
  | Raise e => (Raise e, s)
  | Ok v =>
      match task_id with
      | None => (Raise task_id_invalid, s)
      | Some task_id =>
          match update_task_body now user_id task_id f v s with
          | Ok (response, s') => (Ok response, s')
          | Raise e => (Raise (update_task_except e), s)
          end
      end
  end.

(** The "not found" failure, as [complete_task] itself recognises it:
    ["not found" in str(e)]. *)
Definition is_not_found (e : exn) : bool := Py.contains "not found" (exn_str e).

(* ===================================================================== *)
(** * The agent orchestrators *)
(* ===================================================================== *)

(** A value that [json.loads] returns or [json.dumps] prints.  A [float] is
    kept as its text. *)
#[warnings="-register-all"]
Inductive json :=
  | JNull
  | JBool (b : bool)
  | JInt (n : Z)
  | JFloat (text : string)
  | JStr (s : string)
  | JList (l : list json)
  | JDict (d : gmap string json).

(** One entry of [message.tool_calls]: [tool_call.id],
    [tool_call.function.name] and [tool_call.function.arguments]. *)
Record tool_call := ToolCall {
  tc_id : string;
  tc_name : string;
  tc_arguments : string
}.

(** [response.choices[i].message]; an absent [tool_calls] is the empty
    list, both being false in [if not message.tool_calls]. *)
Record llm_message := LLMMessage {
  msg_content : option string;
  msg_tool_calls : list tool_call
}.

(** An element of the list of messages sent to the model. *)
Inductive chat_message :=
  | RoleContent (role content : string)
  | AssistantMessage (message : llm_message)
  (** [{"role": "tool", "tool_call_id": ..., "content": dumps(value)}];
      [content] is kept as the value that is printed. *)
  | ToolMessage (tool_call_id : string) (content : json).

(** What an orchestrator does to its collaborators, in order. *)
Inductive event :=
  | LLMCall (messages : list chat_message)
  | ToolDispatch (name : string) (kwargs : gmap string json).

(** A class other than the JSON types, by what its instances do under the
    three operations that [agent.py] applies to [tool_args].  An instance
    is its state; an operation returns the state it leaves the instance in,
    or raises. *)
Record pyclass := PyClass {
  py_state : Type;
  (** [f"{obj}"], that is [format(obj, "")] *)
  py_format : py_state -> result py_state;
  (** [obj[key] = value], that is [type(obj).__setitem__(obj, key, value)] *)
  py_setitem : py_state -> string -> json -> result py_state;
  (** the keyword arguments that [**obj] passes in a call *)
  py_unpack : py_state -> result (gmap string json)
}.

(** A Python object: a value of a JSON type, or an instance of another
    class. *)
Inductive pyvalue :=
  | PyJson (a : json)
  | PyInstance (c : pyclass) (st : py_state c).

(** Library functions the orchestrators call. *)
Class Library := {
  (** [json.loads]: [inr m] when it raises [JSONDecodeError], [m] being
      [str(e)]. *)
  json_loads : string -> json + string;
  (** [eval] of an expression in the scope of [run_agent]: the object the
      expression evaluates to, of whatever class, or the exception the
      evaluation raises.  An expression is taken to do nothing but that:
      one that acts on the process while it is evaluated is not
      described. *)
  py_eval : string -> result pyvalue;
  (** [repr] of a [str]. *)
  py_repr : string -> string
}.

(** Every text that [eval] accepts evaluates to a value of a JSON type. *)
Definition evaluates_to_json `{Library} : Prop :=
  forall text v, py_eval text = Ok v -> exists a, v = PyJson a.

(** A tool as an orchestrator sees it: called with keyword arguments on a
    world of type [W], it returns a dictionary or raises.  The dictionary is
    one that [json.dumps] prints, as those of the five tools are. *)
Definition tool (W : Type) : Type := gmap string json -> W -> result json * W.

(** The chat-completion endpoint: the [choices] of the response, or the
    exception the client raises. *)
Definition llm_client : Type := list chat_message -> result (list llm_message).

(** [tool_args["user_id"] = user_id], [tool_args] being whatever was
    parsed. *)
Definition set_user_id (tool_args : json) (user_id : string)
  : result (gmap string json) :=
  match tool_args with
  | JDict d => Ok (<["user_id" := JStr user_id]> d)
  | JList _ =>
      Raise (Exn TypeError "list indices must be integers or slices, not str")
  | JStr _ =>
      Raise (Exn TypeError "'str' object does not support item assignment")
  | JInt _ =>
      Raise (Exn TypeError "'int' object does not support item assignment")
  | JFloat _ =>
      Raise (Exn TypeError "'float' object does not support item assignment")
  | JBool _ =>
      Raise (Exn TypeError "'bool' object does not support item assignment")
  | JNull =>
      Raise (Exn TypeError "'NoneType' object does not support item assignment")
  end.

(** [{"success": False, "error": error_msg}] *)
Definition failure_dict (error_msg : string) : json :=
  JDict (<["success" := JBool false]> (<["error" := JStr error_msg]> ∅)).

(** The state an orchestrator run ends in. *)
Record run (A W : Type) := Run {
  run_outcome : result A;
  run_world : W;
  run_trace : list event
}.
Arguments Run {A W} _ _ _.
Arguments run_outcome {A W} _.
Arguments run_world {A W} _.
Arguments run_trace {A W} _.

(** The number of round trips to the model in a trace. *)
Fixpoint llm_calls (trace : list event) : nat :=
  match trace with
  | [] => O
  | LLMCall _ :: trace' => S (llm_calls trace')
  | ToolDispatch _ _ :: trace' => llm_calls trace'
  end.

(** The tool invocations of a trace: the name and the keyword arguments
    each tool callable received. *)
Fixpoint dispatches (trace : list event) : list (string * gmap string json) :=
  match trace with
  | [] => []
  | LLMCall _ :: trace' => dispatches trace'
  | ToolDispatch name kwargs :: trace' => (name, kwargs) :: dispatches trace'
  end.

(** The reply asks for at least one tool. *)
Definition asks_for_tools (reply : result (list llm_message)) : Prop :=
  match reply with
  | Ok (m :: _) => msg_tool_calls m <> []
  | _ => False
  end.

Global Instance asks_for_tools_dec reply : Decision (asks_for_tools reply).
Proof.
  destruct reply as [[|m choices]|e]; simpl; [right; tauto | | right; tauto].
  destruct (msg_tool_calls m); [right; tauto | left; done].
Defined.

(** The names of the tools a reply asks for. *)
Definition requested (reply : result (list llm_message)) : list string :=
  match reply with
  | Ok (m :: _) => tc_name <$> msg_tool_calls m
  | _ => []
  end.

(** The names of all tools the model asked for during a run, in order. *)
Fixpoint requested_names (llm : list chat_message -> result (list llm_message))
    (trace : list event) : list string :=
  match trace with
  | [] => []
  | LLMCall msgs :: trace' => requested (llm msgs) ++ requested_names llm trace'
  | ToolDispatch _ _ :: trace' => requested_names llm trace'
  end.

(** ** Runs that differ only in the [user_id] the model supplies

    Two argument values agree up to [user_id] when both are dictionaries
    that agree on every other key, or when they are the same value. *)
Definition json_sim (a1 a2 : json) : Prop :=
  match a1, a2 with
  | JDict d1, JDict d2 => delete "user_id" d1 = delete "user_id" d2
  | _, _ => a1 = a2
  end.

(** Two tool-call requests agree up to [user_id], [parse] being the
    function the orchestrator reads the arguments with. *)
Definition tool_call_sim {E} (parse : string -> json + E) (tc1 tc2 : tool_call)
  : Prop :=
  tc_id tc1 = tc_id tc2
  /\ tc_name tc1 = tc_name tc2
  /\ match parse (tc_arguments tc1), parse (tc_arguments tc2) with
     | inl a1, inl a2 => json_sim a1 a2
     | inr e1, inr e2 => e1 = e2
     | _, _ => False
     end.

Definition llm_message_sim {E} (parse : string -> json + E) (m1 m2 : llm_message)
  : Prop :=
  msg_content m1 = msg_content m2
  /\ Forall2 (tool_call_sim parse) (msg_tool_calls m1) (msg_tool_calls m2).

Inductive chat_message_sim {E} (parse : string -> json + E)
  : chat_message -> chat_message -> Prop :=
  | sim_role_content role content :
      chat_message_sim parse (RoleContent role content) (RoleContent role content)
  | sim_assistant m1 m2 :
      llm_message_sim parse m1 m2 ->
      chat_message_sim parse (AssistantMessage m1) (AssistantMessage m2)
  | sim_tool id content :
      chat_message_sim parse (ToolMessage id content) (ToolMessage id content).

(** Two replies of the model agree up to [user_id]; only [choices[0]] is
    read. *)
Definition reply_sim {E} (parse : string -> json + E)
    (r1 r2 : result (list llm_message)) : Prop :=
  match r1, r2 with
  | Ok (m1 :: _), Ok (m2 :: _) => llm_message_sim parse m1 m2
  | Ok [], Ok [] => True
  | Raise e1, Raise e2 => e1 = e2
  | _, _ => False
  end.

(** Two models that, on transcripts agreeing up to [user_id], give replies
    agreeing up to [user_id]. *)
Definition llm_sim {E} (parse : string -> json + E) (llm1 llm2 : llm_client)
  : Prop :=
  forall t1 t2,
    Forall2 (chat_message_sim parse) t1 t2 -> reply_sim parse (llm1 t1) (llm2 t2).

(** ** [Phase03/backend/app/agent/runner.py] *)

Module Runner.

Definition SYSTEM_PROMPT : string :=
  "You are a helpful todo assistant. You help users manage their tasks through natural language.

Available operations:
- Add task: Create a new task with title and optional description
- List tasks: View all tasks, or filter by pending/completed status
- Complete task: Mark a task as completed
- Delete task: Remove a task permanently
- Update task: Modify task title and/or description

Always confirm actions and provide clear, friendly feedback. When users request operations:
1. Extract the necessary information from their request
2. Call the appropriate tool with the correct parameters
3. Confirm the result in a natural, conversational way

If a request is ambiguous or missing required information, ask clarifying questions before taking action.".

Record agent_result := AgentResult {
  response : string;
  tool_calls : list string;
  success : bool;
  error : option string
}.

Definition is_api_error (e : exn) : bool :=
  match exn_cls e with
  | APITimeoutError | RateLimitError | AuthenticationError | APIError => true
  | _ => false
  end.

(** The state after one pass of [for tool_call in message.tool_calls]. *)
Record step (W : Type) := Step {
  step_messages : list chat_message;   (* what was appended to full_messages *)
  step_world : W;
  step_trace : list event
}.
Arguments Step {W} _ _ _.
Arguments step_messages {W} _.
Arguments step_world {W} _.
Arguments step_trace {W} _.

(** The [try] block for one tool call: the value that is dumped into the
    tool message, or the exception that leaves the block. *)
Definition tool_call_try `{Library} {W} (TOOL_FUNCTIONS : string -> option (tool W))
    (user_id : string) (tc : tool_call) (w : W)
  : result json * W * list event :=
  match json_loads (tc_arguments tc) with
  | inr m => (Raise (Exn JSONDecodeError m), w, [])
  | inl tool_args =>
      match TOOL_FUNCTIONS (tc_name tc) with
      | None =>
          (Ok (failure_dict ("Unknown tool: " +:+ tc_name tc)), w, [])
      | Some tool_func =>
          match set_user_id tool_args user_id with
          | Raise e => (Raise e, w, [])
          | Ok kwargs =>
              let '(r, w') := tool_func kwargs w in
              (r, w', [ToolDispatch (tc_name tc) kwargs])
          end
      end
  end.

(** The two [except] clauses for one tool call: the dictionary that is
    dumped into the tool message. *)
Definition tool_call_except (e : exn) : json :=
  if bool_decide (exn_cls e = JSONDecodeError) then
    failure_dict ("Failed to parse tool arguments: " +:+ exn_str e)
  else
    failure_dict ("Tool execution failed: " +:+ exn_str e).

(** One iteration of [for tool_call in message.tool_calls], after
    [tool_calls_made.append(tool_name)]. *)
Definition exec_tool_call `{Library} {W} (TOOL_FUNCTIONS : string -> option (tool W))
    (user_id : string) (tc : tool_call) (w : W) : step W :=
  let '(r, w', evs) := tool_call_try TOOL_FUNCTIONS user_id tc w in
  match r with
  | Ok tool_result => Step [ToolMessage (tc_id tc) tool_result] w' evs
  | Raise e => Step [ToolMessage (tc_id tc) (tool_call_except e)] w' evs
  end.

Fixpoint exec_tool_calls `{Library} {W} (TOOL_FUNCTIONS : string -> option (tool W))
    (user_id : string) (tcs : list tool_call) (w : W) : step W :=
  match tcs with
  | [] => Step [] w []
  | tc :: tcs' =>
      let s1 := exec_tool_call TOOL_FUNCTIONS user_id tc w in
      let s2 := exec_tool_calls TOOL_FUNCTIONS user_id tcs' (step_world s1) in
      Step (step_messages s1 ++ step_messages s2) (step_world s2)
           (step_trace s1 ++ step_trace s2)
  end.

Definition apology : string :=
  "I apologize, but I wasn't able to complete your request. Please try rephrasing or breaking it into smaller steps.".

(** The value returned below [# Max iterations reached]. *)
Definition max_iterations_result (tool_calls_made : list string) : agent_result :=
  {| response := apology;
     tool_calls := tool_calls_made;
     success := false;
     error := Some "Maximum iterations reached" |}.

(** The value returned by the outer [except Exception as e]. *)
Definition unexpected_result (tool_calls_made : list string) (e : exn)
  : agent_result :=
  {| response := "I encountered an unexpected error. Please try again.";
     tool_calls := tool_calls_made;
     success := false;
     error := Some (exn_str e) |}.

(** [while iterations < max_iterations], [remaining] being
    [max_iterations - iterations]. *)
Fixpoint agent_loop `{Library} {W} (TOOL_FUNCTIONS : string -> option (tool W))
    (llm : llm_client) (user_id : string) (remaining : nat)
    (full_messages : list chat_message) (tool_calls_made : list string)
    (w : W) : run agent_result W :=
  match remaining with
  | O => Run (Ok (max_iterations_result tool_calls_made)) w []
  | S remaining' =>
      match llm full_messages with
      | Raise e =>
          if is_api_error e then Run (Raise e) w [LLMCall full_messages]
          else Run (Ok (unexpected_result tool_calls_made e)) w
                   [LLMCall full_messages]
      | Ok [] =>
          Run (Ok (unexpected_result tool_calls_made
                     (Exn IndexError "list index out of range"))) w
              [LLMCall full_messages]
      | Ok (message :: _) =>
          match msg_tool_calls message with
          | [] =>
              Run (Ok {| response := default "" (msg_content message);
                         tool_calls := tool_calls_made;
                         success := true;
                         error := None |}) w [LLMCall full_messages]
          | tcs =>
              let s := exec_tool_calls TOOL_FUNCTIONS user_id tcs w in
              let r :=
                agent_loop TOOL_FUNCTIONS llm user_id remaining'
                  (full_messages ++ [AssistantMessage message]
                   ++ step_messages s)
                  (tool_calls_made ++ (tc_name <$> tcs))
                  (step_world s) in
              Run (run_outcome r) (run_world r)
                  (LLMCall full_messages :: step_trace s ++ run_trace r)
          end
      end
  end.

(** [run_agent(user_id, messages, client, max_iterations=5)], [llm] being
    [client.chat.completions.create] with the fixed model, tools and
    temperature. *)
Definition run_agent `{Library} {W} (TOOL_FUNCTIONS : string -> option (tool W))
    (llm : llm_client) (user_id : string) (messages : list chat_message)
    (max_iterations : Z) (w : W) : run agent_result W :=
  if negb (Py.truthy user_id) || (Py.len user_id =? 0) then
    Run (Raise user_id_invalid) w []
  else if bool_decide (messages = []) then
    Run (Raise (Exn ValueError "messages must be a non-empty list")) w []
  else
    agent_loop TOOL_FUNCTIONS llm user_id (Z.to_nat max_iterations)
      (RoleContent "system" SYSTEM_PROMPT :: messages) [] w.

Definition default_max_iterations : Z := 5.

End Runner.

(** ** [Phase05/backend/app/agent.py] with [app/mcp/server.py] *)

Module Agent.

Definition SYSTEM_PROMPT : string :=
  "You are a helpful task management assistant. You help users manage their todo list efficiently.

Your capabilities:
- Create new tasks with add_task
- List tasks with list_tasks (can filter by status: all, pending, completed)
- Mark tasks as completed with complete_task
- Update task details with update_task
- Delete tasks with delete_task

Guidelines:
- Always confirm actions with friendly, concise responses
- If a user's request is ambiguous, ask for clarification
- When listing tasks, present them in a clear, organized format
- Be proactive in suggesting task management best practices
- Use the user_id from the conversation context for all tool calls
".

(** [MCPServer.get_tool]: the registered callable, or [KeyError]. *)
Definition get_tool `{Library} {W} (tools : string -> option (tool W))
    (name : string) : result (tool W) :=
  match tools name with
  | Some t => Ok t
  | None =>
      Raise (Exn KeyError (py_repr ("Tool '" +:+ name +:+ "' not found")))
  end.

(** [MCPServer.execute_tool]: the [except] clause logs and re-raises. *)
Definition execute_tool `{Library} {W} (tools : string -> option (tool W))
    (name : string) (kwargs : gmap string json) (w : W)
  : result json * W * list event :=
  match get_tool tools name with
  | Raise e => (Raise e, w, [])
  | Ok t =>
      let '(r, w') := t kwargs w in
      (r, w', [ToolDispatch name kwargs])
  end.

(** What lies between [eval] and the call of the tool: the log line that
    formats [tool_args], [tool_args["user_id"] = user_id], and the unpacking
    of [**tool_args].  Returns the object as the three leave it and the
    keyword arguments of the call. *)
Definition inject_user_id (tool_args : pyvalue) (user_id : string)
  : result (pyvalue * gmap string json) :=
  match tool_args with
  | PyJson a =>
      kwargs ← set_user_id a user_id;
      Ok (PyJson (JDict kwargs), kwargs)
  | PyInstance c st =>
      st1 ← py_format c st;
      st2 ← py_setitem c st1 "user_id" (JStr user_id);
      kwargs ← py_unpack c st2;
      Ok (PyInstance c st2, kwargs)
  end.

(** The state of the [for] loop over [assistant_message.tool_calls]:
    what was appended to [chat_messages], [tool_calls_summary], and the
    exception that left the loop, if one did. *)
Record step (W : Type) := Step {
  step_raised : option exn;
  step_messages : list chat_message;
  step_summary : gmap string pyvalue;
  step_world : W;
  step_trace : list event
}.
Arguments Step {W} _ _ _ _ _.
Arguments step_raised {W} _.
Arguments step_messages {W} _.
Arguments step_summary {W} _.
Arguments step_world {W} _.
Arguments step_trace {W} _.

Fixpoint exec_tool_calls `{Library} {W} (tools : string -> option (tool W))
    (user_id : string) (tcs : list tool_call)
    (tool_calls_summary : gmap string pyvalue) (w : W) : step W :=
  match tcs with
  | [] => Step None [] tool_calls_summary w []
  | tc :: tcs' =>
      match py_eval (tc_arguments tc) with
      | Raise e => Step (Some e) [] tool_calls_summary w []
      | Ok tool_args =>
          match inject_user_id tool_args user_id with
          | Raise e => Step (Some e) [] tool_calls_summary w []
          | Ok (tool_args, kwargs) =>
              match execute_tool tools (tc_name tc) kwargs w with
              | (Raise e, w', evs) =>
                  Step (Some e) [] tool_calls_summary w' evs
              | (Ok tool_result, w', evs) =>
                  let s :=
                    exec_tool_calls tools user_id tcs'
                      (<[tc_name tc := tool_args]> tool_calls_summary) w' in
                  Step (step_raised s)
                       (ToolMessage (tc_id tc) tool_result :: step_messages s)
                       (step_summary s) (step_world s)
                       (evs ++ step_trace s)
              end
          end
      end
  end.

(** The outer [except Exception as e]. *)
Definition agent_failed (e : exn) : exn :=
  Exn PlainException ("Agent execution failed: " +:+ exn_str e).

Definition max_iterations_reply : string :=
  "I've processed your request, but please let me know if you need anything else!".

(** [while iteration < max_iterations], [remaining] being
    [max_iterations - iteration]. *)
Fixpoint agent_loop `{Library} {W} (tools : string -> option (tool W))
    (llm : llm_client) (user_id : string) (remaining : nat)
    (chat_messages : list chat_message)
    (tool_calls_summary : gmap string pyvalue) (w : W)
  : run (string * gmap string pyvalue) W :=
  match remaining with
  | O => Run (Ok (max_iterations_reply, tool_calls_summary)) w []
  | S remaining' =>
      match llm chat_messages with
      | Raise e => Run (Raise (agent_failed e)) w [LLMCall chat_messages]
      | Ok [] =>
          Run (Raise (agent_failed (Exn IndexError "list index out of range")))
              w [LLMCall chat_messages]
      | Ok (assistant_message :: _) =>
          match msg_tool_calls assistant_message with
          | [] =>
              let text :=
                match msg_content assistant_message with
                | Some c =>
                    if Py.truthy c then c
                    else "I'm here to help with your tasks!"
                | None => "I'm here to help with your tasks!"
                end in
              Run (Ok (text, tool_calls_summary)) w [LLMCall chat_messages]
          | tcs =>
              let s := exec_tool_calls tools user_id tcs tool_calls_summary w in
              match step_raised s with
              | Some e =>
                  Run (Raise (agent_failed e)) (step_world s)
                      (LLMCall chat_messages :: step_trace s)
              | None =>
                  let r :=
                    agent_loop tools llm user_id remaining'
                      (chat_messages ++ [AssistantMessage assistant_message]
                       ++ step_messages s)
                      (step_summary s) (step_world s) in
                  Run (run_outcome r) (run_world r)
                      (LLMCall chat_messages :: step_trace s ++ run_trace r)
              end
          end
      end
  end.

(** [run_agent(messages, user_id, max_iterations=5)]; [messages] are the
    [(role, content)] pairs of the history. *)
Definition run_agent `{Library} {W} (tools : string -> option (tool W))
    (llm : llm_client) (messages : list (string * string)) (user_id : string)
    (max_iterations : Z) (w : W)
  : run (string * gmap string pyvalue) W :=
  agent_loop tools llm user_id (Z.to_nat max_iterations)
    (RoleContent "system" SYSTEM_PROMPT
     :: ((λ m, RoleContent (fst m) (snd m)) <$> messages))
    ∅ w.

End Agent.

(** ** The transcripts of a run *)

(** The transcripts sent to the model during a run, in order. *)
Fixpoint llm_transcripts (trace : list event) : list (list chat_message) :=
  match trace with
  | [] => []
  | LLMCall msgs :: trace' => msgs :: llm_transcripts trace'
  | ToolDispatch _ _ :: trace' => llm_transcripts trace'
  end.

(** [msgs] answers the tool calls [tcs]: one tool message for each call,
    in order, carrying the call's id. *)
Definition answers (tcs : list tool_call) (msgs : list chat_message) : Prop :=
  Forall2 (λ tc m, exists content, m = ToolMessage (tc_id tc) content) tcs msgs.

(** Each transcript after the first is the one before it, followed by the
    assistant message the model returned for it and by the answers to that
    message's tool calls. *)
Fixpoint transcripts_chain (llm : llm_client) (ts : list (list chat_message))
  : Prop :=
  match ts with
  | t1 :: ts' =>
      match ts' with
      | t2 :: _ =>
          (exists message choices tool_messages,
             llm t1 = Ok (message :: choices)
             /\ msg_tool_calls message <> []
             /\ answers (msg_tool_calls message) tool_messages
             /\ t2 = t1 ++ [AssistantMessage message] ++ tool_messages)
          /\ transcripts_chain llm ts'
      | [] => True
      end
  | [] => True
  end.

(** ** The registry of [Phase05/backend/app/mcp/server.py] *)

Module MCPServer.

(** [self.tools]: a [dict], which keeps its keys in the order in which they
    were inserted. *)
Definition t (W : Type) : Type := list (string * tool W).

(** [MCPServer()] *)
Definition init {W} : t W := [].

(** [self.tools.get(name)] *)
Fixpoint lookup {W} (srv : t W) (name : string) : option (tool W) :=
  match srv with
  | [] => None
  | (n, f) :: srv' => if String.eqb n name then Some f else lookup srv' name
  end.

(** [register_tool(name, tool_function)]: the exception, if one was raised,
    and the registry after the call. *)
Definition register_tool {W} (name : string) (tool_function : tool W)
    (srv : t W) : result unit * t W :=
  match lookup srv name with
  | Some _ =>
      (Raise (Exn ValueError ("Tool '" +:+ name +:+ "' is already registered")),
       srv)
  | None => (Ok (), srv ++ [(name, tool_function)])
  end.

(** [get_tool(name)] *)
Definition get_tool `{Library} {W} (srv : t W) (name : string)
  : result (tool W) :=
  Agent.get_tool (lookup srv) name.

(** [list_tools()] *)
Definition list_tools {W} (srv : t W) : list string := fst <$> srv.

(** [execute_tool(name, **kwargs)] *)
Definition execute_tool `{Library} {W} (srv : t W) (name : string)
    (kwargs : gmap string json) (w : W) : result json * W * list event :=
  Agent.execute_tool (lookup srv) name kwargs w.

(** [register_all_tools()], on the five imported callables. *)
Definition register_all_tools {W}
    (add_task list_tasks complete_task delete_task update_task : tool W)
    (srv : t W) : result unit * t W :=
  match register_tool "add_task" add_task srv with
  | (Raise e, srv) => (Raise e, srv)
  | (Ok _, srv) =>
  match register_tool "list_tasks" list_tasks srv with
  | (Raise e, srv) => (Raise e, srv)
  | (Ok _, srv) =>
  match register_tool "complete_task" complete_task srv with
  | (Raise e, srv) => (Raise e, srv)
  | (Ok _, srv) =>
  match register_tool "delete_task" delete_task srv with
  | (Raise e, srv) => (Raise e, srv)
  | (Ok _, srv) => register_tool "update_task" update_task srv
  end end end end.

End MCPServer.

(* ===================================================================== *)
(** * The chat endpoint ([Phase03/backend/app/routes/chat.py]) *)
(* ===================================================================== *)

Module Chat.

(** A [UUID], in its printed form. *)
Definition uuid := string.

Record User := MkUser {
  user_email : string;
  user_created_at : Datetime.t
}.

Record Conversation := MkConversation {
  conv_user_id : string;
  conv_created_at : Datetime.t;
  conv_updated_at : Datetime.t
}.

(** An entry of the [tool_calls] column, as [chat_endpoint] builds it:
    [{"id": ..., "type": "function",
      "function": {"name": ..., "arguments": "{}"}}]. *)
Record stored_tool_call := StoredToolCall {
  stc_id : string;
  stc_name : string
}.

Record Message := MkMessage {
  message_id : uuid;
  conversation_id : uuid;
  role : string;
  content : string;
  tool_calls : option (list stored_tool_call);
  created_at : Datetime.t
}.

(** The three tables; [db_messages] in insertion order. *)
Record db := Db {
  db_users : gmap string User;
  db_conversations : gmap uuid Conversation;
  db_messages : list Message
}.

(** The values that [uuid4()] and [datetime.utcnow()] return during one
    request, in the order the endpoint asks for them. *)
Record draws := Draws {
  t_user : Datetime.t;
  new_conversation_id : uuid;
  t_conversation : Datetime.t;
  user_message_id : uuid;
  t_user_message : Datetime.t;
  assistant_message_id : uuid;
  t_assistant_message : Datetime.t;
  t_refresh : Datetime.t
}.

Record ChatRequest := MkChatRequest {
  req_message : string;
  req_conversation_id : option uuid
}.

Inductive http_result :=
  | ChatResponse (conversation_id : uuid) (response : string)
      (tool_calls : option (list stored_tool_call))
  | HTTPException (status_code : Z) (detail : string).

(** What the endpoint does to the store and to the orchestrator, in
    order.  A write is recorded where [session.commit()] makes it
    durable. *)
Inductive chat_event :=
  | CreateUser (user_id : string)
  | CreateConversation (id : uuid)
  | AppendMessage (m : Message)
  | InvokeOrchestrator (user_id : string) (messages : list (string * string))
  | RefreshUpdatedAt (id : uuid) (updated_at : Datetime.t).

(** The orchestrator as the endpoint calls it, [run_agent(user_id,
    messages)], on a world [W] of its own. *)
Definition orchestrator (W : Type) : Type :=
  string -> list (string * string) -> W -> result Runner.agent_result * W.

(** [Message.__init__]: the two validations after [super().__init__]. *)
Definition Message_init (m : Message) : result Message :=
  raise_if (negb (bool_decide (role m ∈ ["user"; "assistant"])))
    (Exn ValueError
       ("Invalid role: " +:+ role m +:+ ". Must be 'user' or 'assistant'"));;
  raise_if ((negb (Py.truthy (content m))
             || (Py.len (Py.strip (content m)) =? 0))
            && negb (String.eqb (role m) "assistant"
                     && match tool_calls m with
                        | Some (_ :: _) => true
                        | _ => false
                        end))
    (Exn ValueError "Message content cannot be empty");;
  Ok m.

(** [ensure_user_exists] *)
Definition ensure_user_exists (dr : draws) (user_id : string) (d : db)
  : db * list chat_event :=
  match db_users d !! user_id with
  | Some _ => (d, [])
  | None =>
      (Db (<[user_id := MkUser (user_id +:+ "@placeholder.local") (t_user dr)]>
             (db_users d))
          (db_conversations d) (db_messages d),
       [CreateUser user_id])
  end.

(** [load_or_create_conversation]: the conversation's id, or the 404. *)
Definition load_or_create_conversation (dr : draws) (user_id : string)
    (conversation_id : option uuid) (d : db)
  : (uuid + http_result) * db * list chat_event :=
  match conversation_id with
  | Some cid =>
      match db_conversations d !! cid with
      | Some c =>
          if decide (conv_user_id c = user_id) then (inl cid, d, [])
          else
            (inr (HTTPException 404
                    ("Conversation " +:+ cid +:+ " not found or access denied")),
             d, [])
      | None =>
          (inr (HTTPException 404
                  ("Conversation " +:+ cid +:+ " not found or access denied")),
           d, [])
      end
  | None =>
      let cid := new_conversation_id dr in
      (inl cid,
       Db (db_users d)
          (<[cid := MkConversation user_id (t_conversation dr)
                      (t_conversation dr)]> (db_conversations d))
          (db_messages d),
       [CreateConversation cid])
  end.

Definition older_first (a b : Message) : Prop := created_at a ≤ created_at b.

Global Instance older_first_dec a b : Decision (older_first a b).
Proof. unfold older_first. apply _. Defined.

(** [load_conversation_messages] *)
Definition load_conversation_messages (cid : uuid) (d : db)
  : list (string * string) :=
  (λ m, (role m, content m))
    <$> merge_sort older_first
          (filter (λ m, conversation_id m = cid) (db_messages d)).

(** The list comprehension that turns tool names into stored tool
    calls, [i] being the index of the first name. *)
Fixpoint stored_tool_calls (i : Z) (names : list string)
  : list stored_tool_call :=
  match names with
  | [] => []
  | n :: names' =>
      StoredToolCall ("call_" +:+ Py.str_int i) n :: stored_tool_calls (i + 1) names'
  end.

Definition internal_error (e : exn) : http_result :=
  HTTPException 500 ("Internal server error: " +:+ exn_str e).

Definition agent_error (text : string) : http_result :=
  HTTPException 500 ("AI agent execution failed: " +:+ text).

(** The state a request ends in. *)
Record outcome (W : Type) := Outcome {
  out_result : http_result;
  out_db : db;
  out_world : W;
  out_trace : list chat_event
}.
Arguments Outcome {W} _ _ _ _.
Arguments out_result {W} _.
Arguments out_db {W} _.
Arguments out_world {W} _.
Arguments out_trace {W} _.

(** [chat_endpoint(user_id, request, session, current_user)] *)
Definition chat_endpoint {W} (run_agent : orchestrator W) (dr : draws)
    (user_id : string) (request : ChatRequest) (current_user : string)
    (d : db) (w : W) : outcome W :=
  if negb (bool_decide (user_id = current_user)) then
    Outcome
      (HTTPException 403
         "User ID mismatch: cannot access another user's conversations")
      d w []
  else
    (* Step 0 *)
    let '(d0, ev0) := ensure_user_exists dr user_id d in
    (* Step 1 *)
    match load_or_create_conversation dr user_id (req_conversation_id request) d0 with
    | (inr not_found, d1, ev1) => Outcome not_found d1 w (ev0 ++ ev1)
    | (inl cid, d1, ev1) =>
        (* Step 2 *)
        match Message_init
                (MkMessage (user_message_id dr) cid "user" (req_message request)
                   None (t_user_message dr)) with
        | Raise e => Outcome (internal_error e) d1 w (ev0 ++ ev1)
        | Ok user_message =>
            let d2 :=
              Db (db_users d1) (db_conversations d1)
                 (db_messages d1 ++ [user_message]) in
            let ev2 := [AppendMessage user_message] in
            (* Step 3 *)
            let messages := load_conversation_messages cid d2 in
            (* Step 4 *)
            let ev4 := [InvokeOrchestrator user_id messages] in
            match run_agent user_id messages w with
            | (Raise e, w') =>
                Outcome (agent_error (exn_str e)) d2 w'
                  (ev0 ++ ev1 ++ ev2 ++ ev4)
            | (Ok agent_result, w') =>
                if negb (Runner.success agent_result) then
                  Outcome
                    (agent_error (default "None" (Runner.error agent_result)))
                    d2 w' (ev0 ++ ev1 ++ ev2 ++ ev4)
                else
                  let response_text := Runner.response agent_result in
                  let tool_calls :=
                    match Runner.tool_calls agent_result with
                    | [] => None
                    | names => Some (stored_tool_calls 0 names)
                    end in
                  (* Step 5 *)
                  match Message_init
                          (MkMessage (assistant_message_id dr) cid "assistant"
                             response_text tool_calls
                             (t_assistant_message dr)) with
                  | Raise e =>
                      Outcome (internal_error e) d2 w'
                        (ev0 ++ ev1 ++ ev2 ++ ev4)
                  | Ok assistant_message =>
                      (* Step 6 *)
                      let d3 :=
                        Db (db_users d2)
                           (alter
                              (λ c, MkConversation (conv_user_id c)
                                      (conv_created_at c) (t_refresh dr))
                              cid (db_conversations d2))
                           (db_messages d2 ++ [assistant_message]) in
                      Outcome (ChatResponse cid response_text tool_calls) d3 w'
                        (ev0 ++ ev1 ++ ev2 ++ ev4
                         ++ [AppendMessage assistant_message;
                             RefreshUpdatedAt cid (t_refresh dr)])
                  end
            end
        end
    end.

(** The number of times a trace refreshes a conversation's
    [updated_at]. *)
Fixpoint refreshes (trace : list chat_event) : nat :=
  match trace with
  | [] => O
  | RefreshUpdatedAt _ _ :: trace' => S (refreshes trace')
  | _ :: trace' => refreshes trace'
  end.

(** The events of steps 0 and 1: creation of the user's row and of a new
    conversation. *)
Definition is_setup (ev : chat_event) : Prop :=
  match ev with
  | CreateUser _ | CreateConversation _ => True
  | _ => False
  end.

End Chat.

(** ** The request schema ([Phase03/backend/app/schemas/chat.py]) *)

Module ChatSchema.

(** [ChatRequest.validate_message_not_empty] *)
Definition validate_message_not_empty (v : string) : result string :=
  if negb (Py.truthy (Py.strip v)) then
    Raise (Exn ValueError "Message cannot be empty or whitespace only")
  else Ok (Py.strip v).

(** Validation of the field [message]: the constraints of
    [Field(..., min_length=1, max_length=4000)] on the value received, then
    the validator above on a value that passed them.  [None] is a refused
    request. *)
Definition message (v : string) : option string :=
  if (Py.len v <? 1) || (4000 <? Py.len v) then None
  else
    match validate_message_not_empty v with
    | Ok v' => Some v'
    | Raise _ => None
    end.

End ChatSchema.

(** ** The recurring-task service
       ([Phase05/services/recurring-service/main.py]) *)

Module RecurringService.

(** [calculate_next_due_date(recurrence, recurrence_interval,
    current_due_date)]; the [except Exception] clause returns [None]. *)
Definition calculate_next_due_date `{Platform} (recurrence : string)
    (recurrence_interval : option Z) (current_due_date : option string)
  : option Datetime.t :=
  if negb (Py.truthy_opt current_due_date) then None
  else
    match current_due_date with
    | None => None
    | Some text =>
        (* try: *)
        match fromisoformat (Py.replace_Z text) with
        | None => None
        | Some current_dt =>
            let next :=
              if String.eqb recurrence "daily" then
                Some <$> Datetime.add_days current_dt 1
              else if String.eqb recurrence "weekly" then
                Some <$> Datetime.add_weeks current_dt 1
              else if String.eqb recurrence "monthly" then
                Some <$> Datetime.add_days current_dt 30
              else if String.eqb recurrence "custom"
                      && Py.truthy_int recurrence_interval then
                match recurrence_interval with
                | Some n => Some <$> Datetime.add_days current_dt n
                | None => Ok None
                end
              else Ok None in
            match next with
            | Ok d => d
            | Raise _ => None
            end
        end
    end.

End RecurringService.

(** ** Dashboard statistics
       ([Phase05/backend/app/services/stats_service.py]) *)

Module Stats.

Record t := Make {
  total : Z;
  completed : Z;
  pending : Z;
  overdue : Z
}.

(** [select(func.count(Task.id)).where(...)] followed by [scalar()] *)
Definition count (where_ : Task.t -> bool) (s : store) : Z :=
  Z.of_nat (length (filter (λ r : Z * Task.t, where_ (snd r))
                      (map_to_list (store_tasks s)))).

(** [Task.due_date < now]: not true of a row without a due date. *)
Definition due_before (now : Datetime.t) (row : Task.t) : bool :=
  match Task.due_date row with
  | Some due => due <? now
  | None => false
  end.

(** [get_user_stats(user_id, session)] *)
Definition get_user_stats (now : Datetime.t) (user_id : string) (s : store) : t :=
  let owned row := bool_decide (Task.user_id row = user_id) in
  {| total := count owned s;
     completed := count (λ row, owned row && Task.completed row) s;
     pending := count (λ row, owned row && negb (Task.completed row)) s;
     overdue :=
       count (λ row, owned row && negb (Task.completed row)
                     && due_before now row) s |}.

End Stats.

(* ===================================================================== *)
(** * Concrete platforms, stores and collaborators for the examples *)
(* ===================================================================== *)

Module Example.

(** A database that enforces the column lengths of the migrations
    [6d4862870882_create_tasks_table] and [f8ce629823c7_add_advanced_fields]. *)
Definition schema_rejects (row : Task.t) : option string :=
  if 255 <? Py.len (Task.user_id row) then
    Some "value too long for type character varying(255)"
  else if 200 <? Py.len (Task.title row) then
    Some "value too long for type character varying(200)"
  else if 1000 <? Py.len (default EmptyString (Task.description row)) then
    Some "value too long for type character varying(1000)"
  else if 10 <? Py.len (default EmptyString (Task.priority row)) then
    Some "value too long for type character varying(10)"
  else if 10 <? Py.len (default EmptyString (Task.recurrence row)) then
    Some "value too long for type character varying(10)"
  else None.

(** 2026-01-31T00:00:00, whose date has ordinal 739647. *)
Definition jan31 : Datetime.t := 739646 * Datetime.us_per_day.

(** An ISO parser that knows one date. *)
Definition parse_iso (text : string) : option Datetime.t :=
  if String.eqb text "2026-01-31" then Some jan31 else None.

(** The platform with the schema above. *)
Definition postgres : Platform :=
  {| fromisoformat := parse_iso; db_rejects := schema_rejects |}.

(** A platform whose database accepts every row. *)
Definition lenient : Platform :=
  {| fromisoformat := parse_iso; db_rejects := λ _, None |}.

Definition empty_store : store := Store ∅ 1.

(** 2026-01-01T00:00:00, whose date has ordinal 739617. *)
Definition jan1 : Datetime.t := 739616 * Datetime.us_per_day.

Definition milk : Task.t :=
  {| Task.user_id := "alice";
     Task.title := "buy milk";
     Task.description := None;
     Task.completed := false;
     Task.created_at := jan1;
     Task.updated_at := jan1;
     Task.priority := None;
     Task.tags := None;
     Task.due_date := Some jan31;
     Task.recurrence := Some "daily";
     Task.recurrence_interval := None;
     Task.parent_task_id := None |}.

(** Alice owns task 1. *)
Definition alice_store : store := Store {[ 1 := milk ]} 2.

(** A custom recurrence created through [add_task], whose interval
    [update_task] then sets to zero. *)
Definition after_add : store :=
  snd (add_task (H := postgres) jan1 "alice" "water plants" None None None
         (Some "2026-01-31") (Some "custom") (Some 3) empty_store).

Definition zero_interval : update_fields :=
  UpdateFields None None None None None None (Some 0).

Definition after_update : store :=
  snd (update_task (H := postgres) jan1 "alice" (Some 1) zero_interval
         after_add).

(** A title of 201 characters. *)
Definition long_title : string :=
  String.string_of_list_ascii (replicate 201 "a"%char).

Definition no_fields : update_fields :=
  UpdateFields None None None None None None None.

Definition new_title (t : string) : update_fields :=
  UpdateFields (Some t) None None None None None None.

(** The double quote. *)
Definition q : string := String "034"%char EmptyString.

(** The argument text [{"task_id": n}] for [n] = 999. *)
Definition args_999 : string := "{" +:+ q +:+ "task_id" +:+ q +:+ ": 999}".

(** The argument text [{"user_id": who, "task_id": 1}]. *)
Definition args_forged (who : string) : string :=
  "{" +:+ q +:+ "user_id" +:+ q +:+ ": " +:+ q +:+ who +:+ q +:+ ", "
  +:+ q +:+ "task_id" +:+ q +:+ ": 1}".

(** A parser that reads the argument texts of the examples. *)
Definition loads (text : string) : json + string :=
  if String.eqb text "{}" then inl (JDict ∅)
  else if String.eqb text args_999 then
    inl (JDict (<["task_id" := JInt 999]> ∅))
  else if String.eqb text (args_forged "mallory") then
    inl (JDict (<["user_id" := JStr "mallory"]> (<["task_id" := JInt 1]> ∅)))
  else if String.eqb text (args_forged "eve") then
    inl (JDict (<["user_id" := JStr "eve"]> (<["task_id" := JInt 1]> ∅)))
  else if String.eqb text (args_forged "alice") then
    inl (JDict (<["user_id" := JStr "alice"]> (<["task_id" := JInt 1]> ∅)))
  else inr "Expecting value: line 1 column 1 (char 0)".

(** The class [type('D', (dict,), {'__setitem__': lambda s, k, v: None})]:
    a [dict] whose item assignment does nothing.  Its instances are
    formatted and unpacked as a [dict] is. *)
Definition inert_dict : pyclass :=
  {| py_state := gmap string json;
     py_format := λ d, Ok d;
     py_setitem := λ d _ _, Ok d;
     py_unpack := λ d, Ok d |}.

(** The argument text that builds an instance of that class from
    [{'user_id': who, 'task_id': 1}]. *)
Definition args_inert (who : string) : string :=
  "type('D', (dict,), {'__setitem__': lambda s, k, v: None})({'user_id': '"
  +:+ who +:+ "', 'task_id': 1})".

(** An evaluator that reads the argument texts of the examples: those that
    are JSON objects are dictionary displays as well. *)
Definition eval (text : string) : result pyvalue :=
  if String.eqb text (args_inert "alice") then
    Ok (PyInstance inert_dict
          (<["user_id" := JStr "alice"]> (<["task_id" := JInt 1]> ∅)))
  else if String.eqb text (args_inert "mallory") then
    Ok (PyInstance inert_dict
          (<["user_id" := JStr "mallory"]> (<["task_id" := JInt 1]> ∅)))
  else
    match loads text with
    | inl a => Ok (PyJson a)
    | inr m => Raise (Exn SyntaxError "invalid syntax")
    end.

Definition library : Library :=
  {| json_loads := loads;
     py_eval := eval;
     py_repr := λ s, q +:+ s +:+ q |}.

(** The dictionary [complete_task] returns. *)
Definition complete_response_json (r : complete_response) : json :=
  JDict
    (<["success" := JBool true]>
       (<["task" :=
            JDict
              (<["id" := JInt (tb_id (cr_task r))]>
                 (<["title" := JStr (tb_title (cr_task r))]>
                    (<["description" :=
                         from_option JStr JNull (tb_description (cr_task r))]>
                       (<["completed" := JBool (tb_completed (cr_task r))]>
                          (<["user_id" := JStr (tb_user_id (cr_task r))]> ∅)))))]>
          (<["message" := JStr (cr_message r)]> ∅))).

(** [complete_task] as a tool of the examples.  Keyword arguments of the
    annotated types, [user_id: str] and [task_id: int], are bound to the
    parameters; the examples pass no others, and this tool answers them
    with a [TypeError]. *)
Definition complete_task_tool : tool store := λ kwargs s,
  match kwargs !! "user_id", kwargs !! "task_id" with
  | Some (JStr user_id), Some (JInt task_id) =>
      if decide (size kwargs = 2%nat) then
        let '(r, s') :=
          complete_task (H := postgres) jan1 user_id (Some task_id) s in
        (complete_response_json <$> r, s')
      else (Raise (Exn TypeError "unexpected keyword argument"), s)
  | _, _ => (Raise (Exn TypeError "unexpected keyword argument"), s)
  end.

(** A registry that holds [complete_task] only. *)
Definition tools (name : string) : option (tool store) :=
  if String.eqb name "complete_task" then Some complete_task_tool else None.

Definition is_tool_message (m : chat_message) : bool :=
  match m with ToolMessage _ _ => true | _ => false end.

(** A model that asks once for [complete_task] with the given argument
    text and answers [final] once it has seen a tool result. *)
Definition llm_completing (arguments final : string) : llm_client := λ msgs,
  if existsb is_tool_message msgs then Ok [LLMMessage (Some final) []]
  else Ok [LLMMessage None [ToolCall "call_0" "complete_task" arguments]].

(** A model that answers at once. *)
Definition llm_answering (final : string) : llm_client := λ _,
  Ok [LLMMessage (Some final) []].

(** [run_agent(user_id, messages)] as [chat.py] calls it: the default
    budget, a fixed client. *)
Definition orchestrator (llm : llm_client) : Chat.orchestrator store :=
  λ user_id messages w,
    let R :=
      Runner.run_agent (H := library) tools llm user_id
        ((λ m, RoleContent (fst m) (snd m)) <$> messages)
        Runner.default_max_iterations w in
    (run_outcome R, run_world R).

(** Alice has one conversation, [c1], holding one earlier exchange. *)
Definition chat_db : Chat.db :=
  Chat.Db
    {[ "alice" := Chat.MkUser "alice@placeholder.local" jan1 ]}
    {[ "c1" := Chat.MkConversation "alice" jan1 (jan1 + 2) ]}
    [ Chat.MkMessage "m1" "c1" "user" "Add a task to buy milk" None (jan1 + 1);
      Chat.MkMessage "m2" "c1" "assistant" "Added." None (jan1 + 2) ].

Definition draws : Chat.draws :=
  {| Chat.t_user := jan31;
     Chat.new_conversation_id := "c2";
     Chat.t_conversation := jan31 + 1;
     Chat.user_message_id := "m3";
     Chat.t_user_message := jan31 + 2;
     Chat.assistant_message_id := "m4";
     Chat.t_assistant_message := jan31 + 3;
     Chat.t_refresh := jan31 + 4 |}.

(** A model that asks for [list_tasks] on every turn. *)
Definition llm_looping : llm_client := λ _,
  Ok [LLMMessage (Some "Processing...") [ToolCall "call_0" "list_tasks" "{}"]].

(** A task of Alice's that does not recur. *)
Definition call_mom : Task.t :=
  {| Task.user_id := "alice";
     Task.title := "call mom";
     Task.description := Some "before noon";
     Task.completed := false;
     Task.created_at := jan1 + 1;
     Task.updated_at := jan1 + 1;
     Task.priority := Some "high";
     Task.tags := None;
     Task.due_date := None;
     Task.recurrence := None;
     Task.recurrence_interval := None;
     Task.parent_task_id := None |}.

(** A completed task of Bob's. *)
Definition pay_rent : Task.t :=
  {| Task.user_id := "bob";
     Task.title := "pay rent";
     Task.description := None;
     Task.completed := true;
     Task.created_at := jan1 + 2;
     Task.updated_at := jan1 + 3;
     Task.priority := None;
     Task.tags := None;
     Task.due_date := None;
     Task.recurrence := None;
     Task.recurrence_interval := None;
     Task.parent_task_id := None |}.

(** Alice owns tasks 1 and 2, Bob task 3. *)
Definition chores : store :=
  Store {[ 1 := milk; 2 := call_mom; 3 := pay_rent ]} 4.

(** 9999-12-31T00:00:00, the last day a [datetime] can hold. *)
Definition last_day : Datetime.t :=
  (Datetime.max_ordinal - 1) * Datetime.us_per_day.

(** A daily task due on the last day. *)
Definition new_years_eve : Task.t :=
  {| Task.user_id := "alice";
     Task.title := "watch the fireworks";
     Task.description := None;
     Task.completed := false;
     Task.created_at := jan1;
     Task.updated_at := jan1;
     Task.priority := None;
     Task.tags := None;
     Task.due_date := Some last_day;
     Task.recurrence := Some "daily";
     Task.recurrence_interval := None;
     Task.parent_task_id := None |}.

Definition late_store : store := Store {[ 1 := new_years_eve ]} 2.

(** A platform whose database refuses every row that has a parent. *)
Definition no_successors : Platform :=
  {| fromisoformat := parse_iso;
     db_rejects := λ row,
       match Task.parent_task_id row with
       | Some _ => Some "violates foreign key constraint"
       | None => None
       end |}.

Definition blank_description : update_fields :=
  UpdateFields None (Some "   ") None None None None None.


(** An orchestrator that answers at once, without tools. *)
Definition answering : Chat.orchestrator store := orchestrator (llm_answering "Done.").

End Example.

(* ===================================================================== *)
(** * Properties of the Python primitives *)
(* ===================================================================== *)

Section PyFacts.

Lemma prefix_app (p s t : string) :
  String.prefix p s = true -> String.prefix p (s +:+ t) = true.
Proof.
  revert s; induction p as [|c p IH]; intros s Hp;
    [by destruct (s +:+ t)|].
  destruct s as [|d s]; simpl in *; [done|].
  destruct (Ascii.ascii_dec c d); [by apply IH | done].
Qed.

Lemma prefix_refl_app (p t : string) : String.prefix p (p +:+ t) = true.
Proof.
  induction p as [|c p IH]; simpl; [by destruct t|].
  destruct (Ascii.ascii_dec c c); [apply IH | done].
Qed.

Lemma contains_app_r (n a b : string) :
  Py.contains n b = true -> Py.contains n (a +:+ b) = true.
Proof.
  intros Hb. induction a as [|c a IH]; simpl; [done|].
  rewrite IH. apply orb_true_r.
Qed.

Lemma contains_app_l (n a b : string) :
  Py.contains n a = true -> Py.contains n (a +:+ b) = true.
Proof.
  induction a as [|c a IH].
  - simpl. rewrite orb_false_r. intros Hp. destruct n; [|done].
    by destruct b.
  - cbn [Py.contains]. intros [Hp | Hc]%orb_true_iff.
    + change (String c a +:+ b) with (String c (a +:+ b)) in *.
      cbn [Py.contains].
      change (String c (a +:+ b)) with (String c a +:+ b).
      by rewrite (prefix_app n (String c a) b Hp).
    + change (String c a +:+ b) with (String c (a +:+ b)).
      cbn [Py.contains]. rewrite (IH Hc). apply orb_true_r.
Qed.

Lemma truthy_true (s : string) : Py.truthy s = true <-> s <> EmptyString.
Proof.
  unfold Py.truthy. rewrite negb_true_iff.
  destruct (String.eqb_spec s EmptyString); split; congruence.
Qed.


Lemma len_zero (s : string) : (Py.len s =? 0) = negb (Py.truthy s).
Proof. by destruct s. Qed.

(** The test each tool applies to [user_id]. *)
Lemma user_id_check (user_id : string) :
  negb (Py.truthy user_id) || (Py.len user_id =? 0)
  = bool_decide (user_id = EmptyString).
Proof. by destruct user_id. Qed.

Lemma task_id_rejected_spec (task_id : option Z) :
  task_id_rejected task_id = true
  <-> task_id = None \/ exists n, task_id = Some n /\ n <= 0.
Proof.
  destruct task_id as [n|]; simpl.
  - rewrite orb_true_iff, Z.eqb_eq, Z.leb_le. split.
    + intros Hn. right. exists n. split; [done | lia].
    + intros [? | (m & [= <-] & Hm)]; [done | by right].
  - split; [by left | done].
Qed.

Lemma task_id_accepted (n : Z) : task_id_rejected (Some n) = false <-> 0 < n.
Proof.
  simpl. rewrite orb_false_iff, Z.eqb_neq, Z.leb_gt. lia.
Qed.

Lemma bind_Ok {A B} (r : result A) (k : A -> result B) (b : B) :
  r ≫= k = Ok b -> exists a, r = Ok a /\ k a = Ok b.
Proof. destruct r as [a|e]; [by exists a | done]. Qed.

Lemma raise_if_Ok (cond : bool) (e : exn) (u : unit) :
  raise_if cond e = Ok u -> cond = false.
Proof. by destruct cond. Qed.

Lemma bind_Raise {A B} (r : result A) (k : A -> result B) (e : exn) :
  r ≫= k = Raise e -> r = Raise e \/ exists a, r = Ok a /\ k a = Raise e.
Proof. destruct r as [a|e']; [right; by exists a | left; by intros; simplify_eq/=]. Qed.

Lemma raise_if_Raise (cond : bool) (e e' : exn) :
  raise_if cond e = Raise e' -> cond = true /\ e' = e.
Proof. destruct cond; [by intros [= <-] | done]. Qed.

End PyFacts.

(** Inverts a successful chain of binds in [H]. *)
(** A conjunction of closed facts, each decided by evaluation, from left to
    right: a fact may speak of what an earlier one has computed. *)
Ltac by_evaluation :=
  repeat match goal with |- _ /\ _ => split; [vm_compute; reflexivity|] end.

Ltac inv_bind H :=
  repeat (let a := fresh "a" in
          let Ha := fresh "Ha" in
          apply bind_Ok in H as (a & Ha & H)).

(* ===================================================================== *)
(** * Properties of the tool set *)
(* ===================================================================== *)

Section ToolFacts.
Context `{Platform}.

(** The key of a row is an integer of 32 bits. *)
Lemma store_tasks_is_int4 s task_id row :
  store_tasks s !! task_id = Some row -> is_int4 task_id = true.
Proof.
  unfold store_tasks. intros [_ Hk]%map_lookup_filter_Some. simpl in Hk.
  by destruct (is_int4 task_id).
Qed.

(** The rows of a store built from rows. *)
Lemma store_tasks_insert s task_id row next_id :
  is_int4 task_id = true ->
  store_tasks (Store (<[task_id := row]> (store_tasks s)) next_id)
  = <[task_id := row]> (store_tasks s).
Proof.
  intros Hk. unfold store_tasks at 1. simpl store_rows.
  rewrite map_filter_insert_True by (simpl; by rewrite Hk).
  f_equal. unfold store_tasks. apply map_filter_filter_l. done.
Qed.

Lemma store_tasks_delete s task_id next_id :
  store_tasks (Store (delete task_id (store_tasks s)) next_id)
  = delete task_id (store_tasks s).
Proof.
  unfold store_tasks at 1. simpl store_rows. rewrite map_filter_delete.
  f_equal. unfold store_tasks. apply map_filter_filter_l. done.
Qed.

Lemma is_int4_spec (n : Z) :
  is_int4 n = true <-> int4_min <= n <= int4_max.
Proof. unfold is_int4. rewrite andb_true_iff, !Z.leb_le. done. Qed.

Lemma select_task_Some task_id user_id s row :
  select_task task_id user_id s = Ok (Some row)
  <-> store_tasks s !! task_id = Some row /\ Task.user_id row = user_id.
Proof.
  unfold select_task. destruct (store_tasks s !! task_id) as [r|] eqn:Hrow.
  - rewrite (store_tasks_is_int4 _ _ _ Hrow). simpl.
    case_decide; split; try done.
    + by intros [= ->].
    + by intros [[= ->] _].
    + intros [[= ->] ?]. done.
  - split; [by destruct (is_int4 task_id) | by intros [? _]].
Qed.

(** A row of another owner is as invisible as no row. *)
Lemma select_task_foreign task_id user_id s row :
  store_tasks s !! task_id = Some row -> Task.user_id row <> user_id ->
  select_task task_id user_id s = Ok None.
Proof.
  intros Hrow Hne. unfold select_task.
  rewrite (store_tasks_is_int4 _ _ _ Hrow), Hrow. simpl. by case_decide.
Qed.

Lemma select_task_absent task_id user_id s :
  is_int4 task_id = true ->
  store_tasks s !! task_id = None -> select_task task_id user_id s = Ok None.
Proof. intros Hk Hrow. unfold select_task. by rewrite Hk, Hrow. Qed.

(** An id of more than 32 bits does not reach the table. *)
Lemma select_task_out_of_range task_id user_id s :
  is_int4 task_id = false ->
  select_task task_id user_id s = Raise (out_of_int32_range task_id user_id).
Proof. intros Hk. unfold select_task. by rewrite Hk. Qed.

Lemma complete_task_not_found_is_not_found task_id :
  is_not_found (complete_task_not_found task_id) = true.
Proof.
  unfold is_not_found, complete_task_not_found; simpl exn_str.
  apply (contains_app_r _ "Task with id "), contains_app_r. reflexivity.
Qed.

Lemma delete_task_not_found_is_not_found task_id :
  is_not_found (delete_task_not_found task_id) = true.
Proof.
  unfold is_not_found, delete_task_not_found; simpl exn_str.
  apply (contains_app_r _ "Task with id "), contains_app_r. reflexivity.
Qed.

Lemma update_task_not_found_is_not_found task_id user_id :
  is_not_found (update_task_not_found task_id user_id) = true.
Proof.
  unfold is_not_found, update_task_not_found; simpl exn_str.
  apply (contains_app_r _ "Task with id "), contains_app_r, contains_app_l.
  reflexivity.
Qed.

Lemma complete_task_except_not_found task_id :
  complete_task_except (complete_task_not_found task_id)
  = complete_task_not_found task_id.
Proof.
  pose proof (complete_task_not_found_is_not_found task_id) as Hnf.
  unfold is_not_found in Hnf. unfold complete_task_except.
  by rewrite Hnf.
Qed.

Lemma delete_task_except_not_found task_id :
  delete_task_except (delete_task_not_found task_id)
  = delete_task_not_found task_id.
Proof.
  unfold delete_task_except, delete_task_not_found; simpl exn_str.
  rewrite (contains_app_r _ "Task with id "); [done|].
  apply contains_app_r. reflexivity.
Qed.

(** [complete_task] on an id the query does not find. *)
Lemma complete_task_unselected now user_id task_id s :
  user_id <> EmptyString -> 0 < task_id ->
  select_task task_id user_id s = Ok None ->
  complete_task now user_id (Some task_id) s
  = (Raise (complete_task_not_found task_id), s).
Proof.
  intros Hu Hid Hsel. unfold complete_task.
  rewrite user_id_check, bool_decide_eq_false_2 by done.
  cbv iota. rewrite (proj2 (task_id_accepted task_id) Hid).
  unfold complete_task_body. rewrite Hsel. simpl.
  by rewrite complete_task_except_not_found.
Qed.

Lemma delete_task_unselected user_id task_id s :
  user_id <> EmptyString -> 0 < task_id ->
  select_task task_id user_id s = Ok None ->
  delete_task user_id (Some task_id) s
  = (Raise (delete_task_not_found task_id), s).
Proof.
  intros Hu Hid Hsel. unfold delete_task.
  rewrite user_id_check, bool_decide_eq_false_2 by done.
  cbv iota. rewrite (proj2 (task_id_accepted task_id) Hid).
  unfold delete_task_body. rewrite Hsel. simpl.
  by rewrite delete_task_except_not_found.
Qed.

Lemma update_task_unselected now user_id task_id f v s :
  update_task_validate user_id (Some task_id) f = Ok v ->
  select_task task_id user_id s = Ok None ->
  update_task now user_id (Some task_id) f s
  = (Raise (update_task_not_found task_id user_id), s).
Proof.
  intros Hv Hsel. unfold update_task. rewrite Hv.
  unfold update_task_body. by rewrite Hsel.
Qed.

End ToolFacts.

(* ===================================================================== *)
(** * Ownership and identifier validation (C1, C10) *)
(* ===================================================================== *)

Section Ownership.
Context `{Platform}.

(** With a rejected [task_id] the three tools stop at the same
    validation error, whatever the store holds. *)
Lemma rejected_task_id_outcome now user_id task_id f s :
  task_id_rejected task_id = true ->
  let e := if bool_decide (user_id = EmptyString) then user_id_invalid
           else task_id_invalid in
  complete_task now user_id task_id s = (Raise e, s)
  /\ delete_task user_id task_id s = (Raise e, s)
  /\ update_task now user_id task_id f s = (Raise e, s).
Proof.
  intros Hbad. unfold complete_task, delete_task, update_task,
    update_task_validate.
  rewrite user_id_check. case_bool_decide as Hu; simpl.
  - done.
  - by rewrite Hbad.
Qed.

(** An id of more than 32 bits makes [complete_task] and [delete_task]
    raise what the driver raised, wrapped or as it is, which is neither a
    [ValueError] nor the tool's "not found" error. *)
Lemma complete_task_out_of_range now user_id n s :
  user_id <> EmptyString -> int4_max < n ->
  complete_task now user_id (Some n) s
  = (Raise (complete_task_except (out_of_int32_range n user_id)), s)
  /\ exn_cls (complete_task_except (out_of_int32_range n user_id)) <> ValueError
  /\ complete_task_except (out_of_int32_range n user_id)
     <> complete_task_not_found n.
Proof.
  intros Hu Hn. split_and!.
  - unfold complete_task.
    rewrite user_id_check, bool_decide_eq_false_2 by done.
    cbv iota. rewrite (proj2 (task_id_accepted n)) by (unfold int4_max in Hn; lia).
    unfold complete_task_body. rewrite select_task_out_of_range; [done|].
    apply not_true_is_false. rewrite is_int4_spec. lia.
  - unfold complete_task_except. simpl is_ValueError. cbv iota.
    by destruct (Py.contains _ _).
  - unfold complete_task_except. simpl is_ValueError. cbv iota.
    by destruct (Py.contains _ _).
Qed.

Lemma delete_task_out_of_range user_id n s :
  user_id <> EmptyString -> int4_max < n ->
  delete_task user_id (Some n) s
  = (Raise (delete_task_except (out_of_int32_range n user_id)), s)
  /\ exn_cls (delete_task_except (out_of_int32_range n user_id)) <> ValueError
  /\ delete_task_except (out_of_int32_range n user_id)
     <> delete_task_not_found n.
Proof.
  intros Hu Hn. split_and!.
  - unfold delete_task.
    rewrite user_id_check, bool_decide_eq_false_2 by done.
    cbv iota. rewrite (proj2 (task_id_accepted n)) by (unfold int4_max in Hn; lia).
    unfold delete_task_body. rewrite select_task_out_of_range; [done|].
    apply not_true_is_false. rewrite is_int4_spec. lia.
  - unfold delete_task_except. by destruct (Py.contains _ _).
  - unfold delete_task_except. by destruct (Py.contains _ _).
Qed.

(** The query finds nothing under an id of 32 bits that no task of
    [user_id] carries. *)
Lemma select_task_unowned n user_id s :
  0 < n -> n <= int4_max ->
  (forall T, store_tasks s !! n = Some T -> Task.user_id T <> user_id) ->
  select_task n user_id s = Ok None.
Proof.
  intros Hn Hmax Hnone.
  destruct (store_tasks s !! n) as [T|] eqn:Hrow.
  - by eapply select_task_foreign, Hnone.
  - apply select_task_absent; [|done]. apply is_int4_spec.
    unfold int4_min. lia.
Qed.

(** C10.  A call of [complete_task], [delete_task] or [update_task] whose
    [task_id] is zero, negative or missing raises a [ValueError] and
    leaves the store alone, whatever the store holds; the error is
    "task_id must be a positive integer" (unless [user_id] is empty, which
    is checked first), it is not a "not found" error, and so differs from
    the error raised for a positive id that matches no owned task: the
    tool's "not found" error for an id the id column can hold, and the
    driver's error, which is no [ValueError] either, for an id of more than
    32 bits. *)
Theorem C10_rejected_task_id_is_validation_error
    (now : Datetime.t) (user_id : string) (task_id : option Z)
    (f : update_fields) :
  (task_id = None \/ exists n, task_id = Some n /\ n <= 0) ->
  exists e,
    exn_cls e = ValueError
    /\ is_not_found e = false
    /\ (user_id <> EmptyString -> e = task_id_invalid)
    /\ (forall s,
          complete_task now user_id task_id s = (Raise e, s)
          /\ delete_task user_id task_id s = (Raise e, s)
          /\ update_task now user_id task_id f s = (Raise e, s))
    /\ (forall s n,
          user_id <> EmptyString -> 0 < n -> n <= int4_max ->
          (forall T, store_tasks s !! n = Some T ->
                     Task.user_id T <> user_id) ->
          complete_task now user_id (Some n) s
            = (Raise (complete_task_not_found n), s)
          /\ delete_task user_id (Some n) s
             = (Raise (delete_task_not_found n), s)
          /\ complete_task_not_found n <> e
          /\ delete_task_not_found n <> e
          /\ update_task_not_found n user_id <> e)
    /\ (forall s n,
          user_id <> EmptyString -> int4_max < n ->
          exists e1 e2,
            complete_task now user_id (Some n) s = (Raise e1, s)
            /\ delete_task user_id (Some n) s = (Raise e2, s)
            /\ exn_cls e1 <> ValueError /\ exn_cls e2 <> ValueError
            /\ e1 <> complete_task_not_found n
            /\ e2 <> delete_task_not_found n).
Proof.
  intros Hbad%task_id_rejected_spec.
  exists (if bool_decide (user_id = EmptyString) then user_id_invalid
          else task_id_invalid).
  split_and!.
  - by case_bool_decide.
  - by case_bool_decide.
  - intros Hu. by rewrite bool_decide_eq_false_2.
  - intros s. by apply rejected_task_id_outcome.
  - intros s n Hu Hn Hmax Hnone.
    pose proof (select_task_unowned n user_id s Hn Hmax Hnone) as Hsel.
    split_and!.
    + by apply complete_task_unselected.
    + by apply delete_task_unselected.
    + rewrite bool_decide_eq_false_2 by done. discriminate.
    + rewrite bool_decide_eq_false_2 by done. discriminate.
    + intros Heq.
      pose proof (update_task_not_found_is_not_found n user_id) as Hnf.
      rewrite Heq, bool_decide_eq_false_2 in Hnf by done. discriminate.
  - intros s n Hu Hn.
    destruct (complete_task_out_of_range now user_id n s Hu Hn)
      as (Hc & Hc1 & Hc2).
    destruct (delete_task_out_of_range user_id n s Hu Hn) as (Hd & Hd1 & Hd2).
    eexists _, _. by split_and!.
Qed.

(** What [complete_task] does when the query finds no row depends on the
    arguments only. *)
Lemma complete_task_unselected_any now user_id task_id :
  exists e,
    (user_id <> EmptyString -> 0 < task_id ->
     e = complete_task_not_found task_id)
    /\ forall s, select_task task_id user_id s = Ok None ->
                 complete_task now user_id (Some task_id) s = (Raise e, s).
Proof.
  destruct (decide (user_id = EmptyString)) as [Hu|Hu];
    [|destruct (decide (0 < task_id)) as [Hid|Hid]].
  - exists user_id_invalid. split; [done|]. intros s _.
    unfold complete_task. by rewrite user_id_check, bool_decide_eq_true_2.
  - exists (complete_task_not_found task_id). split; [done|].
    intros s Hsel. by apply complete_task_unselected.
  - exists task_id_invalid. split; [done|]. intros s _.
    assert (task_id_rejected (Some task_id) = true) as Hbad.
    { apply task_id_rejected_spec. right. exists task_id. split; [done|lia]. }
    pose proof (rejected_task_id_outcome now user_id (Some task_id)
                  Example.no_fields s Hbad) as Hout.
    rewrite bool_decide_eq_false_2 in Hout by done. apply Hout.
Qed.

Lemma delete_task_unselected_any user_id task_id :
  exists e,
    (user_id <> EmptyString -> 0 < task_id ->
     e = delete_task_not_found task_id)
    /\ forall s, select_task task_id user_id s = Ok None ->
                 delete_task user_id (Some task_id) s = (Raise e, s).
Proof.
  destruct (decide (user_id = EmptyString)) as [Hu|Hu];
    [|destruct (decide (0 < task_id)) as [Hid|Hid]].
  - exists user_id_invalid. split; [done|]. intros s _.
    unfold delete_task. by rewrite user_id_check, bool_decide_eq_true_2.
  - exists (delete_task_not_found task_id). split; [done|].
    intros s Hsel. by apply delete_task_unselected.
  - exists task_id_invalid. split; [done|]. intros s _.
    assert (task_id_rejected (Some task_id) = true) as Hbad.
    { apply task_id_rejected_spec. right. exists task_id. split; [done|lia]. }
    pose proof (rejected_task_id_outcome 0 user_id (Some task_id)
                  Example.no_fields s Hbad) as Hout.
    rewrite bool_decide_eq_false_2 in Hout by done. apply Hout.
Qed.

Lemma update_task_unselected_any now user_id task_id f :
  exists e,
    (forall v, update_task_validate user_id (Some task_id) f = Ok v ->
               e = update_task_not_found task_id user_id)
    /\ forall s, select_task task_id user_id s = Ok None ->
                 update_task now user_id (Some task_id) f s = (Raise e, s).
Proof.
  destruct (update_task_validate user_id (Some task_id) f) as [v|e] eqn:Hv.
  - exists (update_task_not_found task_id user_id). split; [done|].
    intros s Hsel. by apply (update_task_unselected _ _ _ _ v).
  - exists e. split; [done|]. intros s _. unfold update_task. by rewrite Hv.
Qed.

(** C1.  Let [T] be stored under [task_id] and let the caller [C] differ
    from [T]'s owner.  Then each of [complete_task], [delete_task] and
    [update_task] called by [C] on [task_id] raises, leaves the store (and
    so [T]) as it was, and raises the very exception it raises on any store
    in which [task_id] is absent.  For a non-empty [C] and a positive id
    (and, for [update_task], arguments that pass validation) that exception
    is the tool's "not found" error. *)
Theorem C1_foreign_task_is_not_found
    (now : Datetime.t) (s : store) (task_id : Z) (T : Task.t) (C : string)
    (f : update_fields) :
  store_tasks s !! task_id = Some T ->
  Task.user_id T <> C ->
  (exists e,
     complete_task now C (Some task_id) s = (Raise e, s)
     /\ (forall s0, store_tasks s0 !! task_id = None ->
                    complete_task now C (Some task_id) s0 = (Raise e, s0))
     /\ (C <> EmptyString -> 0 < task_id ->
         e = complete_task_not_found task_id /\ is_not_found e = true))
  /\ (exists e,
        delete_task C (Some task_id) s = (Raise e, s)
        /\ (forall s0, store_tasks s0 !! task_id = None ->
                       delete_task C (Some task_id) s0 = (Raise e, s0))
        /\ (C <> EmptyString -> 0 < task_id ->
            e = delete_task_not_found task_id /\ is_not_found e = true))
  /\ (exists e,
        update_task now C (Some task_id) f s = (Raise e, s)
        /\ (forall s0, store_tasks s0 !! task_id = None ->
                       update_task now C (Some task_id) f s0 = (Raise e, s0))
        /\ (forall v, update_task_validate C (Some task_id) f = Ok v ->
                      e = update_task_not_found task_id C
                      /\ is_not_found e = true)).
Proof.
  intros Hrow Hne.
  pose proof (select_task_foreign _ _ _ _ Hrow Hne) as Hsel.
  split_and!.
  - destruct (complete_task_unselected_any now C task_id) as (e & He & Hall).
    exists e. split_and!.
    + by apply Hall.
    + intros s0 Habs. apply Hall, select_task_absent; [|done].
      by eapply store_tasks_is_int4.
    + intros Hu Hid. rewrite (He Hu Hid). split; [done|].
      apply complete_task_not_found_is_not_found.
  - destruct (delete_task_unselected_any C task_id) as (e & He & Hall).
    exists e. split_and!.
    + by apply Hall.
    + intros s0 Habs. apply Hall, select_task_absent; [|done].
      by eapply store_tasks_is_int4.
    + intros Hu Hid. rewrite (He Hu Hid). split; [done|].
      apply delete_task_not_found_is_not_found.
  - destruct (update_task_unselected_any now C task_id f) as (e & He & Hall).
    exists e. split_and!.
    + by apply Hall.
    + intros s0 Habs. apply Hall, select_task_absent; [|done].
      by eapply store_tasks_is_int4.
    + intros v Hv. rewrite (He v Hv). split; [done|].
      apply update_task_not_found_is_not_found.
Qed.

End Ownership.

(* ===================================================================== *)
(** * [update_task] (C7) *)
(* ===================================================================== *)

Section UpdateTask.
Context `{Platform}.

Lemma update_task_validate_no_fields user_id task_id f :
  no_updates f = true ->
  exists m,
    update_task_validate user_id task_id f = Raise (Exn ValueError m)
    /\ (user_id <> EmptyString -> task_id_rejected task_id = false ->
        m = "At least one field must be provided for update").
Proof.
  intros Hno. unfold update_task_validate. rewrite user_id_check.
  case_bool_decide as Hu; simpl; [by eexists|].
  destruct (task_id_rejected task_id); simpl; [by eexists|].
  rewrite Hno. simpl. by eexists.
Qed.

Lemma update_task_validate_blank_title user_id task_id f t :
  uf_title f = Some t -> Py.strip t = EmptyString ->
  exists m,
    update_task_validate user_id task_id f = Raise (Exn ValueError m)
    /\ (user_id <> EmptyString -> task_id_rejected task_id = false ->
        m = "title cannot be empty").
Proof.
  intros Ht Hblank. unfold update_task_validate. rewrite user_id_check.
  case_bool_decide as Hu; simpl; [by eexists|].
  destruct (task_id_rejected task_id); simpl; [by eexists|].
  assert (no_updates f = false) as -> by (unfold no_updates; by rewrite Ht).
  simpl. rewrite Ht, Hblank. simpl. by eexists.
Qed.

(** A successful [update_task] names the row it wrote. *)
Lemma update_task_success now user_id task_id f s r s' :
  update_task now user_id task_id f s = (Ok r, s') ->
  exists n T v,
    task_id = Some n
    /\ update_task_validate user_id task_id f = Ok v
    /\ store_tasks s !! n = Some T
    /\ Task.user_id T = user_id
    /\ s' = Store (<[n := apply_updates now f v T]> (store_tasks s))
              (store_next_id s)
    /\ r = {| tr_task := task_info_of n (apply_updates now f v T);
              tr_message := "Task updated successfully" |}.
Proof.
  unfold update_task.
  destruct (update_task_validate user_id task_id f) as [v|e] eqn:Hv; [|done].
  destruct task_id as [n|]; [|done].
  unfold update_task_body.
  destruct (select_task n user_id s) as [[T|]|e] eqn:Hsel; [|done|done].
  apply select_task_Some in Hsel as [Hrow Hown]. simpl.
  unfold flush_update. destruct (db_rejects _); simpl; [done|].
  intros [= <- <-]. by exists n, T, v.
Qed.

(** An id of more than 32 bits makes [update_task] raise the wrapped error
    of the driver. *)
Lemma update_task_out_of_range now user_id n f v s :
  update_task_validate user_id (Some n) f = Ok v ->
  int4_max < n ->
  update_task now user_id (Some n) f s
  = (Raise (Exn PlainException
              ("Database error: " +:+ exn_str (out_of_int32_range n user_id))),
     s).
Proof.
  intros Hv Hn. unfold update_task. rewrite Hv.
  unfold update_task_body. rewrite select_task_out_of_range; [done|].
  apply not_true_is_false. rewrite is_int4_spec. lia.
Qed.

(** What validation hands to the assignments. *)
Lemma update_task_validate_Ok user_id task_id f v :
  update_task_validate user_id task_id f = Ok v ->
  uv_title v = Py.strip <$> uf_title f
  /\ (uf_description f = None -> uv_description v = None).
Proof.
  unfold update_task_validate. intros Hv. inv_bind Hv.
  injection Hv as <-. simpl. split.
  - destruct (uf_title f) as [t|]; simpl in *.
    + inv_bind Ha2. by injection Ha2 as <-.
    + by injection Ha2 as <-.
  - by intros ->.
Qed.

(** C7 (amended).  [update_task] raises a [ValueError] when no updatable
    field is supplied and when a supplied title is empty after trimming.
    With valid arguments and an id that the id column can hold (at most
    2147483647) it raises its "not found" error when no row has the given
    id and owner; with valid arguments and a larger id it raises an
    [Exception] "Database error: ...", which is not the "not found" error.
    When it succeeds it has rewritten that one row only, setting
    [updated_at] to the current time and leaving every field that was not
    supplied, and every other row, as it was. *)
Theorem C7_update_task
    (now : Datetime.t) (user_id : string) (task_id : option Z)
    (f : update_fields) (s : store) :
  (no_updates f = true ->
   exists m,
     update_task now user_id task_id f s = (Raise (Exn ValueError m), s)
     /\ (user_id <> EmptyString -> task_id_rejected task_id = false ->
         m = "At least one field must be provided for update"))
  /\ (forall t,
        uf_title f = Some t -> Py.strip t = EmptyString ->
        exists m,
          update_task now user_id task_id f s = (Raise (Exn ValueError m), s)
          /\ (user_id <> EmptyString -> task_id_rejected task_id = false ->
              m = "title cannot be empty"))
  /\ (forall n v,
        task_id = Some n ->
        update_task_validate user_id task_id f = Ok v ->
        n <= int4_max ->
        (forall T, store_tasks s !! n = Some T -> Task.user_id T <> user_id) ->
        update_task now user_id task_id f s
          = (Raise (update_task_not_found n user_id), s)
        /\ is_not_found (update_task_not_found n user_id) = true)
  /\ (forall n v,
        task_id = Some n ->
        update_task_validate user_id task_id f = Ok v ->
        int4_max < n ->
        exists m,
          update_task now user_id task_id f s
          = (Raise (Exn PlainException ("Database error: " +:+ m)), s)
          /\ Exn PlainException ("Database error: " +:+ m)
             <> update_task_not_found n user_id)
  /\ (forall r s',
        update_task now user_id task_id f s = (Ok r, s') ->
        exists n T T',
          task_id = Some n
          /\ store_tasks s !! n = Some T
          /\ Task.user_id T = user_id
          /\ store_tasks s' = <[n := T']> (store_tasks s)
          /\ store_next_id s' = store_next_id s
          /\ tr_task r = task_info_of n T'
          /\ Task.updated_at T' = now
          /\ (uf_title f = None -> Task.title T' = Task.title T)
          /\ (uf_description f = None ->
              Task.description T' = Task.description T)
          /\ (uf_priority f = None -> Task.priority T' = Task.priority T)
          /\ (uf_tags f = None -> Task.tags T' = Task.tags T)
          /\ (uf_due_date f = None -> Task.due_date T' = Task.due_date T)
          /\ (uf_recurrence f = None ->
              Task.recurrence T' = Task.recurrence T)
          /\ (uf_recurrence_interval f = None ->
              Task.recurrence_interval T' = Task.recurrence_interval T)
          /\ Task.user_id T' = Task.user_id T
          /\ Task.completed T' = Task.completed T
          /\ Task.created_at T' = Task.created_at T
          /\ Task.parent_task_id T' = Task.parent_task_id T
          /\ (forall t, uf_title f = Some t -> Task.title T' = Py.strip t)
          /\ (forall l, uf_tags f = Some l -> Task.tags T' = Some l)
          /\ (forall k, uf_recurrence_interval f = Some k ->
                        Task.recurrence_interval T' = Some k)).
Proof.
  split_and!.
  - intros Hno.
    destruct (update_task_validate_no_fields user_id task_id f Hno)
      as (m & Hv & Hm).
    exists m. split; [|done]. unfold update_task. by rewrite Hv.
  - intros t Ht Hblank.
    destruct (update_task_validate_blank_title user_id task_id f t Ht Hblank)
      as (m & Hv & Hm).
    exists m. split; [|done]. unfold update_task. by rewrite Hv.
  - intros n v -> Hv Hmax Hnone. split.
    + apply (update_task_unselected _ _ _ _ v); [done|].
      apply select_task_unowned; [|done|done].
      apply task_id_accepted. unfold update_task_validate in Hv.
      apply bind_Ok in Hv as (u1 & _ & Hv).
      apply bind_Ok in Hv as (u2 & Hid%raise_if_Ok & _). done.
    + apply update_task_not_found_is_not_found.
  - intros n v -> Hv Hn. eexists. split.
    + by apply (update_task_out_of_range _ _ _ _ v).
    + discriminate.
  - intros r s' Hok.
    destruct (update_task_success _ _ _ _ _ _ _ Hok)
      as (n & T & v & -> & Hv & Hrow & Hown & -> & ->).
    destruct (update_task_validate_Ok _ _ _ _ Hv) as [Htitle Hdescr].
    exists n, T, (apply_updates now f v T).
    split_and!; try done; simpl.
    + apply store_tasks_insert. by eapply store_tasks_is_int4.
    + intros Hnone. rewrite Htitle, Hnone. done.
    + intros Hnone. by rewrite (Hdescr Hnone).
    + by intros ->.
    + by intros ->.
    + by intros ->.
    + by intros ->.
    + by intros ->.
    + intros t Ht. rewrite Htitle, Ht. done.
    + by intros l ->.
    + by intros k ->.
Qed.

End UpdateTask.

(* ===================================================================== *)
(** * [complete_task] on a recurring task (C5) *)
(* ===================================================================== *)

Section CompleteTask.
Context `{Platform}.

Lemma add_days_Ok (d : Datetime.t) (k : Z) (x : Datetime.t) :
  Datetime.add_days d k = Ok x -> x = d + k * Datetime.us_per_day.
Proof.
  unfold Datetime.add_days, Datetime.timedelta_days, Datetime.add.
  destruct (Z.abs k <=? 999999999); [|done].
  destruct (Datetime.in_range _); [|done]. by intros [= <-].
Qed.

Lemma add_weeks_Ok (d : Datetime.t) (k : Z) (x : Datetime.t) :
  Datetime.add_weeks d k = Ok x -> x = d + 7 * k * Datetime.us_per_day.
Proof.
  unfold Datetime.add_weeks, Datetime.timedelta_weeks, Datetime.timedelta_days,
    Datetime.add.
  destruct (Z.abs (7 * k) <=? 999999999); [|done].
  destruct (Datetime.in_range _); [|done]. by intros [= <-].
Qed.

Lemma fmap_Some_Ok (r : result Datetime.t) (nd : option Datetime.t) :
  Some <$> r = Ok nd -> exists x, r = Ok x /\ nd = Some x.
Proof. destruct r as [x|e]; [|done]. intros [= <-]. by exists x. Qed.

(** The due date that a successful [next_due_date] computes. *)
Lemma next_due_date_Ok (task : Task.t) (nd : option Datetime.t) :
  next_due_date task = Ok nd ->
  match Task.due_date task with
  | None => nd = None
  | Some due =>
      (Task.recurrence task = Some "daily" ->
       nd = Some (due + 1 * Datetime.us_per_day))
      /\ (Task.recurrence task = Some "weekly" ->
          nd = Some (due + 7 * Datetime.us_per_day))
      /\ (Task.recurrence task = Some "monthly" ->
          nd = Some (due + 30 * Datetime.us_per_day))
      /\ (Task.recurrence task = Some "custom" ->
          forall k, Task.recurrence_interval task = Some k -> k <> 0 ->
                    nd = Some (due + k * Datetime.us_per_day))
      /\ (Task.recurrence task = Some "custom" ->
          Py.truthy_int (Task.recurrence_interval task) = false ->
          nd = None)
      /\ (Task.recurrence task <> Some "daily" ->
          Task.recurrence task <> Some "weekly" ->
          Task.recurrence task <> Some "monthly" ->
          Task.recurrence task <> Some "custom" ->
          nd = None)
  end.
Proof.
  unfold next_due_date. destruct (Task.due_date task) as [due|]; [|by intros [= <-]].
  case_bool_decide as Hd.
  { intros (x & ->%add_days_Ok & ->)%fmap_Some_Ok.
    rewrite Hd. split_and!; try done. }
  case_bool_decide as Hw.
  { intros (x & ->%add_weeks_Ok & ->)%fmap_Some_Ok.
    rewrite Hw. split_and!; try done. }
  case_bool_decide as Hm.
  { intros (x & ->%add_days_Ok & ->)%fmap_Some_Ok.
    rewrite Hm. split_and!; try done. }
  case_bool_decide as Hc; simpl.
  - destruct (Task.recurrence_interval task) as [k|] eqn:Hk; simpl.
    + destruct (Z.eqb_spec k 0) as [->|Hk0]; simpl.
      * intros [= <-]. split_and!; try done. by intros _ k [= <-].
      * intros (x & ->%add_days_Ok & ->)%fmap_Some_Ok.
        split_and!; try done. by intros _ k' [= <-].
    + intros [= <-]. by split_and!.
  - intros [= <-]. by split_and!.
Qed.

(** When nothing refuses it, [complete_task] on an owned recurring task
    succeeds. *)
Lemma complete_task_recurring_succeeds now user_id n s T nd :
  user_id <> EmptyString -> 0 < n ->
  store_tasks s !! n = Some T ->
  Task.user_id T = user_id ->
  Py.truthy_opt (Task.recurrence T) = true ->
  next_due_date (mark_completed now T) = Ok nd ->
  db_rejects (mark_completed now T) = None ->
  db_rejects (successor now n (mark_completed now T) nd) = None ->
  is_int4 (store_next_id s) = true ->
  store_tasks s !! store_next_id s = None ->
  store_next_id s <> n ->
  complete_task now user_id (Some n) s
  = (Ok (recurring_response n T (store_next_id s) nd),
     Store (<[store_next_id s := successor now n (mark_completed now T) nd]>
              (<[n := mark_completed now T]> (store_tasks s)))
           (store_next_id s + 1)).
Proof.
  intros Hu Hn Hrow Hown Hrec Hnd Hacc1 Hacc2 Hseq Hfresh Hne.
  unfold complete_task.
  rewrite user_id_check, bool_decide_eq_false_2 by done. cbv iota.
  rewrite (proj2 (task_id_accepted n) Hn).
  unfold complete_task_body.
  rewrite (proj2 (select_task_Some n user_id s T) (conj Hrow Hown)).
  cbn [mbind result_bind].
  change (Task.recurrence (mark_completed now T)) with (Task.recurrence T).
  rewrite Hrec, Hnd. simpl.
  unfold flush_update. rewrite Hacc1. simpl.
  unfold flush_insert. rewrite Hacc2. cbv zeta. simpl store_next_id.
  rewrite Hseq. simpl negb. cbv iota.
  rewrite store_tasks_insert by (by eapply store_tasks_is_int4).
  by rewrite lookup_insert_ne, Hfresh by done.
Qed.

(** [complete_task] on an owned recurring task either raises and leaves the
    store as it was, or writes both rows. *)
Lemma complete_task_recurring now user_id n s T :
  store_tasks s !! n = Some T ->
  Task.user_id T = user_id ->
  Py.truthy_opt (Task.recurrence T) = true ->
  (exists e, complete_task now user_id (Some n) s = (Raise e, s))
  \/ (exists nd,
        next_due_date (mark_completed now T) = Ok nd
        /\ is_int4 (store_next_id s) = true
        /\ store_tasks s !! store_next_id s = None
        /\ store_next_id s <> n
        /\ complete_task now user_id (Some n) s
           = (Ok (recurring_response n T (store_next_id s) nd),
              Store (<[store_next_id s :=
                         successor now n (mark_completed now T) nd]>
                       (<[n := mark_completed now T]> (store_tasks s)))
                    (store_next_id s + 1))).
Proof.
  intros Hrow Hown Hrec. unfold complete_task.
  destruct (negb (Py.truthy user_id) || (Py.len user_id =? 0)); [left; by eexists|].
  destruct (task_id_rejected (Some n)); [left; by eexists|].
  unfold complete_task_body.
  rewrite (proj2 (select_task_Some n user_id s T) (conj Hrow Hown)).
  cbn [mbind result_bind].
  change (Task.recurrence (mark_completed now T)) with (Task.recurrence T).
  rewrite Hrec.
  destruct (next_due_date (mark_completed now T)) as [nd|e] eqn:Hnd; simpl;
    [|left; by eexists].
  unfold flush_update.
  destruct (db_rejects (mark_completed now T)); simpl; [left; by eexists|].
  unfold flush_insert.
  destruct (db_rejects (successor now n (mark_completed now T) nd)); simpl;
    [left; by eexists|].
  destruct (is_int4 (store_next_id s)) eqn:Hseq; simpl; [|left; by eexists].
  rewrite store_tasks_insert by (by eapply store_tasks_is_int4).
  destruct (<[n:=mark_completed now T]> (store_tasks s) !! store_next_id s)
    as [x|] eqn:Hfresh; simpl; [left; by eexists|].
  right. exists nd.
  apply lookup_insert_None in Hfresh as [Hfresh Hne].
  by split_and!.
Qed.

(** C5 (amended).  Let [T] be stored under [n], owned by the caller, with a
    recurrence.  Then [complete_task] either raises and leaves the store as
    it was, or succeeds and the new store is the old one with [T] rewritten
    ([completed] true, [updated_at] now, nothing else changed) and exactly
    one row added under a fresh id: same owner, title, description,
    priority, tags, recurrence and interval as [T], not completed, parent
    [n].  The new row's due date is [T]'s advanced by 1 day (daily), 7 days
    (weekly), 30 days (monthly) or the interval (custom, when the interval
    is not zero); it is absent when [T] has no due date or when the
    recurrence is custom without an interval or with interval zero. *)
Theorem C5_complete_recurring_task
    (now : Datetime.t) (user_id : string) (n : Z) (s : store) (T : Task.t) :
  store_tasks s !! n = Some T ->
  Task.user_id T = user_id ->
  Py.truthy_opt (Task.recurrence T) = true ->
  (exists e, complete_task now user_id (Some n) s = (Raise e, s))
  \/ (exists r s' new_id T' S,
        complete_task now user_id (Some n) s = (Ok r, s')
        /\ store_tasks s !! new_id = None
        /\ new_id <> n
        /\ store_tasks s' = <[new_id := S]> (<[n := T']> (store_tasks s))
        /\ cr_next_task r = Some (new_id, Task.due_date S)
        (* the completed row *)
        /\ Task.completed T' = true
        /\ Task.updated_at T' = now
        /\ Task.user_id T' = Task.user_id T
        /\ Task.title T' = Task.title T
        /\ Task.description T' = Task.description T
        /\ Task.created_at T' = Task.created_at T
        /\ Task.priority T' = Task.priority T
        /\ Task.tags T' = Task.tags T
        /\ Task.due_date T' = Task.due_date T
        /\ Task.recurrence T' = Task.recurrence T
        /\ Task.recurrence_interval T' = Task.recurrence_interval T
        /\ Task.parent_task_id T' = Task.parent_task_id T
        (* the successor *)
        /\ Task.user_id S = Task.user_id T
        /\ Task.title S = Task.title T
        /\ Task.description S = Task.description T
        /\ Task.priority S = Task.priority T
        /\ Task.tags S = Task.tags T
        /\ Task.recurrence S = Task.recurrence T
        /\ Task.recurrence_interval S = Task.recurrence_interval T
        /\ Task.completed S = false
        /\ Task.parent_task_id S = Some n
        /\ match Task.due_date T with
           | None => Task.due_date S = None
           | Some due =>
               (Task.recurrence T = Some "daily" ->
                Task.due_date S = Some (due + 1 * Datetime.us_per_day))
               /\ (Task.recurrence T = Some "weekly" ->
                   Task.due_date S = Some (due + 7 * Datetime.us_per_day))
               /\ (Task.recurrence T = Some "monthly" ->
                   Task.due_date S = Some (due + 30 * Datetime.us_per_day))
               /\ (Task.recurrence T = Some "custom" ->
                   forall k, Task.recurrence_interval T = Some k -> k <> 0 ->
                             Task.due_date S
                             = Some (due + k * Datetime.us_per_day))
               /\ (Task.recurrence T = Some "custom" ->
                   Py.truthy_int (Task.recurrence_interval T) = false ->
                   Task.due_date S = None)
           end).
Proof.
  intros Hrow Hown Hrec.
  destruct (complete_task_recurring now user_id n s T Hrow Hown Hrec)
    as [Hfail | (nd & Hnd & Hseq & Hfresh & Hne & Hrun)]; [by left|].
  right.
  eexists _, _, (store_next_id s), (mark_completed now T),
    (successor now n (mark_completed now T) nd).
  split; [exact Hrun|].
  split_and!; try done.
  { pose proof (store_tasks_is_int4 _ _ _ Hrow) as Hn.
    rewrite <- (store_tasks_insert s n (mark_completed now T) (store_next_id s))
      by done.
    by apply store_tasks_insert. }
  apply next_due_date_Ok in Hnd. simpl in *.
  destruct (Task.due_date T) as [due|]; [|done].
  destruct Hnd as (Hd & Hw & Hm & Hc & Hc0 & _). by split_and!.
Qed.

End CompleteTask.

(* ===================================================================== *)
(** * [add_task] and [list_tasks] (C6, C8) *)
(* ===================================================================== *)

Section AddTask.
Context `{Platform}.

(** Validation in [add_task] raises nothing but [ValueError]. *)
Lemma add_task_validate_raises_ValueError
    user_id title description priority due_date recurrence
    recurrence_interval e :
  add_task_validate user_id title description priority due_date recurrence
    recurrence_interval = Raise e ->
  exn_cls e = ValueError.
Proof.
  unfold add_task_validate. intros Hv.
  apply bind_Raise in Hv as [(_ & ->)%raise_if_Raise | (? & _ & Hv)]; [done|].
  apply bind_Raise in Hv as [(_ & ->)%raise_if_Raise | (? & _ & Hv)]; [done|].
  apply bind_Raise in Hv as [Hp | (? & _ & Hv)].
  { destruct priority as [p|]; [|done]. destruct (Py.truthy p); [|done].
    destruct (PriorityEnum _); [done|]. by injection Hp as <-. }
  apply bind_Raise in Hv as [Hr | (? & _ & Hv)].
  { destruct recurrence as [r|]; [|done]. destruct (Py.truthy r); [|done].
    destruct (RecurrenceEnum _); [|by injection Hr as <-].
    apply bind_Raise in Hr as [(_ & ->)%raise_if_Raise | (? & _ & Hr)]; [done|].
    apply bind_Raise in Hr as [(_ & ->)%raise_if_Raise | (? & _ & Hr)]; done. }
  apply bind_Raise in Hv as [Hd | (? & _ & Hv)]; [|done].
  destruct due_date as [d|]; [|done]. destruct (Py.truthy d); [|done].
  destruct (fromisoformat _); [done|]. by injection Hd as <-.
Qed.

(** What validation has checked when it succeeds. *)
Lemma add_task_validate_Ok
    user_id title description priority due_date recurrence
    recurrence_interval title' description' priority_enum recurrence_enum
    due_date_dt :
  add_task_validate user_id title description priority due_date recurrence
    recurrence_interval
  = Ok (title', description', priority_enum, recurrence_enum, due_date_dt) ->
  user_id <> EmptyString
  /\ title' = Py.strip title
  /\ Py.strip title <> EmptyString
  /\ (forall r, recurrence = Some r ->
                RecurrenceEnum (Py.lower r) = Some "custom" ->
                exists k, recurrence_interval = Some k /\ 1 <= k).
Proof.
  unfold add_task_validate. intros Hv. inv_bind Hv.
  injection Hv as <- <- <- <- <-.
  apply raise_if_Ok in Ha. rewrite user_id_check in Ha.
  apply bool_decide_eq_false in Ha.
  apply raise_if_Ok, orb_false_iff in Ha0 as [_ Hstrip].
  apply negb_false_iff, truthy_true in Hstrip.
  split_and!; try done.
  intros r -> Hcustom.
  assert (Py.truthy r = true) as Htr.
  { destruct r; [|done]. done. }
  rewrite Htr, Hcustom in Ha2.
  apply bind_Ok in Ha2 as (u1 & Hc1%raise_if_Ok & Ha2).
  apply bind_Ok in Ha2 as (u2 & Hc2%raise_if_Ok & _).
  simpl in Hc1. apply negb_false_iff in Hc1.
  destruct recurrence_interval as [k|]; [|done].
  exists k. split; [done|]. rewrite Hc1 in Hc2. simpl in Hc2.
  by apply Z.ltb_ge in Hc2.
Qed.

(** [add_task] raises [ValueError] when the title is empty after
    trimming. *)
Lemma add_task_blank_title
    now user_id title description priority tags due_date recurrence
    recurrence_interval s :
  Py.strip title = EmptyString ->
  exists m,
    add_task now user_id title description priority tags due_date recurrence
      recurrence_interval s = (Raise (Exn ValueError m), s)
    /\ (user_id <> EmptyString -> m = "title cannot be empty").
Proof.
  intros Hblank. unfold add_task, add_task_validate. rewrite user_id_check.
  case_bool_decide as Hu; simpl; [by eexists|].
  rewrite Hblank, orb_true_r. simpl. by eexists.
Qed.

(** [add_task] raises [ValueError] when the recurrence is custom and the
    interval is missing, zero or negative. *)
Lemma add_task_custom_without_interval
    now user_id title description priority tags due_date r
    recurrence_interval s :
  RecurrenceEnum (Py.lower r) = Some "custom" ->
  (recurrence_interval = None
   \/ exists k, recurrence_interval = Some k /\ k <= 0) ->
  exists m,
    add_task now user_id title description priority tags due_date (Some r)
      recurrence_interval s = (Raise (Exn ValueError m), s).
Proof.
  intros Hcustom Hbad. unfold add_task.
  destruct (add_task_validate user_id title description priority due_date
              (Some r) recurrence_interval)
    as [[[[[t d] p] re] dd]|e] eqn:Hv.
  - apply add_task_validate_Ok in Hv as (_ & _ & _ & Hint).
    destruct (Hint r eq_refl Hcustom) as (k & -> & Hk).
    destruct Hbad as [? | (k' & [= <-] & ?)]; [done | lia].
  - pose proof (add_task_validate_raises_ValueError _ _ _ _ _ _ _ _ Hv) as Hcls.
    destruct e as [cls m]. simpl in Hcls. subst cls. by exists m.
Qed.

(** A successful [add_task] has inserted exactly one row, under a fresh
    key, and that row is not completed. *)
Lemma add_task_success
    now user_id title description priority tags due_date recurrence
    recurrence_interval s r s' :
  add_task now user_id title description priority tags due_date recurrence
    recurrence_interval s = (Ok r, s') ->
  exists row,
    store_tasks s !! store_next_id s = None
    /\ s' = Store (<[store_next_id s := row]> (store_tasks s))
              (store_next_id s + 1)
    /\ tr_task r = task_info_of (store_next_id s) row
    /\ Task.completed row = false
    /\ Task.user_id row = user_id
    /\ Task.title row = Py.strip title
    /\ Task.tags row = tags
    /\ Task.parent_task_id row = None
    /\ user_id <> EmptyString
    /\ is_int4 (store_next_id s) = true.
Proof.
  unfold add_task.
  destruct (add_task_validate user_id title description priority due_date
              recurrence recurrence_interval)
    as [[[[[t d] p] re] dd]|e] eqn:Hv; [|done].
  apply add_task_validate_Ok in Hv as (Hu & -> & _ & _).
  unfold flush_insert. destruct (db_rejects _); [done|]. cbv zeta.
  destruct (is_int4 (store_next_id s)) eqn:Hseq; [|done]. simpl negb. cbv iota.
  destruct (store_tasks s !! store_next_id s) eqn:Hfresh; [done|].
  intros [= <- <-]. eexists. by split_and!.
Qed.

(** A title longer than 200 characters is never refused by validation:
    the call succeeds or fails with the wrapped database error. *)
Lemma add_task_long_title now user_id title s :
  user_id <> EmptyString -> Py.strip title <> EmptyString ->
  match fst (add_task now user_id title None None None None None None s) with
  | Ok r => ti_title (tr_task r) = Py.strip title
  | Raise e => exn_cls e = PlainException
  end.
Proof.
  intros Hu Ht. unfold add_task, add_task_validate.
  rewrite user_id_check, bool_decide_eq_false_2 by done. simpl.
  assert (Py.truthy title = true) as ->.
  { apply truthy_true. intros ->. done. }
  rewrite (proj2 (truthy_true _) Ht). simpl.
  unfold flush_insert. destruct (db_rejects _); [done|]. cbv zeta.
  destruct (is_int4 (store_next_id s)); [|done]. simpl negb. cbv iota.
  by destruct (store_tasks s !! store_next_id s).
Qed.

End AddTask.

(** C6 at the failing input.  With every other argument valid, a title of
    201 characters passes the validation of [add_task]: no [ValueError] is
    raised.  On a database that accepts the row the task is created with
    the long title; on one that enforces the column length the call fails
    with the wrapped database error. *)
Theorem C6_long_title_is_not_refused :
  Py.len Example.long_title = 201
  /\ (forall (P : Platform) now s,
        match fst (add_task (H := P) now "alice" Example.long_title
                     None None None None None None s) with
        | Ok r => ti_title (tr_task r) = Example.long_title
        | Raise e => exn_cls e = PlainException
        end)
  /\ (exists r s',
        add_task (H := Example.lenient) Example.jan1 "alice" Example.long_title
          None None None None None None Example.empty_store = (Ok r, s')
        /\ ti_title (tr_task r) = Example.long_title
        /\ Task.title <$> store_tasks s' !! 1 = Some Example.long_title)
  /\ add_task (H := Example.postgres) Example.jan1 "alice" Example.long_title
       None None None None None None Example.empty_store
     = (Raise (Exn PlainException
                 "Database error: value too long for type character varying(200)"),
        Example.empty_store).
Proof.
  split_and!.
  - reflexivity.
  - intros P now s.
    pose proof (add_task_long_title (H := P) now "alice" Example.long_title s)
      as Hlong.
    change (Py.strip Example.long_title) with Example.long_title in Hlong.
    apply Hlong; discriminate.
  - eexists _, _. by_evaluation. vm_compute. reflexivity.
  - vm_compute. reflexivity.
Qed.


Section ListTasks.
Context `{Platform}.

(** [list_tasks] with status ["all"] returns the caller's rows, the caller
    being [user_id.strip()]. *)
Lemma list_tasks_all user_id s :
  Py.strip user_id <> EmptyString ->
  exists lr,
    list_tasks user_id "all" s = (Ok lr, s)
    /\ lr_tasks lr
       ≡ₚ task_entry_of
            <$> filter (λ r : Z * Task.t, Task.user_id (snd r) = Py.strip user_id)
                  (map_to_list (store_tasks s)).
Proof.
  intros Hstrip. unfold list_tasks.
  assert (Py.truthy user_id = true) as ->.
  { apply truthy_true. intros ->. done. }
  rewrite (proj2 (truthy_true _) Hstrip). simpl.
  eexists. split; [reflexivity|]. simpl.
  rewrite merge_sort_Permutation.
  apply fmap_Permutation.
  erewrite list_filter_iff; [reflexivity|].
  intros [i row]. unfold list_tasks_where. simpl.
  rewrite andb_true_r. apply bool_decide_spec.
Qed.

Lemma filter_none {A} (P : A -> Prop) `{forall x, Decision (P x)} (l : list A) :
  Forall (λ x, ~ P x) l -> filter P l = [].
Proof.
  induction 1 as [|x l Hx _ IH]; [done|]. by rewrite filter_cons_False.
Qed.

(** The entries of rows other than [i] do not carry the id [i]. *)
Lemma filter_id_absent (P : Z * Task.t -> Prop) `{forall r, Decision (P r)}
    (i : Z) (m : gmap Z Task.t) :
  m !! i = None ->
  filter (λ e, te_id e = i) (task_entry_of <$> filter P (map_to_list m)) = [].
Proof.
  intros Hnone. apply filter_none, Forall_forall.
  intros e (r & -> & Hr)%list_elem_of_fmap.
  apply list_elem_of_filter in Hr as [_ Hr]. destruct r as [j row].
  apply elem_of_map_to_list in Hr. simpl. intros ->. congruence.
Qed.

(** Round trip for an owner whose id [list_tasks] does not alter: after a
    successful [add_task], [list_tasks] with status ["all"] has exactly one
    entry with the new id, carrying the stored title and description. *)
Lemma create_then_list
    now user_id title description priority tags due_date recurrence
    recurrence_interval s r s' :
  Py.strip user_id = user_id ->
  add_task now user_id title description priority tags due_date recurrence
    recurrence_interval s = (Ok r, s') ->
  exists lr entry,
    list_tasks user_id "all" s' = (Ok lr, s')
    /\ filter (λ e, te_id e = ti_id (tr_task r)) (lr_tasks lr) = [entry]
    /\ te_title entry = ti_title (tr_task r)
    /\ te_description entry = ti_description (tr_task r)
    /\ te_user_id entry = user_id.
Proof.
  intros Hstrip Hadd.
  apply add_task_success in Hadd
    as (row & Hfresh & -> & Hr & _ & Hown & _ & _ & _ & Hu & Hseq).
  destruct (list_tasks_all user_id
              (Store (<[store_next_id s := row]> (store_tasks s))
                 (store_next_id s + 1))) as (lr & Hlist & Hperm);
    [by rewrite Hstrip|].
  exists lr, (task_entry_of (store_next_id s, row)).
  split; [exact Hlist|]. rewrite Hr. simpl. split; [|done].
  apply Permutation_singleton_r.
  rewrite Hperm. rewrite store_tasks_insert by done. simpl.
  rewrite map_to_list_insert by done.
  rewrite filter_cons_True by (by rewrite Hstrip).
  rewrite fmap_cons, filter_cons_True by done.
  by rewrite filter_id_absent.
Qed.

End ListTasks.

(** C8 at the failing input.  [add_task] stores the owner as given, while
    [list_tasks] queries with the owner stripped of surrounding whitespace:
    for the owner [" bob"] the task is created and then is not listed. *)
Theorem C8_padded_owner_is_not_listed :
  exists r s' lr,
    add_task (H := Example.postgres) Example.jan1 " bob" "buy milk"
      (Some "two litres") None None None None None Example.empty_store
    = (Ok r, s')
    /\ ti_id (tr_task r) = 1
    /\ ti_user_id (tr_task r) = " bob"
    /\ Task.user_id <$> store_tasks s' !! 1 = Some " bob"
    /\ list_tasks " bob" "all" s' = (Ok lr, s')
    /\ lr_tasks lr = [].
Proof.
  eexists _, _, _. by_evaluation. vm_compute. reflexivity.
Qed.


(* ===================================================================== *)
(** * The orchestrator of [runner.py] (C2, C3, C4) *)
(* ===================================================================== *)

Section RunnerFacts.
Context `{Library} {W : Type} (TOOL_FUNCTIONS : string -> option (tool W)).

Lemma llm_calls_app (t1 t2 : list event) :
  llm_calls (t1 ++ t2) = (llm_calls t1 + llm_calls t2)%nat.
Proof. induction t1 as [|[] t1 IH]; simpl; [done| |done]. by rewrite IH. Qed.

Lemma dispatches_app (t1 t2 : list event) :
  dispatches (t1 ++ t2) = dispatches t1 ++ dispatches t2.
Proof. induction t1 as [|[] t1 IH]; simpl; [done|done|]. by rewrite IH. Qed.

(** ** Containment of tool failures *)

(** One tool call appends exactly one tool message, answering the call's
    id, whatever happens inside. *)
Lemma exec_tool_call_messages user_id tc w :
  exists content,
    Runner.step_messages (Runner.exec_tool_call TOOL_FUNCTIONS user_id tc w)
    = [ToolMessage (tc_id tc) content].
Proof.
  unfold Runner.exec_tool_call.
  destruct (Runner.tool_call_try TOOL_FUNCTIONS user_id tc w) as [[[r|e] w'] evs];
    by eexists.
Qed.

(** The failures of one tool call and the message each becomes. *)
Lemma exec_tool_call_failures user_id tc w :
  (forall m,
     json_loads (tc_arguments tc) = inr m ->
     Runner.exec_tool_call TOOL_FUNCTIONS user_id tc w
     = Runner.Step
         [ToolMessage (tc_id tc)
            (failure_dict ("Failed to parse tool arguments: " +:+ m))] w [])
  /\ (forall tool_args,
        json_loads (tc_arguments tc) = inl tool_args ->
        TOOL_FUNCTIONS (tc_name tc) = None ->
        Runner.exec_tool_call TOOL_FUNCTIONS user_id tc w
        = Runner.Step
            [ToolMessage (tc_id tc)
               (failure_dict ("Unknown tool: " +:+ tc_name tc))] w [])
  /\ (forall tool_args tool_func e,
        json_loads (tc_arguments tc) = inl tool_args ->
        TOOL_FUNCTIONS (tc_name tc) = Some tool_func ->
        set_user_id tool_args user_id = Raise e ->
        Runner.exec_tool_call TOOL_FUNCTIONS user_id tc w
        = Runner.Step
            [ToolMessage (tc_id tc)
               (failure_dict ("Tool execution failed: " +:+ exn_str e))] w [])
  /\ (forall tool_args tool_func kwargs e w',
        json_loads (tc_arguments tc) = inl tool_args ->
        TOOL_FUNCTIONS (tc_name tc) = Some tool_func ->
        set_user_id tool_args user_id = Ok kwargs ->
        tool_func kwargs w = (Raise e, w') ->
        Runner.exec_tool_call TOOL_FUNCTIONS user_id tc w
        = Runner.Step
            [ToolMessage (tc_id tc) (Runner.tool_call_except e)] w'
            [ToolDispatch (tc_name tc) kwargs]
        /\ (exn_cls e <> JSONDecodeError ->
            Runner.tool_call_except e
            = failure_dict ("Tool execution failed: " +:+ exn_str e))).
Proof.
  unfold Runner.exec_tool_call, Runner.tool_call_try. split_and!.
  - by intros m ->.
  - by intros a -> ->.
  - intros a tf e -> -> Hset. rewrite Hset.
    unfold Runner.tool_call_except.
    rewrite bool_decide_eq_false_2; [done|].
    destruct a; simpl in Hset; by simplify_eq.
  - intros a tf kwargs e w' -> -> -> ->. split; [done|].
    intros Hcls. unfold Runner.tool_call_except.
    by rewrite bool_decide_eq_false_2.
Qed.

(** Every tool call of a turn is answered, in order. *)
Lemma exec_tool_calls_answers user_id tcs w :
  Forall2 (λ tc m, exists content, m = ToolMessage (tc_id tc) content) tcs
    (Runner.step_messages (Runner.exec_tool_calls TOOL_FUNCTIONS user_id tcs w)).
Proof.
  revert w. induction tcs as [|tc tcs IH]; intros w; simpl; [constructor|].
  destruct (exec_tool_call_messages user_id tc w) as (content & ->).
  simpl. constructor; [by eexists | apply IH].
Qed.

(** An exception leaves the loop only when the client raised it, and then
    it is one of the API errors. *)
Lemma agent_loop_raises llm user_id remaining full_messages tool_calls_made w e :
  run_outcome (Runner.agent_loop TOOL_FUNCTIONS llm user_id remaining
                 full_messages tool_calls_made w) = Raise e ->
  Runner.is_api_error e = true /\ exists msgs, llm msgs = Raise e.
Proof.
  revert full_messages tool_calls_made w.
  induction remaining as [|remaining IH]; intros fm made w; simpl; [done|].
  destruct (llm fm) as [[|message choices]|e'] eqn:Hllm; simpl.
  - done.
  - destruct (msg_tool_calls message) as [|tc tcs]; simpl; [done|].
    apply IH.
  - destruct (Runner.is_api_error e') eqn:Hapi; simpl; [|done].
    intros [= <-]. split; [done | by exists fm].
Qed.

(** ** The iteration budget *)

Lemma exec_tool_calls_llm_calls user_id tcs w :
  llm_calls (Runner.step_trace
               (Runner.exec_tool_calls TOOL_FUNCTIONS user_id tcs w)) = O.
Proof.
  revert w. induction tcs as [|tc tcs IH]; intros w; simpl; [done|].
  rewrite llm_calls_app, IH. unfold Runner.exec_tool_call, Runner.tool_call_try.
  destruct (json_loads _); [|done].
  destruct (TOOL_FUNCTIONS _); [|done].
  destruct (set_user_id _ _); [|done].
  by destruct (t _ _) as [[] ?].
Qed.

Lemma agent_loop_llm_calls llm user_id remaining full_messages tool_calls_made w :
  (llm_calls (run_trace (Runner.agent_loop TOOL_FUNCTIONS llm user_id remaining
                           full_messages tool_calls_made w)) <= remaining)%nat.
Proof.
  revert full_messages tool_calls_made w.
  induction remaining as [|remaining IH]; intros fm made w; simpl; [done|].
  destruct (llm fm) as [[|message choices]|e'] eqn:Hllm; simpl.
  - lia.
  - destruct (msg_tool_calls message) as [|tc tcs] eqn:Htcs; simpl; [lia|].
    rewrite llm_calls_app.
    pose proof (exec_tool_calls_llm_calls user_id (tc :: tcs) w) as Hz.
    simpl in Hz. rewrite Hz. simpl. apply le_n_S, IH.
  - destruct (Runner.is_api_error e'); simpl; lia.
Qed.

Lemma requested_names_app llm (t1 t2 : list event) :
  requested_names llm (t1 ++ t2)
  = requested_names llm t1 ++ requested_names llm t2.
Proof.
  induction t1 as [|[] t1 IH]; simpl; [done| |done].
  by rewrite IH, (assoc_L (++)).
Qed.

(** A turn's tool calls add tool invocations to the trace and nothing
    else. *)
Lemma exec_tool_calls_trace user_id tcs w :
  Forall (λ ev, exists name kwargs, ev = ToolDispatch name kwargs)
    (Runner.step_trace (Runner.exec_tool_calls TOOL_FUNCTIONS user_id tcs w)).
Proof.
  revert w. induction tcs as [|tc tcs IH]; intros w; simpl; [constructor|].
  apply Forall_app. split; [|apply IH].
  unfold Runner.exec_tool_call, Runner.tool_call_try.
  destruct (json_loads _); [|constructor].
  destruct (TOOL_FUNCTIONS _); [|constructor].
  destruct (set_user_id _ _); [|constructor].
  destruct (t _ _) as [[] ?]; simpl; repeat constructor; by eexists _, _.
Qed.

Lemma requested_names_dispatch_only llm (trace : list event) :
  Forall (λ ev, exists name kwargs, ev = ToolDispatch name kwargs) trace ->
  requested_names llm trace = [].
Proof.
  induction 1 as [|ev trace (name & kwargs & ->) _ IH]; simpl; done.
Qed.

(** The iteration of the loop in which the model asks for tools. *)
Lemma agent_loop_tools llm user_id remaining full_messages tool_calls_made w
    message choices :
  llm full_messages = Ok (message :: choices) ->
  msg_tool_calls message <> [] ->
  Runner.agent_loop TOOL_FUNCTIONS llm user_id (S remaining) full_messages
    tool_calls_made w
  = let s := Runner.exec_tool_calls TOOL_FUNCTIONS user_id
               (msg_tool_calls message) w in
    let r := Runner.agent_loop TOOL_FUNCTIONS llm user_id remaining
               (full_messages ++ [AssistantMessage message]
                ++ Runner.step_messages s)
               (tool_calls_made ++ (tc_name <$> msg_tool_calls message))
               (Runner.step_world s) in
    Run (run_outcome r) (run_world r)
        (LLMCall full_messages :: Runner.step_trace s ++ run_trace r).
Proof.
  intros Hllm Hne. simpl. rewrite Hllm.
  by destruct (msg_tool_calls message).
Qed.

(** The iterations in which the loop ends: the trace is the one call. *)
Lemma agent_loop_ends llm user_id remaining full_messages tool_calls_made w :
  ~ asks_for_tools (llm full_messages) ->
  run_trace (Runner.agent_loop TOOL_FUNCTIONS llm user_id (S remaining)
               full_messages tool_calls_made w) = [LLMCall full_messages].
Proof.
  intros Hno. simpl.
  destruct (llm full_messages) as [[|message choices]|e]; simpl in *; [done| |].
  - destruct (msg_tool_calls message); [done|]. by destruct Hno.
  - by destruct (Runner.is_api_error e).
Qed.

(** When every reply of a run asked for tools, the run used its whole
    budget and returned the maximum-iterations result. *)
Lemma agent_loop_exhausted llm user_id remaining full_messages tool_calls_made w :
  (forall msgs,
     LLMCall msgs
       ∈ run_trace (Runner.agent_loop TOOL_FUNCTIONS llm user_id remaining
                      full_messages tool_calls_made w) ->
     asks_for_tools (llm msgs)) ->
  run_outcome (Runner.agent_loop TOOL_FUNCTIONS llm user_id remaining
                 full_messages tool_calls_made w)
  = Ok (Runner.max_iterations_result
          (tool_calls_made
           ++ requested_names llm
                (run_trace (Runner.agent_loop TOOL_FUNCTIONS llm user_id
                              remaining full_messages tool_calls_made w))))
  /\ llm_calls (run_trace (Runner.agent_loop TOOL_FUNCTIONS llm user_id remaining
                            full_messages tool_calls_made w)) = remaining.
Proof.
  revert full_messages tool_calls_made w.
  induction remaining as [|remaining IH]; intros fm made w.
  { intros _. simpl. by rewrite app_nil_r. }
  intros Hall.
  assert (asks_for_tools (llm fm)) as Hasks.
  { destruct (decide (asks_for_tools (llm fm))) as [|Hno]; [done|].
    apply Hall. rewrite agent_loop_ends by done. apply list_elem_of_here. }
  destruct (llm fm) as [[|message choices]|e] eqn:Hllm; simpl in Hasks;
    [done| |done].
  rewrite (agent_loop_tools _ _ _ _ _ _ _ _ Hllm Hasks) in Hall |- *.
  cbv zeta in Hall |- *. cbn [run_outcome run_trace] in Hall |- *.
  set (s := Runner.exec_tool_calls TOOL_FUNCTIONS user_id
              (msg_tool_calls message) w) in *.
  destruct (IH (fm ++ [AssistantMessage message] ++ Runner.step_messages s)
              (made ++ (tc_name <$> msg_tool_calls message))
              (Runner.step_world s)) as [Hout Hcalls].
  { intros msgs Hin. apply Hall. apply list_elem_of_further, elem_of_app.
    by right. }
  split.
  - rewrite Hout. f_equal. f_equal. cbn [requested_names].
    rewrite Hllm. cbn [requested]. rewrite requested_names_app.
    rewrite (requested_names_dispatch_only llm (Runner.step_trace s))
      by apply exec_tool_calls_trace.
    by rewrite <- (assoc_L (++)).
  - cbn [llm_calls]. rewrite llm_calls_app, Hcalls.
    unfold s. by rewrite exec_tool_calls_llm_calls.
Qed.

(** C4.  A run of [run_agent] makes at most [max_iterations] round trips to
    the model (5 unless the caller says otherwise), however many tools each
    reply asks for.  When the budget runs out, every reply having asked for
    tools, the run ends without an exception: it returns the fixed apology,
    the names of all the tools asked for, [success] false and the error
    "Maximum iterations reached". *)
Theorem C4_iteration_budget
    (llm : llm_client) (user_id : string) (messages : list chat_message)
    (max_iterations : Z) (w : W) :
  Runner.default_max_iterations = 5
  /\ (llm_calls (run_trace (Runner.run_agent TOOL_FUNCTIONS llm user_id messages
                             max_iterations w))
      <= Z.to_nat max_iterations)%nat
  /\ (user_id <> EmptyString -> messages <> [] ->
      (forall msgs,
         LLMCall msgs
           ∈ run_trace (Runner.run_agent TOOL_FUNCTIONS llm user_id messages
                          max_iterations w) ->
         asks_for_tools (llm msgs)) ->
      run_outcome (Runner.run_agent TOOL_FUNCTIONS llm user_id messages
                     max_iterations w)
      = Ok {| Runner.response := Runner.apology;
              Runner.tool_calls :=
                requested_names llm
                  (run_trace (Runner.run_agent TOOL_FUNCTIONS llm user_id
                                messages max_iterations w));
              Runner.success := false;
              Runner.error := Some "Maximum iterations reached" |}
      /\ llm_calls (run_trace (Runner.run_agent TOOL_FUNCTIONS llm user_id
                                messages max_iterations w))
         = Z.to_nat max_iterations).
Proof.
  split; [reflexivity|]. unfold Runner.run_agent. rewrite user_id_check.
  case_bool_decide as Hu; simpl; [split; [lia | done]|].
  case_bool_decide as Hm; simpl; [split; [lia | done]|].
  split; [apply agent_loop_llm_calls|].
  intros _ _ Hall.
  by destruct (agent_loop_exhausted _ _ _ _ _ _ Hall) as [-> ->].
Qed.

End RunnerFacts.

(* ===================================================================== *)
(** * Injection of the caller's identity (C2) *)
(* ===================================================================== *)

Section Injection.
Context `{Library} {W : Type}.

Lemma set_user_id_Ok tool_args user_id kwargs :
  set_user_id tool_args user_id = Ok kwargs ->
  kwargs !! "user_id" = Some (JStr user_id).
Proof.
  destruct tool_args; simpl; try done.
  intros [= <-]. apply lookup_insert_eq.
Qed.

Lemma json_sim_refl a : json_sim a a.
Proof. by destruct a. Qed.

(** Arguments that agree up to [user_id] are the same arguments once the
    caller's identity is written into them. *)
Lemma set_user_id_sim a1 a2 user_id :
  json_sim a1 a2 -> set_user_id a1 user_id = set_user_id a2 user_id.
Proof.
  destruct a1, a2; simpl; intros Hsim; try done; try by simplify_eq.
  f_equal.
  rewrite <- (insert_delete_eq d), <- (insert_delete_eq d0). by rewrite Hsim.
Qed.

Lemma tool_call_sim_refl {E} (parse : string -> json + E) tc :
  tool_call_sim parse tc tc.
Proof.
  split_and!; try done. destruct (parse _); [apply json_sim_refl | done].
Qed.

Lemma llm_message_sim_refl {E} (parse : string -> json + E) m :
  llm_message_sim parse m m.
Proof.
  split; [done|]. induction (msg_tool_calls m); constructor; [|done].
  apply tool_call_sim_refl.
Qed.

Lemma chat_message_sim_refl {E} (parse : string -> json + E) m :
  chat_message_sim parse m m.
Proof. destruct m; constructor. apply llm_message_sim_refl. Qed.

Lemma chat_messages_sim_refl {E} (parse : string -> json + E) ms :
  Forall2 (chat_message_sim parse) ms ms.
Proof. induction ms; constructor; [apply chat_message_sim_refl | done]. Qed.

Lemma tool_call_sim_names {E} (parse : string -> json + E) tcs1 tcs2 :
  Forall2 (tool_call_sim parse) tcs1 tcs2 ->
  tc_name <$> tcs1 = tc_name <$> tcs2.
Proof.
  induction 1 as [|tc1 tc2 tcs1 tcs2 (_ & Hname & _) _ IH]; [done|].
  rewrite !fmap_cons. by rewrite Hname, IH.
Qed.

(** ** [runner.py] *)

Section Runner.
Context (TOOL_FUNCTIONS : string -> option (tool W)).

Lemma runner_exec_tool_call_dispatches user_id tc w :
  Forall (λ d : string * gmap string json, snd d !! "user_id" = Some (JStr user_id))
    (dispatches (Runner.step_trace
                   (Runner.exec_tool_call TOOL_FUNCTIONS user_id tc w))).
Proof.
  unfold Runner.exec_tool_call, Runner.tool_call_try.
  destruct (json_loads _); [|constructor].
  destruct (TOOL_FUNCTIONS _); [|constructor].
  destruct (set_user_id _ _) as [kwargs|] eqn:Hset; [|constructor].
  apply set_user_id_Ok in Hset.
  destruct (t _ _) as [[] ?]; simpl; by repeat constructor.
Qed.

Lemma runner_exec_tool_calls_dispatches user_id tcs w :
  Forall (λ d : string * gmap string json, snd d !! "user_id" = Some (JStr user_id))
    (dispatches (Runner.step_trace
                   (Runner.exec_tool_calls TOOL_FUNCTIONS user_id tcs w))).
Proof.
  revert w. induction tcs as [|tc tcs IH]; intros w; simpl; [constructor|].
  rewrite dispatches_app. apply Forall_app. split; [|apply IH].
  apply runner_exec_tool_call_dispatches.
Qed.

Lemma runner_agent_loop_dispatches llm user_id remaining fm made w :
  Forall (λ d : string * gmap string json, snd d !! "user_id" = Some (JStr user_id))
    (dispatches (run_trace (Runner.agent_loop TOOL_FUNCTIONS llm user_id
                              remaining fm made w))).
Proof.
  revert fm made w.
  induction remaining as [|remaining IH]; intros fm made w; [constructor|].
  destruct (decide (asks_for_tools (llm fm))) as [Hasks|Hno].
  - destruct (llm fm) as [[|message choices]|e] eqn:Hllm; simpl in Hasks;
      [done| |done].
    rewrite (agent_loop_tools _ _ _ _ _ _ _ _ _ Hllm Hasks).
    cbv zeta. cbn [run_trace dispatches]. rewrite dispatches_app.
    apply Forall_app. split; [apply runner_exec_tool_calls_dispatches|].
    apply IH.
  - rewrite agent_loop_ends by done. constructor.
Qed.

(** Every tool callable invoked during a run receives the caller's
    identity as [user_id]. *)
Lemma runner_dispatches_user_id llm user_id messages max_iterations w :
  Forall (λ d : string * gmap string json, snd d !! "user_id" = Some (JStr user_id))
    (dispatches (run_trace (Runner.run_agent TOOL_FUNCTIONS llm user_id
                              messages max_iterations w))).
Proof.
  unfold Runner.run_agent.
  destruct (negb _ || _); [constructor|].
  destruct (bool_decide _); [constructor|].
  apply runner_agent_loop_dispatches.
Qed.

Lemma runner_exec_tool_call_sim user_id tc1 tc2 w :
  tool_call_sim json_loads tc1 tc2 ->
  Runner.exec_tool_call TOOL_FUNCTIONS user_id tc1 w
  = Runner.exec_tool_call TOOL_FUNCTIONS user_id tc2 w.
Proof.
  intros (Hid & Hname & Hargs).
  unfold Runner.exec_tool_call, Runner.tool_call_try. rewrite Hid, Hname.
  destruct (json_loads (tc_arguments tc1)) as [a1|e1],
    (json_loads (tc_arguments tc2)) as [a2|e2]; try done; [|by subst].
  destruct (TOOL_FUNCTIONS (tc_name tc2)); [|done].
  by rewrite (set_user_id_sim a1 a2 user_id Hargs).
Qed.

Lemma runner_exec_tool_calls_sim user_id tcs1 tcs2 w :
  Forall2 (tool_call_sim json_loads) tcs1 tcs2 ->
  Runner.exec_tool_calls TOOL_FUNCTIONS user_id tcs1 w
  = Runner.exec_tool_calls TOOL_FUNCTIONS user_id tcs2 w.
Proof.
  intros Hsim. revert w.
  induction Hsim as [|tc1 tc2 tcs1 tcs2 Htc _ IH]; intros w; [done|].
  simpl. by rewrite (runner_exec_tool_call_sim user_id tc1 tc2 w Htc), IH.
Qed.

(** Two runs whose models differ only in the [user_id] they put into
    tool-call arguments end with the same result in the same world, having
    invoked the same tools with the same arguments. *)
Lemma runner_agent_loop_sim llm1 llm2 user_id remaining fm1 fm2 made w :
  llm_sim json_loads llm1 llm2 ->
  Forall2 (chat_message_sim json_loads) fm1 fm2 ->
  let R1 := Runner.agent_loop TOOL_FUNCTIONS llm1 user_id remaining fm1 made w in
  let R2 := Runner.agent_loop TOOL_FUNCTIONS llm2 user_id remaining fm2 made w in
  run_outcome R1 = run_outcome R2
  /\ run_world R1 = run_world R2
  /\ dispatches (run_trace R1) = dispatches (run_trace R2).
Proof.
  intros Hllm. revert fm1 fm2 made w.
  induction remaining as [|remaining IH]; intros fm1 fm2 made w Hfm; [done|].
  pose proof (Hllm fm1 fm2 Hfm) as Hreply. unfold reply_sim in Hreply.
  cbn [Runner.agent_loop].
  destruct (llm1 fm1) as [[|m1 ch1]|e1], (llm2 fm2) as [[|m2 ch2]|e2];
    try done.
  - pose proof Hreply as [Hcontent Htcs].
    destruct (msg_tool_calls m1) as [|tc1 tcs1] eqn:Htcs1,
      (msg_tool_calls m2) as [|tc2 tcs2] eqn:Htcs2;
      try by inversion Htcs.
    + cbn. by rewrite Hcontent.
    + rewrite (runner_exec_tool_calls_sim user_id _ _ w Htcs).
      rewrite (tool_call_sim_names _ _ _ Htcs).
      set (s := Runner.exec_tool_calls TOOL_FUNCTIONS user_id (tc2 :: tcs2) w).
      destruct (IH (fm1 ++ [AssistantMessage m1] ++ Runner.step_messages s)
                  (fm2 ++ [AssistantMessage m2] ++ Runner.step_messages s)
                  (made ++ (tc_name <$> tc2 :: tcs2)) (Runner.step_world s))
        as (Hout & Hworld & Hdisp).
      { apply Forall2_app; [done|]. apply Forall2_app.
        - constructor; [by apply sim_assistant | constructor].
        - apply chat_messages_sim_refl. }
      cbn [run_outcome run_world run_trace dispatches].
      rewrite !dispatches_app. by rewrite Hout, Hworld, Hdisp.
  - subst e2. by destruct (Runner.is_api_error e1).
Qed.

End Runner.

(** ** [agent.py] *)

Section Agent.
Context (tools : string -> option (tool W)).

Lemma inject_user_id_json a user_id tool_args kwargs :
  Agent.inject_user_id (PyJson a) user_id = Ok (tool_args, kwargs) ->
  kwargs !! "user_id" = Some (JStr user_id).
Proof.
  simpl. destruct (set_user_id a user_id) as [k|] eqn:Hset; [|done].
  intros [= _ <-]. by eapply set_user_id_Ok.
Qed.

Lemma agent_exec_tool_calls_dispatches user_id tcs summary w :
  evaluates_to_json ->
  Forall (λ d : string * gmap string json, snd d !! "user_id" = Some (JStr user_id))
    (dispatches (Agent.step_trace
                   (Agent.exec_tool_calls tools user_id tcs summary w))).
Proof.
  intros Hplain. revert summary w.
  induction tcs as [|tc tcs IH]; intros summary w; cbn [Agent.exec_tool_calls];
    [constructor|].
  destruct (py_eval _) as [v|] eqn:Heval; [|constructor].
  destruct (Hplain _ _ Heval) as [a ->].
  destruct (Agent.inject_user_id _ _) as [[tool_args kwargs]|] eqn:Hset;
    [|constructor].
  apply inject_user_id_json in Hset.
  unfold Agent.execute_tool, Agent.get_tool.
  destruct (tools _) as [t|]; [|constructor].
  destruct (t _ _) as [[r|e] w'].
  - cbn [Agent.step_trace]. rewrite dispatches_app. apply Forall_app.
    split; [by repeat constructor | apply IH].
  - by repeat constructor.
Qed.

(** As long as [eval] does nothing but return values of JSON types, every
    tool callable invoked during a run of [agent.py] receives the caller's
    identity. *)
Lemma agent_loop_dispatches llm user_id remaining fm summary w :
  evaluates_to_json ->
  Forall (λ d : string * gmap string json, snd d !! "user_id" = Some (JStr user_id))
    (dispatches (run_trace (Agent.agent_loop tools llm user_id remaining fm
                              summary w))).
Proof.
  intros Hplain. revert fm summary w.
  induction remaining as [|remaining IH]; intros fm summary w;
    cbn [Agent.agent_loop]; [constructor|].
  destruct (llm fm) as [[|message choices]|e]; [constructor| |constructor].
  destruct (msg_tool_calls message) as [|tc tcs]; [constructor|].
  destruct (Agent.step_raised _) eqn:Hraised;
    cbn [run_trace dispatches].
  - by apply agent_exec_tool_calls_dispatches.
  - rewrite dispatches_app. apply Forall_app.
    split; [by apply agent_exec_tool_calls_dispatches | apply IH].
Qed.

End Agent.

(** In a run of [runner.py], every tool callable that is invoked receives
    the caller's identity under [user_id], whatever the model wrote there.
    Hence two runs for the same caller, on the same history and tools,
    whose models differ only in the [user_id] they put into tool-call
    arguments, invoke the same tools with the same arguments, leave the
    same world and return the same result. *)
Lemma runner_user_id_is_injected
    (tools : string -> option (tool W)) (user_id : string) (max_iterations : Z)
    (w : W) :
  (forall llm messages,
     Forall (λ d : string * gmap string json,
               snd d !! "user_id" = Some (JStr user_id))
       (dispatches (run_trace (Runner.run_agent tools llm user_id messages
                                 max_iterations w))))
  /\ (forall llm1 llm2 messages,
        llm_sim json_loads llm1 llm2 ->
        let R1 := Runner.run_agent tools llm1 user_id messages max_iterations w in
        let R2 := Runner.run_agent tools llm2 user_id messages max_iterations w in
        dispatches (run_trace R1) = dispatches (run_trace R2)
        /\ run_world R1 = run_world R2
        /\ run_outcome R1 = run_outcome R2).
Proof.
  split_and!.
  - intros llm messages. apply runner_dispatches_user_id.
  - intros llm1 llm2 messages Hllm. unfold Runner.run_agent.
    destruct (negb _ || _); [done|]. destruct (bool_decide _); [done|].
    destruct (runner_agent_loop_sim tools llm1 llm2 user_id
                (Z.to_nat max_iterations)
                (RoleContent "system" Runner.SYSTEM_PROMPT :: messages)
                (RoleContent "system" Runner.SYSTEM_PROMPT :: messages)
                [] w Hllm (chat_messages_sim_refl _ _)) as (? & ? & ?).
    done.
Qed.

End Injection.

(* ===================================================================== *)
(** * Tool failures in [agent.py] (C3) *)
(* ===================================================================== *)

Section AgentFailures.
Context `{Library} {W : Type} (tools : string -> option (tool W)).

(** In [agent.py] an exception raised by a tool leaves the loop and the
    run: [run_agent] raises. *)
Lemma agent_tool_failure_propagates
    llm user_id remaining fm summary w message choices tc tcs tool_args
    tool_args' kwargs t e w' :
  llm fm = Ok (message :: choices) ->
  msg_tool_calls message = tc :: tcs ->
  py_eval (tc_arguments tc) = Ok tool_args ->
  Agent.inject_user_id tool_args user_id = Ok (tool_args', kwargs) ->
  tools (tc_name tc) = Some t ->
  t kwargs w = (Raise e, w') ->
  run_outcome (Agent.agent_loop tools llm user_id (S remaining) fm summary w)
  = Raise (Agent.agent_failed e).
Proof.
  intros Hllm Htcs Heval Hset Htool Hraise. cbn [Agent.agent_loop].
  rewrite Hllm, Htcs. cbn [Agent.exec_tool_calls].
  rewrite Heval, Hset. unfold Agent.execute_tool, Agent.get_tool.
  by rewrite Htool, Hraise.
Qed.

(** Likewise for a tool name that is not registered. *)
Lemma agent_unknown_tool_propagates
    llm user_id remaining fm summary w message choices tc tcs tool_args
    tool_args' kwargs :
  llm fm = Ok (message :: choices) ->
  msg_tool_calls message = tc :: tcs ->
  py_eval (tc_arguments tc) = Ok tool_args ->
  Agent.inject_user_id tool_args user_id = Ok (tool_args', kwargs) ->
  tools (tc_name tc) = None ->
  run_outcome (Agent.agent_loop tools llm user_id (S remaining) fm summary w)
  = Raise (Agent.agent_failed
             (Exn KeyError (py_repr ("Tool '" +:+ tc_name tc +:+ "' not found")))).
Proof.
  intros Hllm Htcs Heval Hset Htool. cbn [Agent.agent_loop].
  rewrite Hllm, Htcs. cbn [Agent.exec_tool_calls].
  rewrite Heval, Hset. unfold Agent.execute_tool, Agent.get_tool.
  by rewrite Htool.
Qed.

End AgentFailures.

(** C3 at the failing input.  The model asks for [complete_task] on task
    999, which does not exist.  In [runner.py] the tool's exception becomes
    a failed tool result and the run goes on to the model's final answer;
    in [agent.py] the same exception leaves the loop and [run_agent]
    raises.  So does a request for a tool that is not registered. *)
Theorem C3_agent_py_lets_tool_failure_escape :
  run_outcome
    (Agent.run_agent (H := Example.library) Example.tools
       (Example.llm_completing Example.args_999 "I could not find that task.")
       [("user", "Complete task 999")] "alice" 5 Example.alice_store)
  = Raise (Exn PlainException
             "Agent execution failed: Task with id 999 not found or you don't have permission to access it")
  /\ run_outcome
       (Agent.run_agent (H := Example.library) Example.tools
          Example.llm_looping [("user", "List my tasks")] "alice" 5
          Example.alice_store)
     = Raise (Exn PlainException
                ("Agent execution failed: "
                 +:+ Example.q +:+ "Tool 'list_tasks' not found" +:+ Example.q))
  /\ Runner.run_agent (H := Example.library) Example.tools
       (Example.llm_completing Example.args_999 "I could not find that task.")
       "alice" [RoleContent "user" "Complete task 999"] 5 Example.alice_store
     = Run (Ok {| Runner.response := "I could not find that task.";
                  Runner.tool_calls := ["complete_task"];
                  Runner.success := true;
                  Runner.error := None |})
         Example.alice_store
         [LLMCall [RoleContent "system" Runner.SYSTEM_PROMPT;
                   RoleContent "user" "Complete task 999"];
          ToolDispatch "complete_task"
            (<["user_id" := JStr "alice"]> (<["task_id" := JInt 999]> ∅));
          LLMCall [RoleContent "system" Runner.SYSTEM_PROMPT;
                   RoleContent "user" "Complete task 999";
                   AssistantMessage
                     (LLMMessage None
                        [ToolCall "call_0" "complete_task" Example.args_999]);
                   ToolMessage "call_0"
                     (failure_dict
                        "Tool execution failed: Task with id 999 not found or you don't have permission to access it")]].
Proof.
  split_and!; vm_compute; reflexivity.
Qed.

(** The two forging models of the examples agree up to [user_id]. *)
Lemma forging_models_sim :
  llm_sim (json_loads (Library := Example.library))
    (Example.llm_completing (Example.args_forged "mallory") "Done.")
    (Example.llm_completing (Example.args_forged "eve") "Done.").
Proof.
  intros t1 t2 Hsim. unfold Example.llm_completing.
  assert (existsb Example.is_tool_message t1
          = existsb Example.is_tool_message t2) as ->.
  { induction Hsim as [|m1 m2 t1 t2 Hm _ IH]; [done|].
    simpl. rewrite IH. by destruct Hm. }
  destruct (existsb _ t2); simpl.
  - split; [done | constructor].
  - split; [done|]. by repeat constructor.
Qed.

(** [runner.py] at forged arguments: the caller's identity is dispatched, and
    the model's choice of [user_id] changes nothing. *)
Lemma runner_user_id_is_injected_example :
  let R1 :=
    Runner.run_agent (H := Example.library) Example.tools
      (Example.llm_completing (Example.args_forged "mallory") "Done.")
      "alice" [RoleContent "user" "Complete task 1"] 5 Example.alice_store in
  let R2 :=
    Runner.run_agent (H := Example.library) Example.tools
      (Example.llm_completing (Example.args_forged "eve") "Done.")
      "alice" [RoleContent "user" "Complete task 1"] 5 Example.alice_store in
  dispatches (run_trace R1)
  = [("complete_task",
      <["user_id" := JStr "alice"]> (<["task_id" := JInt 1]> ∅))]
  /\ dispatches (run_trace R1) = dispatches (run_trace R2)
  /\ run_world R1 = run_world R2
  /\ run_outcome R1 = run_outcome R2.
Proof.
  split; [vm_compute; reflexivity|].
  apply (runner_user_id_is_injected (H := Example.library) Example.tools
           "alice" 5 Example.alice_store).
  exact forging_models_sim.
Qed.

(** C2 at the failing input.  The caller is mallory; task 1 is alice's.
    The model's tool call carries, as its argument text, an expression that
    builds a [dict] whose item assignment does nothing, holding
    [user_id = 'alice'].  [agent.py] reads the text with [eval]: the
    assignment [tool_args["user_id"] = user_id] leaves the object as it is,
    [complete_task] is called with [user_id = 'alice'] and completes
    alice's task.  With [user_id = 'mallory'] in the same text the call is
    made for mallory and fails: the two runs differ only in the [user_id]
    the model wrote, and dispatch different arguments with different
    effects.  [runner.py] reads the text with [json.loads], which refuses
    it, and calls no tool; and in [agent.py] a forged [user_id] in a JSON
    object is overwritten. *)
Theorem C2_agent_py_lets_forged_user_id_through :
  let forged who :=
    Agent.run_agent (H := Example.library) Example.tools
      (Example.llm_completing (Example.args_inert who) "Done.")
      [("user", "Complete task 1")] "mallory" 5 Example.alice_store in
  (* alice owns task 1, which is not completed *)
  store_tasks Example.alice_store !! 1 = Some Example.milk
  /\ Task.user_id Example.milk = "alice"
  /\ Task.completed Example.milk = false
  (* agent.py, the model writes alice *)
  /\ dispatches (run_trace (forged "alice"))
     = [("complete_task",
         <["user_id" := JStr "alice"]> (<["task_id" := JInt 1]> ∅))]
  /\ Task.completed <$> store_tasks (run_world (forged "alice")) !! 1
     = Some true
  /\ fst <$> run_outcome (forged "alice") = Ok "Done."
  (* agent.py, the model writes mallory *)
  /\ dispatches (run_trace (forged "mallory"))
     = [("complete_task",
         <["user_id" := JStr "mallory"]> (<["task_id" := JInt 1]> ∅))]
  /\ run_world (forged "mallory") = Example.alice_store
  /\ run_outcome (forged "mallory")
     = Raise (Exn PlainException
                "Agent execution failed: Task with id 1 not found or you don't have permission to access it")
  (* agent.py, the model writes alice in a JSON object *)
  /\ dispatches
       (run_trace
          (Agent.run_agent (H := Example.library) Example.tools
             (Example.llm_completing (Example.args_forged "alice") "Done.")
             [("user", "Complete task 1")] "mallory" 5 Example.alice_store))
     = [("complete_task",
         <["user_id" := JStr "mallory"]> (<["task_id" := JInt 1]> ∅))]
  (* runner.py on the text that agent.py evaluates *)
  /\ Runner.run_agent (H := Example.library) Example.tools
       (Example.llm_completing (Example.args_inert "alice") "Done.")
       "mallory" [RoleContent "user" "Complete task 1"] 5 Example.alice_store
     = Run (Ok {| Runner.response := "Done.";
                  Runner.tool_calls := ["complete_task"];
                  Runner.success := true;
                  Runner.error := None |})
         Example.alice_store
         [LLMCall [RoleContent "system" Runner.SYSTEM_PROMPT;
                   RoleContent "user" "Complete task 1"];
          LLMCall [RoleContent "system" Runner.SYSTEM_PROMPT;
                   RoleContent "user" "Complete task 1";
                   AssistantMessage
                     (LLMMessage None
                        [ToolCall "call_0" "complete_task"
                           (Example.args_inert "alice")]);
                   ToolMessage "call_0"
                     (failure_dict
                        "Failed to parse tool arguments: Expecting value: line 1 column 1 (char 0)")]].
Proof.
  cbv zeta. split_and!; vm_compute; reflexivity.
Qed.

Lemma C4_witness :
  let R :=
    Runner.run_agent (H := Example.library) Example.tools Example.llm_looping
      "alice" [RoleContent "user" "List my tasks"] 3 Example.alice_store in
  run_outcome R
  = Ok {| Runner.response := Runner.apology;
          Runner.tool_calls := ["list_tasks"; "list_tasks"; "list_tasks"];
          Runner.success := false;
          Runner.error := Some "Maximum iterations reached" |}
  /\ llm_calls (run_trace R) = 3%nat.
Proof.
  destruct (C4_iteration_budget (H := Example.library) Example.tools
              Example.llm_looping "alice" [RoleContent "user" "List my tasks"]
              3 Example.alice_store) as (_ & _ & Hexhausted).
  destruct Hexhausted as [Hout Hcalls].
  - discriminate.
  - discriminate.
  - intros msgs _. discriminate.
  - split; [|exact Hcalls]. rewrite Hout. vm_compute. reflexivity.
Defined.

(* ===================================================================== *)
(** * Ordering of writes in the chat endpoint (C9) *)
(* ===================================================================== *)

Section ChatFacts.
Context {W : Type} (run_agent : Chat.orchestrator W).

Lemma refreshes_app (t1 t2 : list Chat.chat_event) :
  Chat.refreshes (t1 ++ t2) = (Chat.refreshes t1 + Chat.refreshes t2)%nat.
Proof. induction t1 as [|[] t1 IH]; simpl; by rewrite ?IH. Qed.

Lemma refreshes_setup (t : list Chat.chat_event) :
  Forall Chat.is_setup t -> Chat.refreshes t = O.
Proof. induction 1 as [|[] t Hev _ IH]; simpl; done. Qed.

Lemma ensure_user_exists_setup dr user_id d :
  Forall Chat.is_setup (snd (Chat.ensure_user_exists dr user_id d))
  /\ Chat.db_conversations (fst (Chat.ensure_user_exists dr user_id d))
     = Chat.db_conversations d
  /\ Chat.db_messages (fst (Chat.ensure_user_exists dr user_id d))
     = Chat.db_messages d.
Proof.
  unfold Chat.ensure_user_exists. destruct (Chat.db_users d !! user_id); simpl.
  - by split_and!.
  - split_and!; [by repeat constructor | done | done].
Qed.

Lemma load_or_create_conversation_setup dr user_id conversation_id d :
  Forall Chat.is_setup
    (snd (Chat.load_or_create_conversation dr user_id conversation_id d))
  /\ Chat.db_messages
       (snd (fst (Chat.load_or_create_conversation dr user_id conversation_id d)))
     = Chat.db_messages d
  /\ (forall refusal,
        fst (fst (Chat.load_or_create_conversation dr user_id conversation_id d))
        = inr refusal ->
        exists status detail, refusal = Chat.HTTPException status detail).
Proof.
  unfold Chat.load_or_create_conversation.
  destruct conversation_id as [cid|]; simpl.
  - destruct (Chat.db_conversations d !! cid) as [c|].
    + destruct (decide _); simpl; split_and!; try done.
      intros ? [= <-]. by eexists _, _.
    + simpl; split_and!; try done. intros ? [= <-]. by eexists _, _.
  - split_and!; [by repeat constructor | done | done].
Qed.

(** The conversations after step 1: as they were, or with the new
    conversation; the conversation that is returned is stored and is the
    caller's. *)
Lemma load_or_create_conversation_stored dr user_id conversation_id d :
  let convs :=
    Chat.db_conversations
      (snd (fst (Chat.load_or_create_conversation dr user_id conversation_id d)))
  in
  (convs = Chat.db_conversations d
   \/ convs
      = <[Chat.new_conversation_id dr :=
            Chat.MkConversation user_id (Chat.t_conversation dr)
              (Chat.t_conversation dr)]> (Chat.db_conversations d))
  /\ (forall cid,
        fst (fst (Chat.load_or_create_conversation dr user_id conversation_id d))
        = inl cid ->
        exists c, convs !! cid = Some c /\ Chat.conv_user_id c = user_id).
Proof.
  cbv zeta. unfold Chat.load_or_create_conversation.
  destruct conversation_id as [cid|]; simpl.
  - destruct (Chat.db_conversations d !! cid) as [c|] eqn:Hc.
    + destruct (decide _); simpl; (split; [by left|]); [|done].
      intros ? [= <-]. by exists c.
    + simpl. split; [by left | done].
  - split; [by right|]. intros ? [= <-]. eexists. by rewrite lookup_insert_eq.
Qed.

(** Rewriting one field of a stored row. *)
Lemma alter_stored {A} (f : A -> A) (m : gmap string A) (k : string) (x : A) :
  m !! k = Some x -> alter f k m = <[k := f x]> m.
Proof.
  intros Hk. apply map_eq. intros j. destruct (decide (j = k)) as [->|Hne].
  - by rewrite lookup_alter_eq, lookup_insert_eq, Hk.
  - by rewrite lookup_alter_ne, lookup_insert_ne.
Qed.

Lemma Message_init_Ok (m m' : Chat.Message) :
  Chat.Message_init m = Ok m' -> m' = m.
Proof.
  unfold Chat.Message_init. intros Hm. inv_bind Hm. by injection Hm as <-.
Qed.

(** The user's message is in the history that the orchestrator is given. *)
Lemma user_message_loaded cid (m : Chat.Message) (d : Chat.db) :
  Chat.conversation_id m = cid ->
  (Chat.role m, Chat.content m)
    ∈ Chat.load_conversation_messages cid
        (Chat.Db (Chat.db_users d) (Chat.db_conversations d)
           (Chat.db_messages d ++ [m])).
Proof.
  intros Hcid. unfold Chat.load_conversation_messages. simpl.
  apply (list_elem_of_fmap_2 (λ m, (Chat.role m, Chat.content m))).
  rewrite merge_sort_Permutation.
  apply list_elem_of_filter. split; [done|].
  apply elem_of_app. right. apply list_elem_of_here.
Qed.

(** C9 (amended).  Every request to the chat endpoint runs through one of
    three courses.  (1) It is refused before anything is said: only the
    user's row or a new conversation may have been created, the
    orchestrator is not invoked.  (2) The user's message is appended, then
    the orchestrator is invoked with a history that contains it, and the
    turn fails (the orchestrator raised or reported failure, or its reply
    is not a valid message): nothing more is written, and [updated_at] is
    not refreshed.  (3) As in (2), but the orchestrator returns with
    success: then the assistant's reply is appended and, directly after
    it, [updated_at] is refreshed, once.  So [updated_at] is refreshed at
    most once per turn, exactly once in a turn that completes, at the point
    the assistant message is appended and never before the orchestrator
    has run.  In the table of conversations: in (1) and (2) it ends as
    steps 0 and 1 left it, that is as it was or with the new
    conversation; in (3) the row of the turn's conversation, and no other,
    is rewritten, with [updated_at] the time drawn at step 6 and its owner
    and [created_at] kept. *)
Theorem C9_chat_turn_ordering
    (dr : Chat.draws) (user_id : string) (request : Chat.ChatRequest)
    (current_user : string) (d : Chat.db) (w : W) :
  let out := Chat.chat_endpoint run_agent dr user_id request current_user d w in
  exists setup convs,
    Forall Chat.is_setup setup
    /\ (convs = Chat.db_conversations d
        \/ convs
           = <[Chat.new_conversation_id dr :=
                 Chat.MkConversation user_id (Chat.t_conversation dr)
                   (Chat.t_conversation dr)]> (Chat.db_conversations d))
    /\ ((* (1) refused before the user's message *)
        (Chat.out_trace out = setup
         /\ Chat.out_world out = w
         /\ Chat.db_messages (Chat.out_db out) = Chat.db_messages d
         /\ Chat.db_conversations (Chat.out_db out) = convs
         /\ exists status detail,
              Chat.out_result out = Chat.HTTPException status detail)
        \/ (* (2) the turn fails after the user's message *)
        (exists user_message history,
           Chat.out_trace out
           = setup ++ [Chat.AppendMessage user_message;
                       Chat.InvokeOrchestrator user_id history]
           /\ Chat.role user_message = "user"
           /\ Chat.content user_message = Chat.req_message request
           /\ (Chat.role user_message, Chat.content user_message) ∈ history
           /\ Chat.db_messages (Chat.out_db out)
              = Chat.db_messages d ++ [user_message]
           /\ Chat.db_conversations (Chat.out_db out) = convs
           /\ is_Some (convs !! Chat.conversation_id user_message)
           /\ Chat.refreshes (Chat.out_trace out) = 0%nat
           /\ (exists detail,
                 Chat.out_result out = Chat.HTTPException 500 detail)
           /\ ((exists e, fst (run_agent user_id history w) = Raise e)
               \/ (exists r,
                     fst (run_agent user_id history w) = Ok r
                     /\ (Runner.success r = false
                         \/ exists e,
                              Chat.out_result out = Chat.internal_error e))))
        \/ (* (3) the turn completes *)
        (exists user_message history r assistant_message cid c,
           Chat.out_trace out
           = setup ++ [Chat.AppendMessage user_message;
                       Chat.InvokeOrchestrator user_id history;
                       Chat.AppendMessage assistant_message;
                       Chat.RefreshUpdatedAt cid (Chat.t_refresh dr)]
           /\ Chat.role user_message = "user"
           /\ Chat.content user_message = Chat.req_message request
           /\ (Chat.role user_message, Chat.content user_message) ∈ history
           /\ fst (run_agent user_id history w) = Ok r
           /\ Runner.success r = true
           /\ Chat.role assistant_message = "assistant"
           /\ Chat.content assistant_message = Runner.response r
           /\ Chat.conversation_id user_message = cid
           /\ Chat.conversation_id assistant_message = cid
           /\ Chat.db_messages (Chat.out_db out)
              = Chat.db_messages d ++ [user_message; assistant_message]
           /\ convs !! cid = Some c
           /\ Chat.conv_user_id c = user_id
           /\ Chat.db_conversations (Chat.out_db out)
              = <[cid := Chat.MkConversation user_id (Chat.conv_created_at c)
                           (Chat.t_refresh dr)]> convs
           /\ Chat.refreshes (Chat.out_trace out) = 1%nat
           /\ exists tool_calls,
                Chat.out_result out
                = Chat.ChatResponse cid (Runner.response r) tool_calls)).
Proof.
  cbv zeta. unfold Chat.chat_endpoint.
  case_bool_decide as Hauth; simpl.
  2:{ exists [], (Chat.db_conversations d). split; [constructor|].
      split; [by left|]. left. split_and!; try done. by eexists _, _. }
  destruct (ensure_user_exists_setup dr user_id d) as (Hev0 & Hconvs0 & Hmsgs0).
  destruct (Chat.ensure_user_exists dr user_id d) as [d0 ev0]. simpl in *.
  destruct (load_or_create_conversation_setup dr user_id
              (Chat.req_conversation_id request) d0) as (Hev1 & Hmsgs1 & Hnf).
  destruct (load_or_create_conversation_stored dr user_id
              (Chat.req_conversation_id request) d0) as (Hconvs1 & Hstored).
  destruct (Chat.load_or_create_conversation dr user_id
              (Chat.req_conversation_id request) d0) as [[[cid|nf] d1] ev1];
    simpl in *.
  all: rewrite Hconvs0 in Hconvs1.
  all: exists (ev0 ++ ev1), (Chat.db_conversations d1).
  all: split; [by apply Forall_app|]; split; [exact Hconvs1|].
  2:{ left. split_and!; try done; [congruence | by apply Hnf]. }
  destruct (Hstored cid eq_refl) as (c & Hc & Hown).
  assert (Chat.refreshes (ev0 ++ ev1) = 0%nat) as Hsetup0.
  { apply refreshes_setup. by apply Forall_app. }
  destruct (Chat.Message_init
              (Chat.MkMessage (Chat.user_message_id dr) cid "user"
                 (Chat.req_message request) None (Chat.t_user_message dr)))
    as [user_message|e] eqn:Huser; simpl.
  2:{ left. split_and!; try done; [congruence | by eexists _, _]. }
  apply Message_init_Ok in Huser as ->.
  set (user_message :=
         Chat.MkMessage (Chat.user_message_id dr) cid "user"
           (Chat.req_message request) None (Chat.t_user_message dr)).
  set (d2 := Chat.Db (Chat.db_users d1) (Chat.db_conversations d1)
               (Chat.db_messages d1 ++ [user_message])).
  set (history := Chat.load_conversation_messages cid d2).
  assert ((Chat.role user_message, Chat.content user_message) ∈ history)
    as Hloaded by (by apply user_message_loaded).
  assert (Chat.db_messages d1 = Chat.db_messages d) as Hmsgs by congruence.
  destruct (run_agent user_id history w) as [[r|e] w'] eqn:Hrun; simpl.
  2:{ right. left. exists user_message, history.
      rewrite Hrun, <- Hmsgs, !(assoc_L (++)). simpl.
      split_and!; try done.
      - by rewrite refreshes_app, Hsetup0.
      - by eexists.
      - left. by eexists. }
  destruct (Runner.success r) eqn:Hsuccess; simpl.
  2:{ right. left. exists user_message, history.
      rewrite Hrun, <- Hmsgs, !(assoc_L (++)). simpl.
      split_and!; try done.
      - by rewrite refreshes_app, Hsetup0.
      - by eexists.
      - right. exists r. split; [done | by left]. }
  destruct (Chat.Message_init _) as [assistant_message|e] eqn:Hassistant; simpl.
  2:{ right. left. exists user_message, history.
      rewrite Hrun, <- Hmsgs, !(assoc_L (++)). simpl.
      split_and!; try done.
      - by rewrite refreshes_app, Hsetup0.
      - by eexists.
      - right. exists r. split; [done|]. right. by exists e. }
  apply Message_init_Ok in Hassistant as ->.
  right. right. eexists user_message, history, r, _, cid, c.
  rewrite Hrun, <- Hmsgs, !(assoc_L (++)). simpl.
  split_and!; try done.
  - by rewrite <- (assoc_L (++)).
  - rewrite (alter_stored _ _ _ _ Hc). by rewrite Hown.
  - rewrite refreshes_app, Hsetup0. done.
  - by eexists.
Qed.

End ChatFacts.

Lemma C9_witness :
  let out :=
    Chat.chat_endpoint (Example.orchestrator (Example.llm_answering "You have one task."))
      Example.draws "alice" (Chat.MkChatRequest "List my tasks" (Some "c1"))
      "alice" Example.chat_db Example.alice_store in
  Chat.out_result out = Chat.ChatResponse "c1" "You have one task." None
  /\ Chat.refreshes (Chat.out_trace out) = 1%nat
  /\ Chat.db_conversations (Chat.out_db out)
     = {[ "c1" := Chat.MkConversation "alice" Example.jan1
                    (Chat.t_refresh Example.draws) ]}
  /\ Chat.conv_updated_at <$> Chat.db_conversations Example.chat_db !! "c1"
     = Some (Example.jan1 + 2)
  /\ exists setup user_message history assistant_message,
       Chat.out_trace out
       = setup ++ [Chat.AppendMessage user_message;
                   Chat.InvokeOrchestrator "alice" history;
                   Chat.AppendMessage assistant_message;
                   Chat.RefreshUpdatedAt "c1" (Chat.t_refresh Example.draws)]
       /\ (Chat.role user_message, Chat.content user_message) ∈ history.
Proof.
  cbv zeta.
  destruct (C9_chat_turn_ordering
              (Example.orchestrator (Example.llm_answering "You have one task."))
              Example.draws "alice"
              (Chat.MkChatRequest "List my tasks" (Some "c1")) "alice"
              Example.chat_db Example.alice_store)
    as (setup & convs & _ & _
        & [(_ & _ & _ & _ & status & detail & Hres)
          | [(um & history & _ & _ & _ & _ & _ & _ & _ & _ & (detail & Hres) & _)
            | (um & history & r & am & cid & c & Htrace & _ & _ & Hin & _
               & _ & _ & _ & _ & _ & _ & _ & _ & _ & Hrefresh & tcs
               & Hres)]]).
  - vm_compute in Hres. discriminate.
  - vm_compute in Hres. discriminate.
  - assert (cid = "c1") as ->.
    { vm_compute in Hres. by injection Hres. }
    split_and!.
    + vm_compute. reflexivity.
    + exact Hrefresh.
    + vm_compute. reflexivity.
    + vm_compute. reflexivity.
    + by exists setup, um, history, am.
Defined.

(** C9 as stated fails: in a turn whose orchestrator run exhausts its
    budget, the user's message is appended and the orchestrator invoked,
    but no assistant message is written and the conversation's
    [updated_at] is not refreshed at all: the stored value stays what it
    was. *)
Lemma C9_counterexample :
  let out :=
    Chat.chat_endpoint (Example.orchestrator Example.llm_looping)
      Example.draws "alice" (Chat.MkChatRequest "List my tasks" (Some "c1"))
      "alice" Example.chat_db Example.alice_store in
  Chat.out_result out
  = Chat.HTTPException 500 "AI agent execution failed: Maximum iterations reached"
  /\ Chat.out_trace out
     = [Chat.AppendMessage
          (Chat.MkMessage "m3" "c1" "user" "List my tasks" None
             (Chat.t_user_message Example.draws));
        Chat.InvokeOrchestrator "alice"
          [("user", "Add a task to buy milk"); ("assistant", "Added.");
           ("user", "List my tasks")]]
  /\ Chat.refreshes (Chat.out_trace out) <> 1%nat
  /\ Chat.db_conversations (Chat.out_db out)
     = Chat.db_conversations Example.chat_db
  /\ Chat.conv_updated_at <$> Chat.db_conversations (Chat.out_db out) !! "c1"
     = Some (Example.jan1 + 2)
  /\ Chat.conv_updated_at <$> Chat.db_conversations (Chat.out_db out) !! "c1"
     <> Some (Chat.t_refresh Example.draws)
  (* whereas the same request, answered by the model, stores the refresh *)
  /\ Chat.conv_updated_at
       <$> Chat.db_conversations
             (Chat.out_db
                (Chat.chat_endpoint
                   (Example.orchestrator
                      (Example.llm_answering "You have one task."))
                   Example.draws "alice"
                   (Chat.MkChatRequest "List my tasks" (Some "c1"))
                   "alice" Example.chat_db Example.alice_store)) !! "c1"
     = Some (Chat.t_refresh Example.draws).
Proof.
  cbv zeta. split_and!.
  - vm_compute. reflexivity.
  - vm_compute. reflexivity.
  - vm_compute. discriminate.
  - vm_compute. reflexivity.
  - vm_compute. reflexivity.
  - vm_compute. discriminate.
  - vm_compute. reflexivity.
Qed.

Lemma C5_witness :
  exists r s' new_id T' S,
    complete_task (H := Example.postgres) Example.jan1 "alice" (Some 1)
      Example.alice_store = (Ok r, s')
    /\ store_tasks s'
       = <[new_id := S]> (<[1 := T']> (store_tasks Example.alice_store))
    /\ Task.completed T' = true
    /\ Task.parent_task_id S = Some 1
    /\ Task.due_date S = Some (Example.jan31 + 1 * Datetime.us_per_day).
Proof.
  destruct (C5_complete_recurring_task (H := Example.postgres) Example.jan1
              "alice" 1 Example.alice_store Example.milk)
    as [[e He] | (r & s' & new_id & T' & S & Hrun & _ & _ & Hs' & _ & Hdone
                  & _ & _ & _ & _ & _ & _ & _ & _ & _ & _ & _ & _ & _ & _ & _
                  & _ & _ & _ & _ & Hparent & Hdue)].
  - reflexivity.
  - reflexivity.
  - reflexivity.
  - vm_compute in He. discriminate.
  - exists r, s', new_id, T', S. split_and!; try done.
    simpl in Hdue. apply (proj1 Hdue). reflexivity.
Defined.

(** C5 as stated fails: a custom recurrence whose interval is zero, reached
    through [add_task] and [update_task], is completed with a successor
    that has no due date, not the due date advanced by zero days. *)
Lemma C5_counterexample :
  exists T r s' S,
    store_tasks Example.after_update !! 1 = Some T
    /\ Task.user_id T = "alice"
    /\ Task.recurrence T = Some "custom"
    /\ Task.recurrence_interval T = Some 0
    /\ Task.due_date T = Some Example.jan31
    /\ complete_task (H := Example.postgres) Example.jan1 "alice" (Some 1)
         Example.after_update = (Ok r, s')
    /\ store_tasks s' !! 2 = Some S
    /\ Task.parent_task_id S = Some 1
    /\ Task.due_date S = None
    /\ Task.due_date S <> Some (Example.jan31 + 0 * Datetime.us_per_day).
Proof.
  eexists _, _, _, _. by_evaluation. vm_compute. discriminate.
Qed.

Lemma C7_witness :
  update_task (H := Example.postgres) Example.jan1 "alice" (Some 1)
    Example.no_fields Example.alice_store
  = (Raise (Exn ValueError "At least one field must be provided for update"),
     Example.alice_store)
  /\ update_task (H := Example.postgres) Example.jan1 "alice" (Some 7)
       (Example.new_title "buy oat milk") Example.alice_store
     = (Raise (update_task_not_found 7 "alice"), Example.alice_store)
  /\ (exists m,
        update_task (H := Example.postgres) Example.jan1 "alice"
          (Some 4294967297) (Example.new_title "buy oat milk")
          Example.alice_store
        = (Raise (Exn PlainException ("Database error: " +:+ m)),
           Example.alice_store))
  /\ exists T',
       store_tasks
         (snd (update_task (H := Example.postgres) Example.jan1 "alice" (Some 1)
                 (Example.new_title " buy oat milk ") Example.alice_store))
       = <[1 := T']> (store_tasks Example.alice_store)
       /\ Task.title T' = "buy oat milk"
       /\ Task.due_date T' = Some Example.jan31.
Proof.
  split_and!.
  - destruct (C7_update_task (H := Example.postgres) Example.jan1 "alice"
                (Some 1) Example.no_fields Example.alice_store)
      as ((m & Hraise & Hm) & _); [reflexivity|].
    rewrite Hraise, Hm; [reflexivity | discriminate | reflexivity].
  - destruct (C7_update_task (H := Example.postgres) Example.jan1 "alice"
                (Some 7) (Example.new_title "buy oat milk") Example.alice_store)
      as (_ & _ & Hnf & _).
    apply (Hnf 7 (UpdateValues (Some "buy oat milk") None None None None));
      [reflexivity | reflexivity | unfold int4_max; lia |].
    intros T HT. vm_compute in HT. discriminate.
  - destruct (C7_update_task (H := Example.postgres) Example.jan1 "alice"
                (Some 4294967297) (Example.new_title "buy oat milk")
                Example.alice_store)
      as (_ & _ & _ & Hrange & _).
    destruct (Hrange 4294967297
                (UpdateValues (Some "buy oat milk") None None None None))
      as (m & Hraise & _); [reflexivity | reflexivity | unfold int4_max; lia |].
    by exists m.
  - destruct (C7_update_task (H := Example.postgres) Example.jan1 "alice"
                (Some 1) (Example.new_title " buy oat milk ")
                Example.alice_store)
      as (_ & _ & _ & _ & Hok).
    destruct (update_task (H := Example.postgres) Example.jan1 "alice" (Some 1)
                (Example.new_title " buy oat milk ") Example.alice_store)
      as [r s'] eqn:Hrun.
    vm_compute in Hrun. injection Hrun as <- <-.
    destruct (Hok _ _ eq_refl)
      as (n & T & T' & [= <-] & [= <-] & _ & Hs' & _ & _ & _ & _ & _ & _ & _
          & Hdue & _ & _ & _ & _ & _ & _ & Htitle & _).
    exists T'. split_and!.
    + exact Hs'.
    + apply (Htitle " buy oat milk "). reflexivity.
    + rewrite Hdue; reflexivity.
Defined.

(** C7 as stated fails: with a valid title and the id 2147483648, which no
    row carries, [update_task] does not raise its "not found" error: the
    driver refuses the id and the tool raises the wrapped error. *)
Lemma C7_counterexample :
  (exists v,
     update_task_validate (H := Example.postgres) "alice" (Some 2147483648)
       (Example.new_title "buy oat milk") = Ok v)
  /\ store_tasks Example.alice_store !! 2147483648 = None
  /\ (exists m,
        update_task (H := Example.postgres) Example.jan1 "alice"
          (Some 2147483648) (Example.new_title "buy oat milk")
          Example.alice_store
        = (Raise (Exn PlainException ("Database error: " +:+ m)),
           Example.alice_store)
        /\ Py.contains "out of int32 range" m = true)
  /\ fst (update_task (H := Example.postgres) Example.jan1 "alice"
            (Some 2147483648) (Example.new_title "buy oat milk")
            Example.alice_store)
     <> Raise (update_task_not_found 2147483648 "alice")
  /\ is_not_found
       (Exn PlainException
          ("Database error: "
           +:+ exn_str (out_of_int32_range 2147483648 "alice"))) = false.
Proof.
  split_and!.
  - eexists. vm_compute. reflexivity.
  - vm_compute. reflexivity.
  - eexists. split; vm_compute; reflexivity.
  - vm_compute. discriminate.
  - vm_compute. reflexivity.
Qed.

Lemma C1_witness :
  complete_task (H := Example.postgres) Example.jan1 "bob" (Some 1)
    Example.alice_store
  = (Raise (complete_task_not_found 1), Example.alice_store)
  /\ complete_task (H := Example.postgres) Example.jan1 "bob" (Some 1)
       Example.empty_store
     = (Raise (complete_task_not_found 1), Example.empty_store).
Proof.
  destruct (C1_foreign_task_is_not_found (H := Example.postgres)
              Example.jan1 Example.alice_store 1 Example.milk "bob"
              Example.no_fields)
    as ((e & Hs & Habs & Hnf) & _).
  - reflexivity.
  - discriminate.
  - destruct Hnf as [-> _]; [discriminate | lia |].
    split; [exact Hs | apply Habs; reflexivity].
Defined.

Lemma C10_witness :
  exists e e1,
    exn_cls e = ValueError
    /\ complete_task (H := Example.postgres) Example.jan1 "alice" (Some 0)
         Example.alice_store = (Raise e, Example.alice_store)
    /\ complete_task (H := Example.postgres) Example.jan1 "alice" (Some 7)
         Example.alice_store
       = (Raise (complete_task_not_found 7), Example.alice_store)
    /\ complete_task_not_found 7 <> e
    /\ complete_task (H := Example.postgres) Example.jan1 "alice"
         (Some 2147483648) Example.alice_store
       = (Raise e1, Example.alice_store)
    /\ exn_cls e1 <> ValueError.
Proof.
  destruct (C10_rejected_task_id_is_validation_error (H := Example.postgres)
              Example.jan1 "alice" (Some 0) Example.no_fields)
    as (e & Hcls & _ & _ & Hall & Habsent & Hrange).
  - right. exists 0. split; [reflexivity | lia].
  - destruct (Habsent Example.alice_store 7) as (Hc & _ & Hne & _);
      [discriminate | lia | unfold int4_max; lia
       | intros T HT; vm_compute in HT; discriminate |].
    destruct (Hrange Example.alice_store 2147483648)
      as (e1 & e2 & Hc1 & _ & Hcls1 & _); [discriminate | unfold int4_max; lia |].
    exists e, e1. split_and!; [exact Hcls | apply Hall | exact Hc | exact Hne
                               | exact Hc1 | exact Hcls1].
Defined.

(* ===================================================================== *)
(** * Further properties of the tool set *)
(* ===================================================================== *)

(** ** [str.strip] *)

Section StripFacts.

Lemma rstrip_idemp (s : string) : Py.rstrip (Py.rstrip s) = Py.rstrip s.
Proof.
  induction s as [|c s IH]; [done|].
  cbn [Py.rstrip]. destruct (Py.rstrip s) as [|c' r] eqn:Hr.
  - destruct (Py.isspace c) eqn:Hc; [done|]. cbn. by rewrite Hc.
  - cbn [Py.rstrip] in *. by rewrite IH.
Qed.

Lemma rstrip_head (c : ascii) (t : string) :
  Py.isspace c = false -> exists r, Py.rstrip (String c t) = String c r.
Proof.
  intros Hc. cbn [Py.rstrip]. destruct (Py.rstrip t); rewrite ?Hc; eauto.
Qed.

Lemma lstrip_head (s : string) :
  Py.lstrip s = EmptyString
  \/ exists c r, Py.lstrip s = String c r /\ Py.isspace c = false.
Proof.
  induction s as [|c s IH]; [by left|].
  cbn [Py.lstrip]. destruct (Py.isspace c) eqn:Hc; [done|]. right; eauto.
Qed.

Lemma strip_idemp (s : string) : Py.strip (Py.strip s) = Py.strip s.
Proof.
  unfold Py.strip. destruct (lstrip_head s) as [->|(c & r & -> & Hc)]; [done|].
  destruct (rstrip_head c r Hc) as [r' Hr]. rewrite Hr.
  cbn [Py.lstrip]. rewrite Hc, <- Hr. apply rstrip_idemp.
Qed.

End StripFacts.

(** ** [list_tasks] *)

Section ListFacts.

Local Instance newer_first_trans : Transitive newer_first.
Proof. unfold newer_first. intros a b c ??. lia. Qed.

Local Instance newer_first_total : Total newer_first.
Proof. unfold newer_first. intros a b. lia. Qed.

Lemma valid_statuses_elem :
  "all" ∈ valid_statuses /\ "pending" ∈ valid_statuses
  /\ "completed" ∈ valid_statuses.
Proof. unfold valid_statuses. rewrite !elem_of_cons. tauto. Qed.

(** The rows [list_tasks] selects and orders. *)
Lemma list_tasks_Ok (user_id status : string) (s : store) :
  Py.strip user_id <> EmptyString -> status ∈ valid_statuses ->
  exists rows,
    rows ≡ₚ filter (λ r, list_tasks_where (Py.strip user_id) status r)
              (map_to_list (store_tasks s))
    /\ StronglySorted newer_first rows
    /\ list_tasks user_id status s
       = (Ok {| lr_tasks := task_entry_of <$> rows;
                lr_count := Z.of_nat (length (task_entry_of <$> rows));
                lr_message :=
                  if String.eqb status "all"
                  then "Retrieved "
                       +:+ Py.str_int (Z.of_nat (length (task_entry_of <$> rows)))
                       +:+ " task(s)"
                  else "Retrieved "
                       +:+ Py.str_int (Z.of_nat (length (task_entry_of <$> rows)))
                       +:+ " " +:+ status +:+ " task(s)" |}, s).
Proof.
  intros Hu Hst.
  exists (merge_sort newer_first
            (filter (λ r, list_tasks_where (Py.strip user_id) status r)
               (map_to_list (store_tasks s)))).
  split_and!.
  - apply merge_sort_Permutation.
  - apply (StronglySorted_merge_sort newer_first).
  - unfold list_tasks.
    assert (Py.truthy (Py.strip user_id) = true) as Hs by by apply truthy_true.
    assert (user_id <> EmptyString) as Hu' by by intros ->.
    apply truthy_true in Hu'. rewrite Hu', Hs. cbn [negb orb].
    rewrite bool_decide_true by done. done.
Qed.

Lemma list_tasks_where_spec (user_id status : string) (r : Z * Task.t) :
  status ∈ valid_statuses ->
  list_tasks_where user_id status r
  <-> Task.user_id (snd r) = user_id
      /\ (status = "pending" -> Task.completed (snd r) = false)
      /\ (status = "completed" -> Task.completed (snd r) = true).
Proof.
  intros Hst. unfold list_tasks_where, valid_statuses in *.
  rewrite andb_True, bool_decide_spec.
  apply and_iff_compat_l.
  repeat (apply elem_of_cons in Hst as [->|Hst]); [| | |by apply elem_of_nil in Hst];
    cbn; destruct (Task.completed (snd r)); cbn; intuition congruence.
Qed.

(** The entries of a listing, by the rows of the store. *)
Lemma list_tasks_elem_of (user_id status : string) (s : store) :
  Py.strip user_id <> EmptyString -> status ∈ valid_statuses ->
  exists lr,
    list_tasks user_id status s = (Ok lr, s)
    /\ lr_count lr = Z.of_nat (length (lr_tasks lr))
    /\ forall e,
         e ∈ lr_tasks lr
         <-> exists row,
               store_tasks s !! te_id e = Some row
               /\ e = task_entry_of (te_id e, row)
               /\ Task.user_id row = Py.strip user_id
               /\ (status = "pending" -> Task.completed row = false)
               /\ (status = "completed" -> Task.completed row = true).
Proof.
  intros Hu Hst.
  destruct (list_tasks_Ok user_id status s Hu Hst) as (rows & Hp & _ & ->).
  eexists; split_and!; [done|done|]; cbn [lr_tasks].
  intros e. rewrite list_elem_of_fmap. split.
  - intros ([i row] & -> & Hin). rewrite Hp in Hin.
    apply list_elem_of_filter in Hin as [Hw Hin].
    apply elem_of_map_to_list in Hin. apply list_tasks_where_spec in Hw; [|done].
    exists row. cbn in *. tauto.
  - intros (row & Hrow & He & Hw). exists (te_id e, row). split; [done|].
    rewrite Hp. apply list_elem_of_filter. split.
    + apply list_tasks_where_spec; [done|]. cbn. tauto.
    + by apply elem_of_map_to_list.
Qed.

(** The keys of a listing. *)
Lemma list_tasks_ids (user_id status : string) (s : store) :
  Py.strip user_id <> EmptyString -> status ∈ valid_statuses ->
  exists lr,
    list_tasks user_id status s = (Ok lr, s)
    /\ forall n,
         n ∈ te_id <$> lr_tasks lr
         <-> exists row,
               store_tasks s !! n = Some row
               /\ Task.user_id row = Py.strip user_id
               /\ (status = "pending" -> Task.completed row = false)
               /\ (status = "completed" -> Task.completed row = true).
Proof.
  intros Hu Hst.
  destruct (list_tasks_elem_of user_id status s Hu Hst) as (lr & Hl & _ & Hin).
  exists lr. split; [done|]. intros n. rewrite list_elem_of_fmap. split.
  - intros (e & -> & He). apply Hin in He as (row & ? & _ & ?). eauto.
  - intros (row & Hrow & Hw). exists (task_entry_of (n, row)). split; [done|].
    apply Hin. exists row. by cbn.
Qed.

Lemma list_tasks_inv (user_id status : string) (s s' : store) lr :
  list_tasks user_id status s = (Ok lr, s') ->
  Py.strip user_id <> EmptyString /\ status ∈ valid_statuses.
Proof.
  unfold list_tasks. intros Hl.
  destruct (Py.truthy user_id) eqn:Hu; [|done].
  destruct (Py.truthy (Py.strip user_id)) eqn:Hs; [|done].
  cbn [negb orb] in Hl. case_bool_decide; [|done].
  split; [by apply truthy_true|done].
Qed.

Lemma filter_split_length {A} (P Q R : A -> Prop)
    `{forall x, Decision (P x)} `{forall x, Decision (Q x)}
    `{forall x, Decision (R x)} (l : list A) :
  (forall x, P x <-> Q x \/ R x) -> (forall x, Q x -> R x -> False) ->
  length (filter P l) = (length (filter Q l) + length (filter R l))%nat.
Proof.
  intros HP HQR. induction l as [|x l IH]; [done|].
  rewrite !filter_cons. specialize (HP x). specialize (HQR x).
  destruct (decide (P x)), (decide (Q x)), (decide (R x)); cbn [length]; try lia; exfalso; tauto.
Qed.

End ListFacts.

(** X1.  For a [user_id] with text and a valid [status], [list_tasks]
    succeeds without touching the store and returns exactly the rows whose
    owner is the trimmed [user_id] and whose [completed] flag matches the
    filter: each such row once, no other entry, and [count] is the length
    of the list. *)
Theorem X1_list_tasks_returns_the_owners_rows
    (user_id status : string) (s : store) :
  Py.strip user_id <> EmptyString -> status ∈ valid_statuses ->
  exists lr,
    list_tasks user_id status s = (Ok lr, s)
    /\ lr_count lr = Z.of_nat (length (lr_tasks lr))
    /\ NoDup (te_id <$> lr_tasks lr)
    /\ forall e,
         e ∈ lr_tasks lr
         <-> exists row,
               store_tasks s !! te_id e = Some row
               /\ e = task_entry_of (te_id e, row)
               /\ Task.user_id row = Py.strip user_id
               /\ (status = "pending" -> Task.completed row = false)
               /\ (status = "completed" -> Task.completed row = true).
Proof.
  intros Hu Hst.
  destruct (list_tasks_Ok user_id status s Hu Hst) as (rows & Hp & _ & Heq).
  destruct (list_tasks_elem_of user_id status s Hu Hst)
    as (lr & Hl & Hcount & Hin).
  exists lr. split_and!; [done|done| |done].
  rewrite Heq in Hl. injection Hl as <-. cbn [lr_tasks].
  rewrite <- list_fmap_compose.
  change (te_id ∘ task_entry_of) with (@fst Z Task.t).
  rewrite Hp.
  apply (sublist_NoDup _ ((map_to_list (store_tasks s)).*1)).
  - apply NoDup_fst_map_to_list.
  - apply fmap_sublist, sublist_filter.
Qed.

(** X2.  The list that [list_tasks] returns is ordered by [created_at],
    newest first. *)
Theorem X2_list_tasks_is_newest_first (user_id status : string) (s s' : store) lr :
  list_tasks user_id status s = (Ok lr, s') ->
  StronglySorted (λ a b, te_created_at b ≤ te_created_at a) (lr_tasks lr).
Proof.
  intros Hl. destruct (list_tasks_inv _ _ _ _ _ Hl) as [Hu Hst].
  destruct (list_tasks_Ok user_id status s Hu Hst) as (rows & _ & Hsorted & Heq).
  rewrite Heq in Hl. injection Hl as <- _. cbn [lr_tasks].
  by apply (StronglySorted_fmap _ newer_first).
Qed.

(** X3.  For one user and one store, the pending and the completed
    listings partition the listing of all tasks: every entry of "all" is in
    exactly one of them, and the counts add up. *)
Theorem X3_list_tasks_pending_and_completed_partition (user_id : string) (s : store) :
  Py.strip user_id <> EmptyString ->
  exists all pending completed,
    list_tasks user_id "all" s = (Ok all, s)
    /\ list_tasks user_id "pending" s = (Ok pending, s)
    /\ list_tasks user_id "completed" s = (Ok completed, s)
    /\ lr_count all = lr_count pending + lr_count completed
    /\ (forall e, e ∈ lr_tasks all <-> e ∈ lr_tasks pending \/ e ∈ lr_tasks completed)
    /\ (forall e, e ∈ lr_tasks pending -> e ∈ lr_tasks completed -> False).
Proof.
  intros Hu.
  destruct valid_statuses_elem as (Hall & Hpending & Hcompleted).
  destruct (list_tasks_Ok user_id "all" s Hu Hall) as (ra & Hpa & _ & ->).
  destruct (list_tasks_Ok user_id "pending" s Hu Hpending)
    as (rp & Hpp & _ & ->).
  destruct (list_tasks_Ok user_id "completed" s Hu Hcompleted)
    as (rc & Hpc & _ & ->).
  do 3 eexists; split_and!; try done; cbn [lr_tasks lr_count].
  - rewrite !length_fmap, Hpa, Hpp, Hpc, <- Nat2Z.inj_add. f_equal.
    apply filter_split_length; intros [i row]; unfold list_tasks_where; cbn;
      destruct (bool_decide _), (Task.completed row); cbn; tauto.
  - intros e. rewrite !list_elem_of_fmap.
    setoid_rewrite Hpa. setoid_rewrite Hpp. setoid_rewrite Hpc.
    setoid_rewrite list_elem_of_filter. unfold list_tasks_where; cbn.
    split.
    + intros ([i row] & -> & Hw & Hin); cbn in *.
      destruct (Task.completed row) eqn:Hc; [right|left];
        exists (i, row); cbn; rewrite Hc; by destruct (bool_decide _).
    + intros [([i row] & -> & Hw & Hin)|([i row] & -> & Hw & Hin)];
        exists (i, row); cbn in *; by destruct (bool_decide _).
  - intros e. rewrite !list_elem_of_fmap.
    setoid_rewrite Hpp. setoid_rewrite Hpc.
    setoid_rewrite list_elem_of_filter. unfold list_tasks_where; cbn.
    intros ([i row] & -> & Hw & Hin) ([i' row'] & He & Hw' & Hin').
    apply (f_equal te_completed) in He. cbn in *.
    destruct (bool_decide _), (bool_decide _), (Task.completed row),
      (Task.completed row'); done.
Qed.

(** ** The five tools on rows of the caller *)

Section MoreToolFacts.
Context `{Platform}.

(** The rows of a store built from rows, two of them written. *)
Lemma store_tasks_insert_insert s k1 row1 k2 row2 next_id :
  is_int4 k1 = true -> is_int4 k2 = true ->
  store_tasks (Store (<[k2 := row2]> (<[k1 := row1]> (store_tasks s))) next_id)
  = <[k2 := row2]> (<[k1 := row1]> (store_tasks s)).
Proof.
  intros Hk1 Hk2.
  rewrite <- (store_tasks_insert s k1 row1 next_id) by done.
  by apply store_tasks_insert.
Qed.





(** X5.  A failing [add_task] leaves the rows as they were, and fails in
    one of two ways: with the [ValueError] of its validation, or, validation
    having passed, with an [Exception] whose text starts with
    "Database error: ". *)
Theorem X5_add_task_failure_modes
    (now : Datetime.t) (user_id title : string)
    (description priority : option string) (tags : option (list string))
    (due_date recurrence : option string) (recurrence_interval : option Z)
    (s : store) (e : exn) (s' : store) :
  add_task now user_id title description priority tags due_date recurrence
    recurrence_interval s = (Raise e, s') ->
  store_tasks s' = store_tasks s
  /\ (exn_cls e = ValueError
        /\ add_task_validate user_id title description priority due_date
             recurrence recurrence_interval = Raise e
      \/ exn_cls e = PlainException
         /\ String.prefix "Database error: " (exn_str e) = true
         /\ is_ok (add_task_validate user_id title description priority
                     due_date recurrence recurrence_interval) = true).
Proof.
  unfold add_task.
  destruct (add_task_validate user_id title description priority due_date
              recurrence recurrence_interval)
    as [[[[[t d] p] re] dd]|e'] eqn:Hv.
  - destruct (flush_insert _ s) as [[n s1]|e1]; [done|].
    intros [= <- <-]. split; [done|]. right. split_and!; [done| |done].
    apply prefix_refl_app.
  - intros [= <- <-]. split; [done|]. left.
    eauto using add_task_validate_raises_ValueError.
Qed.

(** [delete_task] on a row of the caller. *)
Lemma delete_task_owned (user_id : string) (n : Z) (s : store) (row : Task.t) :
  user_id <> EmptyString -> 0 < n ->
  store_tasks s !! n = Some row -> Task.user_id row = user_id ->
  delete_task user_id (Some n) s
  = (Ok {| dr_task_id := n;
           dr_message :=
             "Task '" +:+ Task.title row +:+ "' deleted successfully" |},
     Store (delete n (store_tasks s)) (store_next_id s)).
Proof.
  intros Hu Hn Hrow Hown. unfold delete_task.
  rewrite user_id_check, bool_decide_false by done.
  rewrite (proj2 (task_id_accepted n)) by done.
  unfold delete_task_body.
  by rewrite (proj2 (select_task_Some n user_id s row)).
Qed.

(** X6.  [delete_task] on a row of the caller removes that row and nothing
    else: every other key keeps its row and the sequence is not moved.
    Deleting the same id again fails with the not-found error and changes
    nothing. *)
Theorem X6_delete_task_removes_one_row
    (user_id : string) (n : Z) (s : store) (row : Task.t) :
  user_id <> EmptyString -> 0 < n ->
  store_tasks s !! n = Some row -> Task.user_id row = user_id ->
  exists s',
    delete_task user_id (Some n) s
    = (Ok {| dr_task_id := n;
             dr_message :=
               "Task '" +:+ Task.title row +:+ "' deleted successfully" |}, s')
    /\ store_tasks s' !! n = None
    /\ (forall m, m <> n -> store_tasks s' !! m = store_tasks s !! m)
    /\ store_next_id s' = store_next_id s
    /\ delete_task user_id (Some n) s' = (Raise (delete_task_not_found n), s').
Proof.
  intros Hu Hn Hrow Hown.
  exists (Store (delete n (store_tasks s)) (store_next_id s)). split_and!.
  - by apply delete_task_owned.
  - rewrite store_tasks_delete. apply lookup_delete_eq.
  - intros m Hm. rewrite store_tasks_delete. by apply lookup_delete_ne.
  - done.
  - apply delete_task_unselected; [done|done|].
    apply select_task_absent; [by eapply store_tasks_is_int4|].
    rewrite store_tasks_delete. apply lookup_delete_eq.
Qed.

(** X7.  Deleting the task that [add_task] has just created, by the id it
    returned, restores the rows of the store, but not the sequence: the id is
    spent, and the next task created gets the following one. *)
Theorem X7_add_task_then_delete_task
    (now : Datetime.t) (user_id title : string)
    (description priority : option string) (tags : option (list string))
    (due_date recurrence : option string) (recurrence_interval : option Z)
    (s : store) (r : task_response) (s1 : store) :
  0 < store_next_id s ->
  add_task now user_id title description priority tags due_date recurrence
    recurrence_interval s = (Ok r, s1) ->
  exists dr s2,
    delete_task user_id (Some (ti_id (tr_task r))) s1 = (Ok dr, s2)
    /\ dr_task_id dr = ti_id (tr_task r)
    /\ store_tasks s2 = store_tasks s
    /\ store_next_id s2 = store_next_id s + 1
    /\ forall now' user_id' title' description' priority' tags' due_date'
              recurrence' recurrence_interval' r' s3,
         add_task now' user_id' title' description' priority' tags' due_date'
           recurrence' recurrence_interval' s2 = (Ok r', s3) ->
         ti_id (tr_task r') = ti_id (tr_task r) + 1.
Proof.
  intros Hpos Hadd.
  apply add_task_success in Hadd
    as (row & Hfresh & -> & Hr & _ & Hown & _ & _ & _ & Hu & Hseq).
  rewrite Hr. cbn [ti_id task_info_of].
  rewrite (delete_task_owned user_id (store_next_id s) _ row);
    [|done|done| |done].
  2:{ rewrite store_tasks_insert by done. apply lookup_insert_eq. }
  do 2 eexists. split; [done|]. cbn [dr_task_id store_next_id].
  split_and!; [done| |done|].
  - rewrite store_tasks_delete, store_tasks_insert by done.
    by apply delete_insert_id.
  - intros * Hadd'. apply add_task_success in Hadd' as (row' & _ & _ & -> & _).
    done.
Qed.


(** [complete_task] on a row of the caller that does not recur. *)
Lemma complete_task_plain (now : Datetime.t) (user_id : string) (n : Z)
    (s : store) (T : Task.t) :
  user_id <> EmptyString -> 0 < n ->
  store_tasks s !! n = Some T -> Task.user_id T = user_id ->
  Py.truthy_opt (Task.recurrence T) = false ->
  db_rejects (mark_completed now T) = None ->
  complete_task now user_id (Some n) s
  = (Ok {| cr_task :=
             {| tb_id := n;
                tb_title := Task.title T;
                tb_description := Task.description T;
                tb_completed := true;
                tb_user_id := Task.user_id T |};
           cr_message := "Task '" +:+ Task.title T +:+ "' marked as completed";
           cr_next_task := None |},
     Store (<[n := mark_completed now T]> (store_tasks s)) (store_next_id s)).
Proof.
  intros Hu Hn Hrow Hown Hrec Hdb. unfold complete_task.
  rewrite user_id_check, bool_decide_false by done.
  rewrite (proj2 (task_id_accepted n)) by done.
  unfold complete_task_body.
  rewrite (proj2 (select_task_Some n user_id s T)) by done.
  cbn [mbind result_bind].
  cbn [Task.recurrence mark_completed]. rewrite Hrec. cbn [mbind result_bind].
  unfold flush_update. rewrite Hdb. done.
Qed.

(** X8.  [complete_task] on a task of the caller without recurrence sets
    [completed] and [updated_at] on that row and creates nothing.  It does
    not look at the flag: completing the task again succeeds, returns the
    same task and only moves [updated_at]. *)
Theorem X8_complete_task_without_recurrence
    (now now' : Datetime.t) (user_id : string) (n : Z) (s : store) (T : Task.t) :
  user_id <> EmptyString -> 0 < n ->
  store_tasks s !! n = Some T -> Task.user_id T = user_id ->
  Py.truthy_opt (Task.recurrence T) = false ->
  db_rejects (mark_completed now T) = None ->
  db_rejects (mark_completed now' T) = None ->
  exists r s1 r',
    complete_task now user_id (Some n) s = (Ok r, s1)
    /\ cr_next_task r = None
    /\ tb_completed (cr_task r) = true
    /\ store_tasks s1 = <[n := mark_completed now T]> (store_tasks s)
    /\ store_next_id s1 = store_next_id s
    /\ complete_task now' user_id (Some n) s1
       = (Ok r',
          Store (<[n := mark_completed now' T]> (store_tasks s))
            (store_next_id s))
    /\ cr_next_task r' = None
    /\ cr_task r' = cr_task r.
Proof.
  intros Hu Hn Hrow Hown Hrec Hdb Hdb'.
  rewrite (complete_task_plain now user_id n s T) by done.
  pose proof (complete_task_plain now' user_id n
                (Store (<[n := mark_completed now T]> (store_tasks s))
                   (store_next_id s))
                (mark_completed now T) Hu Hn) as Hagain.
  pose proof (store_tasks_is_int4 _ _ _ Hrow) as Hint.
  rewrite store_tasks_insert in Hagain by done. cbn [store_next_id] in Hagain.
  rewrite lookup_insert_eq, insert_insert_eq in Hagain.
  specialize (Hagain eq_refl Hown Hrec Hdb').
  do 3 eexists. split; [done|].
  split_and!; [done|done|by apply store_tasks_insert|done|apply Hagain|done|done].
Qed.

(** X9.  [complete_task] does not look at [completed] before it creates the
    next instance: completing a recurring task twice creates two successors,
    under consecutive ids, each with the task as parent, not completed, with
    the task's title and the same next due date. *)
Theorem X9_complete_recurring_task_twice
    (now1 now2 : Datetime.t) (user_id : string) (n : Z) (s : store)
    (T : Task.t) (nd : option Datetime.t) :
  user_id <> EmptyString -> 0 < n ->
  store_tasks s !! n = Some T -> Task.user_id T = user_id ->
  Py.truthy_opt (Task.recurrence T) = true ->
  next_due_date T = Ok nd ->
  (forall row, db_rejects row = None) ->
  0 < store_next_id s -> store_next_id s + 1 <= int4_max ->
  store_tasks s !! store_next_id s = None ->
  store_tasks s !! (store_next_id s + 1) = None ->
  exists r1 s1 r2 s2 S1 S2,
    complete_task now1 user_id (Some n) s = (Ok r1, s1)
    /\ complete_task now2 user_id (Some n) s1 = (Ok r2, s2)
    /\ cr_next_task r1 = Some (store_next_id s, nd)
    /\ cr_next_task r2 = Some (store_next_id s + 1, nd)
    /\ store_tasks s2 !! store_next_id s = Some S1
    /\ store_tasks s2 !! (store_next_id s + 1) = Some S2
    /\ Task.parent_task_id S1 = Some n /\ Task.parent_task_id S2 = Some n
    /\ Task.completed S1 = false /\ Task.completed S2 = false
    /\ Task.title S1 = Task.title T /\ Task.title S2 = Task.title T
    /\ Task.due_date S1 = nd /\ Task.due_date S2 = nd
    /\ store_next_id s2 = store_next_id s + 2.
Proof.
  intros Hu Hn Hrow Hown Hrec Hnd Hdb Hpos Hmax Hfresh1 Hfresh2.
  assert (store_next_id s <> n) as Hne1 by (intros Heq; congruence).
  assert (store_next_id s + 1 <> n) as Hne2 by (intros Heq; congruence).
  pose proof (store_tasks_is_int4 _ _ _ Hrow) as Hint.
  assert (is_int4 (store_next_id s) = true) as Hseq1
    by (apply is_int4_spec; unfold int4_min; lia).
  assert (is_int4 (store_next_id s + 1) = true) as Hseq2
    by (apply is_int4_spec; unfold int4_min; lia).
  pose proof (complete_task_recurring_succeeds now1 user_id n s T nd
                Hu Hn Hrow Hown Hrec Hnd (Hdb _) (Hdb _) Hseq1 Hfresh1 Hne1)
    as H1.
  set (s1 := Store _ _) in H1.
  assert (store_tasks s1
          = <[store_next_id s := successor now1 n (mark_completed now1 T) nd]>
              (<[n := mark_completed now1 T]> (store_tasks s))) as Hs1
    by (by apply store_tasks_insert_insert).
  assert (store_tasks s1 !! n = Some (mark_completed now1 T)) as Hrow1.
  { rewrite Hs1. by rewrite lookup_insert_ne, lookup_insert_eq. }
  assert (store_tasks s1 !! (store_next_id s + 1) = None) as Hfresh1'.
  { rewrite Hs1. by rewrite !lookup_insert_ne by lia. }
  pose proof (complete_task_recurring_succeeds now2 user_id n s1
                (mark_completed now1 T) nd Hu Hn Hrow1 Hown Hrec Hnd
                (Hdb _) (Hdb _) Hseq2 Hfresh1' Hne2) as H2.
  cbn [store_next_id s1] in H2.
  eexists _, _, _, _, _, _. split; [exact H1|]. split; [exact H2|].
  rewrite store_tasks_insert_insert by done. rewrite Hs1.
  cbn [cr_next_task recurring_response store_next_id].
  rewrite lookup_insert_eq, lookup_insert_ne, lookup_insert_ne,
    lookup_insert_eq by lia.
  split_and!; try done. lia.
Qed.

(** X10.  When the database accepts the completed row and refuses the
    successor, [complete_task] fails and the rows are as before: the task is
    not marked completed.  The failure is the wrapped "Database error: ..."
    unless the driver's text contains "not found", in which case the
    driver's exception is raised as it is. *)
Theorem X10_complete_task_is_all_or_nothing
    (now : Datetime.t) (user_id : string) (n : Z) (s : store) (T : Task.t)
    (nd : option Datetime.t) (m : string) :
  user_id <> EmptyString -> 0 < n ->
  store_tasks s !! n = Some T -> Task.user_id T = user_id ->
  Py.truthy_opt (Task.recurrence T) = true ->
  next_due_date T = Ok nd ->
  db_rejects (mark_completed now T) = None ->
  db_rejects (successor now n (mark_completed now T) nd) = Some m ->
  let out := complete_task now user_id (Some n) s in
  fst out
  = Raise (if Py.contains "not found" m then Exn DBAPIError m
           else Exn PlainException ("Database error: " +:+ m))
  /\ store_tasks (snd out) = store_tasks s
  /\ Task.completed <$> store_tasks (snd out) !! n = Some (Task.completed T).
Proof.
  intros Hu Hn Hrow Hown Hrec Hnd Hdb Hdb'. cbv zeta.
  assert (complete_task now user_id (Some n) s
          = (Raise (if Py.contains "not found" m then Exn DBAPIError m
                    else Exn PlainException ("Database error: " +:+ m)), s))
    as ->; [|cbn [fst snd]; by rewrite Hrow].
  unfold complete_task.
  rewrite user_id_check, bool_decide_false by done.
  rewrite (proj2 (task_id_accepted n)) by done.
  unfold complete_task_body.
  rewrite (proj2 (select_task_Some n user_id s T)) by done.
  cbn [mbind result_bind].
  cbn [Task.recurrence mark_completed]. rewrite Hrec.
  change (next_due_date _) with (next_due_date T). rewrite Hnd.
  cbn [mbind result_bind mret result_ret].
  unfold flush_update, flush_insert. rewrite Hdb. cbn [mbind result_bind].
  rewrite Hdb'. cbn [mbind result_bind]. done.
Qed.

(** X11.  A daily, weekly or monthly task whose next due date would fall
    after [datetime.max] cannot be completed: [complete_task] fails with
    "Database error: date value out of range" and the rows are unchanged. *)
Theorem X11_complete_task_due_date_out_of_range
    (now : Datetime.t) (user_id : string) (n : Z) (s : store) (T : Task.t)
    (due : Datetime.t) (days : Z) :
  user_id <> EmptyString -> 0 < n ->
  store_tasks s !! n = Some T -> Task.user_id T = user_id ->
  Task.due_date T = Some due ->
  (Task.recurrence T = Some "daily" /\ days = 1
   \/ Task.recurrence T = Some "weekly" /\ days = 7
   \/ Task.recurrence T = Some "monthly" /\ days = 30) ->
  Datetime.in_range (due + days * Datetime.us_per_day) = false ->
  let out := complete_task now user_id (Some n) s in
  fst out = Raise (Exn PlainException "Database error: date value out of range")
  /\ store_tasks (snd out) = store_tasks s.
Proof.
  intros Hu Hn Hrow Hown Hdue Hrec Hrange. cbv zeta.
  assert (complete_task now user_id (Some n) s
          = (Raise (Exn PlainException
                      "Database error: date value out of range"), s))
    as ->; [|done].
  unfold complete_task.
  rewrite user_id_check, bool_decide_false by done.
  rewrite (proj2 (task_id_accepted n)) by done.
  unfold complete_task_body.
  rewrite (proj2 (select_task_Some n user_id s T)) by done.
  cbn [mbind result_bind].
  cbn [Task.recurrence mark_completed].
  change (next_due_date _) with (next_due_date T).
  unfold next_due_date. rewrite Hdue.
  assert (Datetime.add_days due days
          = Raise (Exn OverflowError "date value out of range")) as Hadd.
  { assert ((Z.abs days <=? 999999999) = true) as Hdays
      by (destruct Hrec as [[_ ->]|[[_ ->]|[_ ->]]]; done).
    unfold Datetime.add_days, Datetime.timedelta_days, Datetime.add.
    by rewrite Hdays, Hrange. }
  destruct Hrec as [[Hr ->]|[[Hr ->]|[Hr ->]]]; rewrite Hr;
    cbn [Py.truthy_opt Py.truthy String.eqb Ascii.eqb Bool.eqb negb];
    repeat (rewrite bool_decide_false by done);
    rewrite bool_decide_true by done;
    unfold Datetime.add_weeks, Datetime.timedelta_weeks;
    change (7 * 1) with 7; fold (Datetime.add_days due 7);
    rewrite Hadd; done.
Qed.

(** The description that validation in [update_task] hands on. *)
Lemma update_task_validate_description user_id task_id f v :
  update_task_validate user_id task_id f = Ok v ->
  uv_description v
  = match uf_description f with
    | Some d => if Py.truthy (Py.strip d) then Some (Py.strip d) else None
    | None => None
    end.
Proof.
  unfold update_task_validate. intros Hv. inv_bind Hv. by injection Hv as <-.
Qed.

(** X12.  [update_task] cannot clear a description: a [description]
    argument that is empty after trimming leaves the stored description as
    it was, in the store and in the returned task. *)
Theorem X12_update_task_keeps_description_on_blank
    (now : Datetime.t) (user_id : string) (task_id : option Z)
    (f : update_fields) (s : store) (r : task_response) (s' : store)
    (d : string) :
  uf_description f = Some d -> Py.strip d = EmptyString ->
  update_task now user_id task_id f s = (Ok r, s') ->
  exists n T,
    task_id = Some n
    /\ store_tasks s !! n = Some T
    /\ ti_description (tr_task r) = Task.description T
    /\ Task.description <$> store_tasks s' !! n = Some (Task.description T).
Proof.
  intros Hd Hblank Hup.
  apply update_task_success in Hup as (n & T & v & -> & Hv & Hrow & _ & -> & ->).
  apply update_task_validate_description in Hv.
  rewrite Hd, Hblank in Hv. cbn in Hv.
  exists n, T. split_and!; [done|done| |].
  - cbn. by rewrite Hv.
  - rewrite store_tasks_insert by (by eapply store_tasks_is_int4).
    rewrite lookup_insert_eq. cbn. by rewrite Hv.
Qed.

(** What a successful [complete_task] has done to the row it names. *)
Lemma complete_task_Ok_inv now user_id task_id s r s' :
  complete_task now user_id task_id s = (Ok r, s') ->
  exists n T,
    task_id = Some n /\ 0 < n /\ user_id <> EmptyString
    /\ store_tasks s !! n = Some T /\ Task.user_id T = user_id
    /\ tb_id (cr_task r) = n
    /\ store_tasks s' !! n = Some (mark_completed now T)
    /\ (forall m, m <> n -> m <> store_next_id s ->
                  store_tasks s' !! m = store_tasks s !! m).
Proof.
  unfold complete_task. rewrite user_id_check.
  case_bool_decide as Hu; [done|].
  destruct (task_id_rejected task_id) eqn:Hid; [done|].
  destruct task_id as [n|]; [|done]. apply task_id_accepted in Hid.
  destruct (complete_task_body now user_id n s) as [[r0 s0]|e] eqn:Hbody; [|done].
  intros [= <- <-]. unfold complete_task_body in Hbody.
  destruct (select_task n user_id s) as [[T|]|e0] eqn:Hsel; [|done|done].
  apply select_task_Some in Hsel as [Hrow Hown].
  pose proof (store_tasks_is_int4 _ _ _ Hrow) as Hint.
  cbn [mbind result_bind] in Hbody.
  exists n, T.
  apply bind_Ok in Hbody as (nt & Hnt & Hbody).
  apply bind_Ok in Hbody as (s1 & Hs1 & Hbody).
  unfold flush_update in Hs1. destruct (db_rejects _); [done|].
  injection Hs1 as <-.
  destruct nt as [nt|].
  - apply bind_Ok in Hbody as ([i s2] & Hins & Hbody).
    injection Hbody as <- <-. unfold flush_insert in Hins.
    destruct (db_rejects nt); [done|]. cbv zeta in Hins.
    cbn [store_next_id] in Hins.
    destruct (is_int4 (store_next_id s)) eqn:Hseq; [|done].
    simpl negb in Hins. cbv iota in Hins.
    rewrite store_tasks_insert in Hins by done.
    destruct (decide (store_next_id s = n)) as [Heq|Hne];
      [by rewrite Heq, lookup_insert_eq in Hins|].
    rewrite lookup_insert_ne in Hins by done.
    destruct (store_tasks s !! store_next_id s); [done|].
    injection Hins as _ <-.
    rewrite store_tasks_insert_insert by done.
    cbn [cr_task tb_id]. split_and!; try done.
    + rewrite lookup_insert_ne by done. apply lookup_insert_eq.
    + intros m Hm Hm'. by rewrite !lookup_insert_ne.
  - injection Hbody as <- <-. rewrite store_tasks_insert by done.
    cbn [cr_task tb_id]. split_and!; try done.
    + apply lookup_insert_eq.
    + intros m Hm Hm'. by rewrite lookup_insert_ne.
Qed.

(** What a successful [delete_task] has done. *)
Lemma delete_task_Ok_inv user_id task_id s r s' :
  delete_task user_id task_id s = (Ok r, s') ->
  exists n T,
    task_id = Some n /\ 0 < n /\ user_id <> EmptyString
    /\ store_tasks s !! n = Some T /\ Task.user_id T = user_id
    /\ s' = Store (delete n (store_tasks s)) (store_next_id s)
    /\ r = {| dr_task_id := n;
              dr_message :=
                "Task '" +:+ Task.title T +:+ "' deleted successfully" |}.
Proof.
  unfold delete_task. rewrite user_id_check.
  case_bool_decide as Hu; [done|].
  destruct (task_id_rejected task_id) eqn:Hid; [done|].
  destruct task_id as [n|]; [|done]. apply task_id_accepted in Hid.
  unfold delete_task_body.
  destruct (select_task n user_id s) as [[T|]|e0] eqn:Hsel; [|done|done].
  apply select_task_Some in Hsel as [Hrow Hown]. cbn [mbind result_bind].
  intros [= <- <-]. by exists n, T.
Qed.

(** X13.  After a successful [complete_task] by a user whose id has no
    surrounding white space, the task is in that user's completed listing
    and not in the pending one. *)
Theorem X13_complete_task_moves_task_to_completed_listing
    (now : Datetime.t) (user_id : string) (task_id : option Z)
    (s : store) (r : complete_response) (s' : store) :
  Py.strip user_id = user_id ->
  complete_task now user_id task_id s = (Ok r, s') ->
  exists pending completed,
    list_tasks user_id "pending" s' = (Ok pending, s')
    /\ list_tasks user_id "completed" s' = (Ok completed, s')
    /\ tb_id (cr_task r) ∈ (te_id <$> lr_tasks completed)
    /\ (tb_id (cr_task r) ∉ (te_id <$> lr_tasks pending))
    /\ task_id = Some (tb_id (cr_task r)).
Proof.
  intros Hstrip Hc.
  apply complete_task_Ok_inv in Hc
    as (n & T & -> & Hn & Hu & Hrow & Hown & -> & Hrow' & _).
  assert (Py.strip user_id <> EmptyString) as Hu' by by rewrite Hstrip.
  destruct valid_statuses_elem as (_ & Hpending & Hcompleted).
  destruct (list_tasks_ids user_id "pending" s' Hu' Hpending)
    as (lp & Hlp & Hp).
  destruct (list_tasks_ids user_id "completed" s' Hu' Hcompleted)
    as (lc & Hlc & Hc).
  exists lp, lc. split_and!; [done|done| | |done].
  - apply Hc. eexists. split; [done|]. by rewrite Hstrip.
  - intros Hin. apply Hp in Hin as (row & Hrow2 & _ & Hpend & _).
    rewrite Hrow' in Hrow2. injection Hrow2 as <-. by specialize (Hpend eq_refl).
Qed.

(** X14.  After a successful [delete_task], each listing of the user holds
    the entries it held before except the deleted task's; the deleted task
    was in the listing of all tasks. *)
Theorem X14_delete_task_removes_task_from_listings
    (user_id : string) (task_id : option Z) (status : string)
    (s : store) (r : delete_response) (s' : store) :
  Py.strip user_id = user_id -> status ∈ valid_statuses ->
  delete_task user_id task_id s = (Ok r, s') ->
  exists before after,
    list_tasks user_id status s = (Ok before, s)
    /\ list_tasks user_id status s' = (Ok after, s')
    /\ (forall e, e ∈ lr_tasks after
                  <-> e ∈ lr_tasks before /\ te_id e <> dr_task_id r)
    /\ (status = "all" -> dr_task_id r ∈ (te_id <$> lr_tasks before)).
Proof.
  intros Hstrip Hst Hd.
  apply delete_task_Ok_inv in Hd
    as (n & T & -> & Hn & Hu & Hrow & Hown & -> & ->).
  assert (Py.strip user_id <> EmptyString) as Hu' by by rewrite Hstrip.
  destruct (list_tasks_elem_of user_id status s Hu' Hst)
    as (lb & Hlb & _ & Hb).
  destruct (list_tasks_elem_of user_id status
              (Store (delete n (store_tasks s)) (store_next_id s)) Hu' Hst)
    as (la & Hla & _ & Ha).
  exists lb, la. split_and!; [done|done| |].
  - intros e. rewrite Ha, Hb, store_tasks_delete. cbn [dr_task_id]. split.
    + intros (row & Hrow' & He). apply lookup_delete_Some in Hrow' as [Hne Hrow'].
      split; [|done]. by exists row.
    + intros [(row & Hrow' & He) Hne]. exists row. split; [|done].
      by apply lookup_delete_Some.
  - intros ->. cbn [dr_task_id]. apply list_elem_of_fmap.
    exists (task_entry_of (n, T)). split; [done|].
    apply Hb. exists T. cbn. rewrite Hstrip. by split_and!.
Qed.

(** X15.  After a successful [add_task] by a user whose id has no
    surrounding white space, the user's pending listing is the one before
    with one entry more, the new task's, under the returned id and with the
    trimmed title; the count grows by one, and the completed listing does
    not hold the new id. *)
Theorem X15_add_task_extends_pending_listing
    (now : Datetime.t) (user_id title : string)
    (description priority : option string) (tags : option (list string))
    (due_date recurrence : option string) (recurrence_interval : option Z)
    (s : store) (r : task_response) (s' : store) :
  Py.strip user_id = user_id ->
  add_task now user_id title description priority tags due_date recurrence
    recurrence_interval s = (Ok r, s') ->
  exists before after completed entry,
    list_tasks user_id "pending" s = (Ok before, s)
    /\ list_tasks user_id "pending" s' = (Ok after, s')
    /\ list_tasks user_id "completed" s' = (Ok completed, s')
    /\ te_id entry = ti_id (tr_task r)
    /\ te_title entry = Py.strip title
    /\ te_completed entry = false
    /\ (forall e, e ∈ lr_tasks after <-> e = entry \/ e ∈ lr_tasks before)
    /\ lr_count after = lr_count before + 1
    /\ (ti_id (tr_task r) ∉ (te_id <$> lr_tasks completed)).
Proof.
  intros Hstrip Hadd.
  apply add_task_success in Hadd
    as (row & Hfresh & -> & Hr & Hcompl & Hown & Htitle & _ & _ & Hu & Hseq).
  assert (Py.strip user_id <> EmptyString) as Hu' by by rewrite Hstrip.
  destruct valid_statuses_elem as (_ & Hpending & Hcompleted).
  set (s' := Store (<[store_next_id s := row]> (store_tasks s))
               (store_next_id s + 1)).
  assert (store_tasks s' = <[store_next_id s := row]> (store_tasks s)) as Hs'
    by (by apply store_tasks_insert).
  destruct (list_tasks_Ok user_id "pending" s Hu' Hpending)
    as (rb & Hpb & _ & Hlb).
  destruct (list_tasks_Ok user_id "pending" s' Hu' Hpending)
    as (ra & Hpa & _ & Hla).
  destruct (list_tasks_ids user_id "completed" s' Hu' Hcompleted)
    as (lc & Hlc & Hc).
  assert (ra ≡ₚ (store_next_id s, row) :: rb) as Hra.
  { rewrite Hpa, Hpb, Hs'.
    rewrite map_to_list_insert by done.
    rewrite filter_cons_True; [done|].
    unfold list_tasks_where. cbn. rewrite Hown, Hstrip, Hcompl.
    by rewrite bool_decide_true. }
  rewrite Hlb, Hla, Hlc.
  eexists _, _, _, (task_entry_of (store_next_id s, row)).
  split_and!; try done; cbn [lr_tasks lr_count].
  - by rewrite Hr.
  - intros e. rewrite Hra, fmap_cons. apply elem_of_cons.
  - rewrite !length_fmap, Hra. cbn [length]. lia.
  - rewrite Hr. cbn [ti_id task_info_of]. intros Hin.
    apply Hc in Hin as (row' & Hrow' & _ & _ & Hdone).
    rewrite Hs', lookup_insert_eq in Hrow'.
    injection Hrow' as <-. specialize (Hdone eq_refl). congruence.
Qed.

End MoreToolFacts.

(* ===================================================================== *)
(** * Further properties of the orchestrators *)
(* ===================================================================== *)

(** ** [runner.py] *)

Section MoreRunnerFacts.
Context `{Library} {W : Type} (TOOL_FUNCTIONS : string -> option (tool W)).

Lemma llm_transcripts_app (t1 t2 : list event) :
  llm_transcripts (t1 ++ t2) = llm_transcripts t1 ++ llm_transcripts t2.
Proof. induction t1 as [|[] t1 IH]; simpl; [done| |done]. by rewrite IH. Qed.

Lemma llm_transcripts_dispatch_only (trace : list event) :
  Forall (λ ev, exists name kwargs, ev = ToolDispatch name kwargs) trace ->
  llm_transcripts trace = [].
Proof. induction 1 as [|? ? (n & k & ->) _ IH]; [done|]. done. Qed.

Lemma agent_loop_transcripts llm user_id remaining fm made w :
  let ts := llm_transcripts
              (run_trace (Runner.agent_loop TOOL_FUNCTIONS llm user_id remaining
                            fm made w)) in
  transcripts_chain llm ts /\ (remaining <> O -> head ts = Some fm).
Proof.
  revert fm made w. induction remaining as [|remaining IH]; intros fm made w.
  { done. }
  destruct (decide (asks_for_tools (llm fm))) as [Hasks|Hno].
  - destruct (llm fm) as [[|message choices]|e] eqn:Hllm; simpl in Hasks;
      [done| |done].
    rewrite (agent_loop_tools _ _ _ _ _ _ _ _ _ Hllm Hasks).
    cbv zeta. cbn [run_trace llm_transcripts].
    rewrite llm_transcripts_app,
      (llm_transcripts_dispatch_only _ (exec_tool_calls_trace _ _ _ _)).
    cbn [app].
    set (s := Runner.exec_tool_calls TOOL_FUNCTIONS user_id
                (msg_tool_calls message) w).
    destruct (IH (fm ++ [AssistantMessage message] ++ Runner.step_messages s)
                (made ++ (tc_name <$> msg_tool_calls message))
                (Runner.step_world s)) as [Hchain Hhead].
    split; [|done].
    destruct remaining as [|remaining]; [done|].
    specialize (Hhead ltac:(done)).
    destruct (llm_transcripts _) as [|t2 ts]; [done|].
    injection Hhead as ->. split; [|done].
    exists message, choices, (Runner.step_messages s).
    split_and!; [done|done| |done].
    apply exec_tool_calls_answers.
  - rewrite agent_loop_ends by done. done.
Qed.

(** X16.  The transcripts that [run_agent] of [runner.py] sends to the
    model form a chain.  The first is the system prompt followed by the
    caller's messages; each later one is the transcript before it, then the
    assistant message the model returned for it, then one tool message for
    each of its tool calls, in order and under the call's id, whether the
    call succeeded or not.  Nothing is dropped or reordered. *)
Theorem X16_runner_answers_every_tool_call
    (llm : llm_client) (user_id : string) (messages : list chat_message)
    (max_iterations : Z) (w : W) :
  let ts := llm_transcripts
              (run_trace (Runner.run_agent TOOL_FUNCTIONS llm user_id messages
                            max_iterations w)) in
  transcripts_chain llm ts
  /\ (forall t, head ts = Some t ->
                t = RoleContent "system" Runner.SYSTEM_PROMPT :: messages).
Proof.
  unfold Runner.run_agent.
  destruct (negb (Py.truthy user_id) || (Py.len user_id =? 0)); [done|].
  case_bool_decide; [done|].
  destruct (agent_loop_transcripts llm user_id (Z.to_nat max_iterations)
              (RoleContent "system" Runner.SYSTEM_PROMPT :: messages) [] w)
    as [Hchain Hhead].
  split; [done|]. intros t Ht.
  destruct (Z.to_nat max_iterations) as [|n]; [done|].
  rewrite Hhead in Ht by done. by injection Ht as <-.
Qed.

(** X17.  [run_agent] of [runner.py], called with a client, raises in two
    cases only: the [ValueError] of its own argument check, before anything
    is done, and an API error of the client, passed on as it is.  No failure
    of a tool and no other exception leaves it: with valid arguments and a
    client that raises no API error, it returns a result. *)
Theorem X17_runner_contains_failures
    (llm : llm_client) (user_id : string) (messages : list chat_message)
    (max_iterations : Z) (w : W) :
  let R := Runner.run_agent TOOL_FUNCTIONS llm user_id messages
             max_iterations w in
  (forall e,
     run_outcome R = Raise e ->
     (exn_cls e = ValueError /\ (user_id = EmptyString \/ messages = [])
      /\ run_trace R = [] /\ run_world R = w)
     \/ (Runner.is_api_error e = true /\ exists msgs, llm msgs = Raise e))
  /\ (user_id <> EmptyString -> messages <> [] ->
      (forall msgs e, llm msgs = Raise e -> Runner.is_api_error e = false) ->
      exists r, run_outcome R = Ok r).
Proof.
  cbv zeta. unfold Runner.run_agent. rewrite user_id_check. split.
  - intros e. case_bool_decide as Hu; [intros [= <-]; left; by split_and!; eauto|].
    case_bool_decide as Hm; [intros [= <-]; left; by split_and!; eauto|].
    intros Hraise. right. by eapply agent_loop_raises.
  - intros Hu Hm Hllm. rewrite !bool_decide_false by done.
    destruct (run_outcome _) as [r|e] eqn:Hout; [by exists r|].
    apply agent_loop_raises in Hout as (Hapi & msgs & Hraise).
    apply Hllm in Hraise. congruence.
Qed.

Lemma agent_loop_tool_calls llm user_id remaining fm made w r :
  run_outcome (Runner.agent_loop TOOL_FUNCTIONS llm user_id remaining fm made w)
  = Ok r ->
  Runner.tool_calls r
  = made ++ requested_names llm
              (run_trace (Runner.agent_loop TOOL_FUNCTIONS llm user_id remaining
                            fm made w)).
Proof.
  revert fm made w. induction remaining as [|remaining IH]; intros fm made w.
  { intros [= <-]. cbn. by rewrite app_nil_r. }
  destruct (decide (asks_for_tools (llm fm))) as [Hasks|Hno].
  - destruct (llm fm) as [[|message choices]|e] eqn:Hllm; simpl in Hasks;
      [done| |done].
    rewrite (agent_loop_tools _ _ _ _ _ _ _ _ _ Hllm Hasks).
    cbv zeta. cbn [run_outcome run_trace requested_names].
    intros Hout. apply IH in Hout. rewrite Hout, Hllm. cbn [requested].
    rewrite requested_names_app.
    rewrite (requested_names_dispatch_only llm _ (exec_tool_calls_trace _ _ _ _)).
    by rewrite <- (assoc_L (++)).
  - rewrite (agent_loop_ends _ _ _ _ _ _ _ Hno). cbn [requested_names].
    cbn [Runner.agent_loop].
    destruct (llm fm) as [[|message choices]|e] eqn:Hllm; cbn [requested].
    + intros [= <-]. cbn. by rewrite !app_nil_r.
    + destruct (msg_tool_calls message) eqn:Htcs;
        [|exfalso; apply Hno; cbn; by rewrite Htcs].
      intros [= <-]. cbn. by rewrite !app_nil_r.
    + destruct (Runner.is_api_error e); [done|].
      intros [= <-]. cbn. by rewrite !app_nil_r.
Qed.

Lemma agent_loop_success llm user_id remaining fm made w r :
  run_outcome (Runner.agent_loop TOOL_FUNCTIONS llm user_id remaining fm made w)
  = Ok r ->
  if Runner.success r then Runner.error r = None
  else exists m, Runner.error r = Some m.
Proof.
  revert fm made w. induction remaining as [|remaining IH]; intros fm made w;
    cbn [Runner.agent_loop].
  { intros [= <-]. cbn. eauto. }
  destruct (llm fm) as [[|message choices]|e].
  - intros [= <-]. cbn. eauto.
  - destruct (msg_tool_calls message); [by intros [= <-]|]. apply IH.
  - destruct (Runner.is_api_error e); [done|]. intros [= <-]. cbn. eauto.
Qed.

(** X18.  The [tool_calls] of a result of [run_agent] are the names of all
    tools the model asked for during the run, in order, whether or not the
    call could be made; and the result carries an error text exactly when
    [success] is false. *)
Theorem X18_runner_reports_every_requested_tool
    (llm : llm_client) (user_id : string) (messages : list chat_message)
    (max_iterations : Z) (w : W) (r : Runner.agent_result) :
  run_outcome (Runner.run_agent TOOL_FUNCTIONS llm user_id messages
                 max_iterations w) = Ok r ->
  Runner.tool_calls r
  = requested_names llm
      (run_trace (Runner.run_agent TOOL_FUNCTIONS llm user_id messages
                    max_iterations w))
  /\ (if Runner.success r then Runner.error r = None
      else exists m, Runner.error r = Some m).
Proof.
  unfold Runner.run_agent.
  destruct (negb (Py.truthy user_id) || (Py.len user_id =? 0)); [done|].
  case_bool_decide; [done|]. intros Hout. split.
  - by apply agent_loop_tool_calls in Hout.
  - by apply agent_loop_success in Hout.
Qed.

Lemma exec_tool_call_registered user_id tc w :
  let s := Runner.exec_tool_call TOOL_FUNCTIONS user_id tc w in
  Forall (λ d : string * gmap string json,
            fst d = tc_name tc /\ is_Some (TOOL_FUNCTIONS (fst d)))
    (dispatches (Runner.step_trace s))
  /\ (dispatches (Runner.step_trace s) = [] -> Runner.step_world s = w).
Proof.
  unfold Runner.exec_tool_call, Runner.tool_call_try.
  destruct (json_loads _); [|done].
  destruct (TOOL_FUNCTIONS (tc_name tc)) as [t|] eqn:Ht; [|done].
  destruct (set_user_id _ _); [|done].
  destruct (t _ _) as [[] ?]; cbn; (split; [|done]);
    repeat constructor; cbn; by rewrite ?Ht.
Qed.

Lemma exec_tool_calls_registered user_id tcs w :
  let s := Runner.exec_tool_calls TOOL_FUNCTIONS user_id tcs w in
  Forall (λ d : string * gmap string json,
            fst d ∈ (tc_name <$> tcs) /\ is_Some (TOOL_FUNCTIONS (fst d)))
    (dispatches (Runner.step_trace s))
  /\ (dispatches (Runner.step_trace s) = [] -> Runner.step_world s = w).
Proof.
  revert w. induction tcs as [|tc tcs IH]; intros w.
  { by split; [constructor|]. }
  cbn [Runner.exec_tool_calls]. cbv zeta. cbn [Runner.step_trace Runner.step_world].
  destruct (exec_tool_call_registered user_id tc w) as [H1 Hw1].
  destruct (IH (Runner.step_world
                  (Runner.exec_tool_call TOOL_FUNCTIONS user_id tc w)))
    as [H2 Hw2].
  rewrite dispatches_app. split.
  - apply Forall_app. split.
    + eapply Forall_impl; [exact H1|]. intros d [-> ?]. split; [|done].
      rewrite fmap_cons. apply list_elem_of_here.
    + eapply Forall_impl; [exact H2|]. intros d [? ?]. split; [|done].
      rewrite fmap_cons. by apply list_elem_of_further.
  - intros [Hd1 Hd2]%app_eq_nil. rewrite Hw2 by done. by apply Hw1.
Qed.

Lemma agent_loop_registered llm user_id remaining fm made w :
  let R := Runner.agent_loop TOOL_FUNCTIONS llm user_id remaining fm made w in
  Forall (λ d : string * gmap string json,
            fst d ∈ requested_names llm (run_trace R)
            /\ is_Some (TOOL_FUNCTIONS (fst d)))
    (dispatches (run_trace R))
  /\ (dispatches (run_trace R) = [] -> run_world R = w).
Proof.
  revert fm made w. induction remaining as [|remaining IH]; intros fm made w.
  { by split; [constructor|]. }
  destruct (decide (asks_for_tools (llm fm))) as [Hasks|Hno].
  - destruct (llm fm) as [[|message choices]|e] eqn:Hllm; simpl in Hasks;
      [done| |done].
    rewrite (agent_loop_tools _ _ _ _ _ _ _ _ _ Hllm Hasks).
    cbv zeta. cbn [run_outcome run_trace run_world requested_names dispatches].
    rewrite Hllm. cbn [requested].
    rewrite dispatches_app, requested_names_app.
    rewrite (requested_names_dispatch_only llm _ (exec_tool_calls_trace _ _ _ _)).
    cbn [app].
    set (s := Runner.exec_tool_calls TOOL_FUNCTIONS user_id
                (msg_tool_calls message) w).
    destruct (exec_tool_calls_registered user_id (msg_tool_calls message) w)
      as [H1 Hw1].
    destruct (IH (fm ++ [AssistantMessage message] ++ Runner.step_messages s)
                (made ++ (tc_name <$> msg_tool_calls message))
                (Runner.step_world s)) as [H2 Hw2].
    split.
    + apply Forall_app. split.
      * eapply Forall_impl; [exact H1|]. intros d [? ?]. split; [|done].
        apply elem_of_app. by left.
      * eapply Forall_impl; [exact H2|]. intros d [? ?]. split; [|done].
        apply elem_of_app. by right.
    + intros [Hd1 Hd2]%app_eq_nil. etrans; [by apply Hw2 | by apply Hw1].
  - pose proof (agent_loop_ends TOOL_FUNCTIONS llm user_id remaining fm made w Hno)
      as Hends.
    cbv zeta. rewrite Hends. cbn [dispatches]. split; [constructor|]. intros _.
    cbn [Runner.agent_loop].
    destruct (llm fm) as [[|message choices]|e] eqn:Hllm; [done| |].
    + destruct (msg_tool_calls message) eqn:Htcs; [done|].
      exfalso; apply Hno; cbn; by rewrite Htcs.
    + by destruct (Runner.is_api_error e).
Qed.

(** X19.  [run_agent] of [runner.py] calls only tools that are registered
    and that the model asked for by name, and it touches the world through
    these calls only: a run without a tool call leaves the world as it
    was. *)
Theorem X19_runner_dispatches_only_requested_registered_tools
    (llm : llm_client) (user_id : string) (messages : list chat_message)
    (max_iterations : Z) (w : W) :
  let R := Runner.run_agent TOOL_FUNCTIONS llm user_id messages
             max_iterations w in
  Forall (λ d : string * gmap string json,
            fst d ∈ requested_names llm (run_trace R)
            /\ is_Some (TOOL_FUNCTIONS (fst d)))
    (dispatches (run_trace R))
  /\ (dispatches (run_trace R) = [] -> run_world R = w).
Proof.
  cbv zeta. unfold Runner.run_agent.
  destruct (negb (Py.truthy user_id) || (Py.len user_id =? 0));
    [by split; [constructor|]|].
  case_bool_decide; [by split; [constructor|]|].
  apply agent_loop_registered.
Qed.

End MoreRunnerFacts.

(** ** [agent.py] *)

Section MoreAgentFacts.
Context `{Library} {W : Type} (tools : string -> option (tool W)).

Lemma agent_exec_tool_calls_llm_calls user_id tcs summary w :
  llm_calls (Agent.step_trace
               (Agent.exec_tool_calls tools user_id tcs summary w)) = O.
Proof.
  revert summary w. induction tcs as [|tc tcs IH]; intros summary w; [done|].
  cbn [Agent.exec_tool_calls].
  destruct (py_eval _); [|done].
  destruct (Agent.inject_user_id _ _) as [[tool_args kwargs]|]; [|done].
  unfold Agent.execute_tool, Agent.get_tool.
  destruct (tools _) as [t|]; [|done].
  destruct (t _ _) as [[] ?]; [|done].
  cbn. apply IH.
Qed.

Lemma agent_loop_budget llm user_id remaining fm summary w :
  (llm_calls (run_trace (Agent.agent_loop tools llm user_id remaining fm
                           summary w)) <= remaining)%nat.
Proof.
  revert fm summary w. induction remaining as [|remaining IH];
    intros fm summary w; cbn [Agent.agent_loop]; [done|].
  destruct (llm fm) as [[|message choices]|e]; [cbn; lia| |cbn; lia].
  destruct (msg_tool_calls message) as [|tc tcs] eqn:Htcs; [cbn; lia|].
  cbv zeta.
  pose proof (agent_exec_tool_calls_llm_calls user_id (tc :: tcs) summary w)
    as Hz.
  set (s := Agent.exec_tool_calls tools user_id (tc :: tcs) summary w) in *.
  destruct (Agent.step_raised s); cbn [run_trace llm_calls];
    rewrite ?llm_calls_app, Hz; [lia|].
  cbn. apply le_n_S, IH.
Qed.


(** X20.  [run_agent] of [agent.py] makes at most [max_iterations] round
    trips to the model; with a budget of zero or less it makes none and
    returns its closing text with an empty summary. *)
Theorem X20_agent_iteration_budget
    (llm : llm_client) (messages : list (string * string)) (user_id : string)
    (max_iterations : Z) (w : W) :
  let R := Agent.run_agent tools llm messages user_id max_iterations w in
  (llm_calls (run_trace R) <= Z.to_nat max_iterations)%nat
  /\ (max_iterations <= 0 ->
      R = Run (Ok (Agent.max_iterations_reply, ∅)) w []).
Proof.
  cbv zeta. unfold Agent.run_agent. split; [apply agent_loop_budget|].
  intros Hmax. by rewrite Z2Nat.nonpos.
Qed.


End MoreAgentFacts.

(** ** The registry of [mcp/server.py] *)

Section MCPServerFacts.
Context `{Library} {W : Type}.

Lemma MCPServer_lookup_app (srv1 srv2 : MCPServer.t W) (name : string) :
  MCPServer.lookup (srv1 ++ srv2) name
  = match MCPServer.lookup srv1 name with
    | Some f => Some f
    | None => MCPServer.lookup srv2 name
    end.
Proof.
  induction srv1 as [|[n f] srv1 IH]; [done|]. cbn.
  by destruct (String.eqb n name).
Qed.

Lemma MCPServer_lookup_None (srv : MCPServer.t W) (name : string) :
  MCPServer.lookup srv name = None <-> name ∉ MCPServer.list_tools srv.
Proof.
  unfold MCPServer.list_tools. induction srv as [|[n f] srv IH]; cbn.
  - split; [intros _; apply not_elem_of_nil|done].
  - rewrite not_elem_of_cons. destruct (String.eqb_spec n name) as [->|Hne].
    + split; [done|]. by intros [? _].
    + rewrite IH. split; [by intros ?; split|by intros [_ ?]].
Qed.

(** X22.  [register_tool] refuses a name that is registered, with a
    [ValueError], and leaves the registry as it was.  A new name is appended
    after the names registered so far; then [get_tool] returns the new
    callable for it and what it returned before for every other name, and a
    second registration of the name is refused. *)
Theorem X22_register_tool_refuses_duplicates
    (name : string) (f : tool W) (srv : MCPServer.t W) :
  NoDup (MCPServer.list_tools srv) ->
  (name ∈ MCPServer.list_tools srv ->
   MCPServer.register_tool name f srv
   = (Raise (Exn ValueError ("Tool '" +:+ name +:+ "' is already registered")),
      srv))
  /\ (name ∉ MCPServer.list_tools srv ->
      exists srv',
        MCPServer.register_tool name f srv = (Ok (), srv')
        /\ MCPServer.list_tools srv' = MCPServer.list_tools srv ++ [name]
        /\ NoDup (MCPServer.list_tools srv')
        /\ MCPServer.get_tool srv' name = Ok f
        /\ (forall other, other <> name ->
              MCPServer.get_tool srv' other = MCPServer.get_tool srv other)
        /\ MCPServer.register_tool name f srv'
           = (Raise (Exn ValueError
                       ("Tool '" +:+ name +:+ "' is already registered")),
              srv')).
Proof.
  intros Hnodup. unfold MCPServer.register_tool. split.
  - intros Hin. destruct (MCPServer.lookup srv name) eqn:Hl; [done|].
    by apply MCPServer_lookup_None in Hl.
  - intros Hnin. pose proof (proj2 (MCPServer_lookup_None srv name) Hnin) as Hl.
    rewrite Hl. eexists. split; [done|].
    assert (MCPServer.lookup (srv ++ [(name, f)]) name = Some f) as Hnew.
    { rewrite MCPServer_lookup_app, Hl. cbn. by rewrite String.eqb_refl. }
    split_and!.
    + unfold MCPServer.list_tools. by rewrite fmap_app.
    + unfold MCPServer.list_tools in *. rewrite fmap_app. cbn.
      apply NoDup_app. split_and!; [done| |apply NoDup_singleton].
      intros x Hx ->%list_elem_of_singleton. done.
    + unfold MCPServer.get_tool, Agent.get_tool. by rewrite Hnew.
    + intros other Hne. unfold MCPServer.get_tool, Agent.get_tool.
      rewrite MCPServer_lookup_app. destruct (MCPServer.lookup srv other); [done|].
      cbn. by rewrite (proj2 (String.eqb_neq name other)).
    + by rewrite Hnew.
Qed.

Lemma register_tool_new (name : string) (f : tool W) (srv : MCPServer.t W) :
  MCPServer.lookup srv name = None ->
  MCPServer.register_tool name f srv = (Ok (), srv ++ [(name, f)]).
Proof. intros Hl. unfold MCPServer.register_tool. by rewrite Hl. Qed.

(** X23.  On a registry that holds none of the five tool names,
    [register_all_tools] registers them in the order add_task, list_tasks,
    complete_task, delete_task, update_task, each bound to its callable.
    Calling it again fails at the first name with a [ValueError] and
    changes nothing. *)
Theorem X23_register_all_tools_registers_five_names_once
    (add_task list_tasks complete_task delete_task update_task : tool W)
    (srv : MCPServer.t W) :
  Forall (λ name, name ∉ MCPServer.list_tools srv)
    ["add_task"; "list_tasks"; "complete_task"; "delete_task"; "update_task"] ->
  exists srv',
    MCPServer.register_all_tools add_task list_tasks complete_task delete_task
      update_task srv = (Ok (), srv')
    /\ MCPServer.list_tools srv'
       = MCPServer.list_tools srv
         ++ ["add_task"; "list_tasks"; "complete_task"; "delete_task";
             "update_task"]
    /\ MCPServer.get_tool srv' "add_task" = Ok add_task
    /\ MCPServer.get_tool srv' "list_tasks" = Ok list_tasks
    /\ MCPServer.get_tool srv' "complete_task" = Ok complete_task
    /\ MCPServer.get_tool srv' "delete_task" = Ok delete_task
    /\ MCPServer.get_tool srv' "update_task" = Ok update_task
    /\ MCPServer.register_all_tools add_task list_tasks complete_task
         delete_task update_task srv'
       = (Raise (Exn ValueError "Tool 'add_task' is already registered"), srv').
Proof.
  intros Hfresh.
  apply Forall_cons in Hfresh as [Hl1%MCPServer_lookup_None Hfresh].
  apply Forall_cons in Hfresh as [Hl2%MCPServer_lookup_None Hfresh].
  apply Forall_cons in Hfresh as [Hl3%MCPServer_lookup_None Hfresh].
  apply Forall_cons in Hfresh as [Hl4%MCPServer_lookup_None Hfresh].
  apply Forall_cons in Hfresh as [Hl5%MCPServer_lookup_None _].
  exists (srv ++ [("add_task", add_task); ("list_tasks", list_tasks);
                  ("complete_task", complete_task);
                  ("delete_task", delete_task); ("update_task", update_task)]).
  split_and!.
  - unfold MCPServer.register_all_tools.
    rewrite register_tool_new by done.
    rewrite register_tool_new by (by rewrite MCPServer_lookup_app, Hl2).
    rewrite <- (assoc_L (++)).
    rewrite register_tool_new by (by rewrite MCPServer_lookup_app, Hl3).
    rewrite <- (assoc_L (++)).
    rewrite register_tool_new by (by rewrite MCPServer_lookup_app, Hl4).
    rewrite <- (assoc_L (++)).
    rewrite register_tool_new by (by rewrite MCPServer_lookup_app, Hl5).
    by rewrite <- (assoc_L (++)).
  - unfold MCPServer.list_tools. by rewrite fmap_app.
  - unfold MCPServer.get_tool, Agent.get_tool. by rewrite MCPServer_lookup_app, Hl1.
  - unfold MCPServer.get_tool, Agent.get_tool. by rewrite MCPServer_lookup_app, Hl2.
  - unfold MCPServer.get_tool, Agent.get_tool. by rewrite MCPServer_lookup_app, Hl3.
  - unfold MCPServer.get_tool, Agent.get_tool. by rewrite MCPServer_lookup_app, Hl4.
  - unfold MCPServer.get_tool, Agent.get_tool. by rewrite MCPServer_lookup_app, Hl5.
  - unfold MCPServer.register_all_tools, MCPServer.register_tool.
    by rewrite MCPServer_lookup_app, Hl1.
Qed.

End MCPServerFacts.

(* ===================================================================== *)
(** * Further properties of the chat endpoint *)
(* ===================================================================== *)

Section MoreChatFacts.
Context {W : Type} (run_agent : Chat.orchestrator W).

(** X24.  A chat request that names a conversation of another user gets the
    same answer as one that names a conversation that does not exist:
    status 404 with the same detail.  No message is stored, no conversation is changed, the
    orchestrator is not invoked; at most the caller's user row has been
    created. *)
Theorem X24_chat_foreign_conversation_is_not_found
    (dr : Chat.draws) (user_id message : string) (cid : Chat.uuid)
    (d : Chat.db) (w : W) :
  (Chat.db_conversations d !! cid = None
   \/ exists c, Chat.db_conversations d !! cid = Some c
                /\ Chat.conv_user_id c <> user_id) ->
  let out :=
    Chat.chat_endpoint run_agent dr user_id
      (Chat.MkChatRequest message (Some cid)) user_id d w in
  Chat.out_result out
  = Chat.HTTPException 404
      ("Conversation " +:+ cid +:+ " not found or access denied")
  /\ Chat.db_conversations (Chat.out_db out) = Chat.db_conversations d
  /\ Chat.db_messages (Chat.out_db out) = Chat.db_messages d
  /\ Chat.out_world out = w
  /\ (Chat.out_trace out = [] \/ Chat.out_trace out = [Chat.CreateUser user_id]).
Proof.
  intros Hconv. cbv zeta. unfold Chat.chat_endpoint.
  rewrite bool_decide_true by done. cbn [negb].
  unfold Chat.ensure_user_exists, Chat.load_or_create_conversation.
  cbn [Chat.req_conversation_id].
  destruct (Chat.db_users d !! user_id); cbn [Chat.db_conversations];
    destruct Hconv as [->|(c & -> & Hc)]; rewrite ?decide_False by done;
    cbn; split_and!; auto.
Qed.

Lemma older_first_trans : Transitive Chat.older_first.
Proof. unfold Chat.older_first. intros a b c ??. lia. Qed.

Lemma older_first_total : Total Chat.older_first.
Proof. unfold Chat.older_first. intros a b. lia. Qed.

(** The history is the conversation's messages, oldest first. *)
Lemma load_conversation_messages_spec (cid : Chat.uuid) (d : Chat.db) :
  exists rows,
    Chat.load_conversation_messages cid d
    = (λ m, (Chat.role m, Chat.content m)) <$> rows
    /\ StronglySorted Chat.older_first rows
    /\ rows ≡ₚ filter (λ m, Chat.conversation_id m = cid) (Chat.db_messages d).
Proof.
  eexists. split; [reflexivity|]. split.
  - apply (@StronglySorted_merge_sort _ Chat.older_first _
             older_first_trans older_first_total).
  - apply merge_sort_Permutation.
Qed.

Lemma invoke_not_setup (t : list Chat.chat_event) u h :
  Forall Chat.is_setup t -> Chat.InvokeOrchestrator u h ∉ t.
Proof.
  intros Hs Hin. eapply Forall_forall in Hs; [|done]. done.
Qed.

(** What [load_or_create_conversation] returns when it does not refuse. *)
Lemma load_or_create_conversation_inl dr user_id conversation_id d cid d1 ev1 :
  Chat.load_or_create_conversation dr user_id conversation_id d
  = (inl cid, d1, ev1) ->
  Chat.conv_user_id <$> Chat.db_conversations d1 !! cid = Some user_id
  /\ Chat.db_messages d1 = Chat.db_messages d
  /\ (conversation_id = Some cid /\ d1 = d
      \/ conversation_id = None
         /\ cid = Chat.new_conversation_id dr
         /\ Chat.db_conversations d1
            = <[cid := Chat.MkConversation user_id (Chat.t_conversation dr)
                         (Chat.t_conversation dr)]> (Chat.db_conversations d)).
Proof.
  unfold Chat.load_or_create_conversation.
  destruct conversation_id as [cid'|].
  - destruct (Chat.db_conversations d !! cid') as [c|] eqn:Hc; [|done].
    case_decide as Hown; [|done]. intros [= <- <- <-].
    rewrite Hc. cbn. rewrite Hown. split_and!; [done|done|by left].
  - intros [= <- <- <-]. cbn. rewrite lookup_insert_eq.
    split_and!; [done|done|right; by split_and!].
Qed.

(** X25.  Whenever the chat endpoint invokes the orchestrator, it does so
    for the authenticated user and with the history of one conversation,
    which that user owns and which is the one the request named, if it named
    one.  The history consists of the stored messages of that conversation
    and the message of this request, nothing of any other conversation,
    ordered by [created_at], oldest first. *)
Theorem X25_chat_history_is_the_callers_conversation
    (dr : Chat.draws) (user_id : string) (request : Chat.ChatRequest)
    (current_user : string) (d : Chat.db) (w : W)
    (u : string) (history : list (string * string)) :
  let out := Chat.chat_endpoint run_agent dr user_id request current_user d w in
  Chat.InvokeOrchestrator u history ∈ Chat.out_trace out ->
  u = current_user
  /\ exists cid rows,
       history = (λ m, (Chat.role m, Chat.content m)) <$> rows
       /\ StronglySorted Chat.older_first rows
       /\ (forall m,
             m ∈ rows
             <-> Chat.conversation_id m = cid
                 /\ (m ∈ Chat.db_messages d
                     \/ m = Chat.MkMessage (Chat.user_message_id dr) cid "user"
                              (Chat.req_message request) None
                              (Chat.t_user_message dr)))
       /\ Chat.conv_user_id <$> Chat.db_conversations (Chat.out_db out) !! cid
          = Some current_user
       /\ (forall c, Chat.req_conversation_id request = Some c -> c = cid).
Proof.
  cbv zeta. unfold Chat.chat_endpoint.
  case_bool_decide as Hauth; cbn [negb]; [|by intros ?%elem_of_nil].
  subst current_user.
  destruct (ensure_user_exists_setup dr user_id d) as (Hev0 & Hconv0 & Hmsgs0).
  destruct (Chat.ensure_user_exists dr user_id d) as [d0 ev0]. cbn [fst snd] in *.
  destruct (load_or_create_conversation_setup dr user_id
              (Chat.req_conversation_id request) d0) as (Hev1 & _ & _).
  destruct (Chat.load_or_create_conversation dr user_id
              (Chat.req_conversation_id request) d0)
    as [[[cid|nf] d1] ev1] eqn:Hload; cbn [fst snd] in *.
  2:{ cbn. intros Hin. by apply invoke_not_setup in Hin; [|apply Forall_app]. }
  apply load_or_create_conversation_inl in Hload as (Hown & Hmsgs1 & Hreq).
  set (um := Chat.MkMessage (Chat.user_message_id dr) cid "user"
               (Chat.req_message request) None (Chat.t_user_message dr)).
  assert (forall rest,
            Chat.InvokeOrchestrator u history ∈ ev0 ++ ev1 ++ rest ->
            Chat.InvokeOrchestrator u history ∈ rest) as Hrest.
  { intros rest [Hin|[Hin|Hin]%elem_of_app]%elem_of_app; [| |done];
      by apply invoke_not_setup in Hin. }
  set (d2 := Chat.Db (Chat.db_users d1) (Chat.db_conversations d1)
               (Chat.db_messages d1 ++ [um])).
  assert (forall out_convs : gmap Chat.uuid Chat.Conversation,
            Chat.conv_user_id <$> out_convs !! cid = Some user_id ->
            Chat.InvokeOrchestrator u history
              ∈ [Chat.AppendMessage um;
                 Chat.InvokeOrchestrator user_id
                   (Chat.load_conversation_messages cid d2)] ->
            u = user_id
            /\ exists cid0 rows,
                 history = (λ m, (Chat.role m, Chat.content m)) <$> rows
                 /\ StronglySorted Chat.older_first rows
                 /\ (forall m,
                       m ∈ rows
                       <-> Chat.conversation_id m = cid0
                           /\ (m ∈ Chat.db_messages d
                               \/ m = Chat.MkMessage (Chat.user_message_id dr)
                                        cid0 "user" (Chat.req_message request)
                                        None (Chat.t_user_message dr)))
                 /\ Chat.conv_user_id <$> out_convs !! cid0 = Some user_id
                 /\ (forall c, Chat.req_conversation_id request = Some c ->
                               c = cid0)) as Hmain.
  { intros out_convs Hout Hin.
    apply elem_of_cons in Hin as [?|Hin]; [done|].
    apply list_elem_of_singleton in Hin. injection Hin as -> ->.
    split; [done|].
    destruct (load_conversation_messages_spec cid d2) as (rows & Hh & Hs & Hp).
    exists cid, rows. split_and!; [done|done| |done|].
    - intros m. rewrite Hp, list_elem_of_filter. cbn [d2 Chat.db_messages].
      rewrite elem_of_app, list_elem_of_singleton, Hmsgs1, Hmsgs0. tauto.
    - intros c Hc. destruct Hreq as [[Hreq _]|[Hreq _]]; congruence. }
  destruct (Chat.Message_init um) as [um'|e] eqn:Huser.
  2:{ cbn. intros Hin. by apply invoke_not_setup in Hin; [|apply Forall_app]. }
  apply Message_init_Ok in Huser as ->. fold d2.
  destruct (run_agent user_id (Chat.load_conversation_messages cid d2) w)
    as [[r|e] w'] eqn:Hrun.
  2:{ cbn [Chat.out_trace Chat.out_db]. intros Hin%Hrest. by apply Hmain. }
  destruct (Runner.success r); cbn [negb].
  2:{ cbn [Chat.out_trace Chat.out_db]. intros Hin%Hrest. by apply Hmain. }
  destruct (Chat.Message_init _) as [am|e] eqn:Ham.
  2:{ cbn [Chat.out_trace Chat.out_db]. intros Hin%Hrest. by apply Hmain. }
  cbn [Chat.out_trace Chat.out_db Chat.db_conversations]. intros Hin%Hrest.
  apply Hmain.
  - rewrite lookup_alter_eq. cbn [d2 Chat.db_conversations].
    destruct (Chat.db_conversations d1 !! cid); [|done]. cbn in *. done.
  - cbn [app] in Hin.
    apply elem_of_cons in Hin as [Hin|Hin]; [done|].
    apply elem_of_cons in Hin as [Hin|Hin];
      [rewrite Hin; apply list_elem_of_further, list_elem_of_here|].
    apply elem_of_cons in Hin as [Hin|Hin]; [done|].
    apply elem_of_cons in Hin as [Hin|Hin]; [done|].
    by apply elem_of_nil in Hin.
Qed.

(** X26.  A chat request never deletes a conversation and never changes a
    conversation's owner or [created_at].  The only change it can make to an
    existing conversation is to set [updated_at], and only on the
    conversation the request names, whose owner is the caller, in a turn
    that ends with a response. *)
Theorem X26_chat_conversations_keep_their_owner
    (dr : Chat.draws) (user_id : string) (request : Chat.ChatRequest)
    (current_user : string) (d : Chat.db) (w : W)
    (cid : Chat.uuid) (c : Chat.Conversation) :
  Chat.db_conversations d !! Chat.new_conversation_id dr = None ->
  Chat.db_conversations d !! cid = Some c ->
  let out := Chat.chat_endpoint run_agent dr user_id request current_user d w in
  exists c',
    Chat.db_conversations (Chat.out_db out) !! cid = Some c'
    /\ Chat.conv_user_id c' = Chat.conv_user_id c
    /\ Chat.conv_created_at c' = Chat.conv_created_at c
    /\ (c' <> c ->
        Chat.conv_user_id c = current_user
        /\ user_id = current_user
        /\ Chat.req_conversation_id request = Some cid
        /\ Chat.conv_updated_at c' = Chat.t_refresh dr
        /\ exists response tool_calls,
             Chat.out_result out = Chat.ChatResponse cid response tool_calls).
Proof.
  intros Hfresh Hc. cbv zeta. unfold Chat.chat_endpoint.
  case_bool_decide as Hauth; cbn [negb]; [|by exists c].
  subst current_user.
  destruct (ensure_user_exists_setup dr user_id d) as (_ & Hconv0 & _).
  destruct (Chat.ensure_user_exists dr user_id d) as [d0 ev0]. cbn [fst snd] in *.
  destruct (Chat.load_or_create_conversation dr user_id
              (Chat.req_conversation_id request) d0)
    as [[[cid0|nf] d1] ev1] eqn:Hload.
  2:{ unfold Chat.load_or_create_conversation in Hload.
      destruct (Chat.req_conversation_id request) as [cid'|]; [|done].
      assert (d1 = d0) as -> by (repeat case_match; congruence).
      cbn [Chat.out_db Chat.out_result]. exists c. rewrite Hconv0.
      by split_and!. }
  apply load_or_create_conversation_inl in Hload as (Hown & _ & Hreq).
  assert (Chat.db_conversations d1 !! cid = Some c
          /\ (cid0 = cid -> Chat.req_conversation_id request = Some cid))
    as [Hc1 Hsame].
  { destruct Hreq as [[Hreq ->]|(Hreq & -> & ->)].
    - rewrite Hconv0. split; [done|]. by intros <-.
    - rewrite Hconv0. split; [|intros Heq; congruence].
      rewrite lookup_insert_ne; [done|]. intros Heq; congruence. }
  assert (exists c' : Chat.Conversation,
            Chat.db_conversations d1 !! cid = Some c'
            /\ Chat.conv_user_id c' = Chat.conv_user_id c
            /\ Chat.conv_created_at c' = Chat.conv_created_at c
            /\ (c' <> c -> False)) as Hsame_db.
  { exists c. by split_and!. }
  destruct (Chat.Message_init _) as [um|e]; cbn [Chat.out_db Chat.out_result].
  2:{ destruct Hsame_db as (c' & ? & ? & ? & ?). exists c'. by split_and!. }
  destruct (run_agent _ _ _) as [[r|e] w']; cbn [Chat.out_db Chat.out_result].
  2:{ destruct Hsame_db as (c' & ? & ? & ? & ?). exists c'. by split_and!. }
  destruct (Runner.success r); cbn [negb Chat.out_db Chat.out_result].
  2:{ destruct Hsame_db as (c' & ? & ? & ? & ?). exists c'. by split_and!. }
  destruct (Chat.Message_init _) as [am|e]; cbn [Chat.out_db Chat.out_result].
  2:{ destruct Hsame_db as (c' & ? & ? & ? & ?). exists c'. by split_and!. }
  cbn [Chat.db_conversations].
  destruct (decide (cid0 = cid)) as [->|Hne].
  - rewrite lookup_alter_eq, Hc1. cbn. eexists. split; [done|].
    split_and!; [done|done|]. intros _.
    rewrite Hc1 in Hown. injection Hown as Hown.
    split_and!; [done|done|by apply Hsame|done|by eexists _, _].
  - rewrite lookup_alter_ne by done. exists c. by split_and!.
Qed.

(** [Message(...)] accepts a message with text. *)
Lemma Message_init_text (m : Chat.Message) :
  Chat.role m ∈ ["user"; "assistant"] ->
  Py.strip (Chat.content m) <> EmptyString ->
  Chat.Message_init m = Ok m.
Proof.
  intros Hrole Hcontent. unfold Chat.Message_init.
  rewrite bool_decide_true by done.
  assert (Py.truthy (Chat.content m) = true) as ->.
  { apply truthy_true. intros Heq. by rewrite Heq in Hcontent. }
  rewrite len_zero, (proj2 (truthy_true _) Hcontent). done.
Qed.



End MoreChatFacts.

(** ** The request schema *)

Section SchemaFacts.

Lemma lstrip_length (s : string) :
  (String.length (Py.lstrip s) <= String.length s)%nat.
Proof.
  induction s as [|c s IH]; cbn; [done|]. destruct (Py.isspace c); cbn; lia.
Qed.

Lemma rstrip_length (s : string) :
  (String.length (Py.rstrip s) <= String.length s)%nat.
Proof.
  induction s as [|c s IH]; cbn; [done|].
  destruct (Py.rstrip s); [destruct (Py.isspace c)|]; cbn in *; lia.
Qed.

Lemma strip_length (s : string) : Py.len (Py.strip s) <= Py.len s.
Proof.
  unfold Py.len, Py.strip.
  pose proof (rstrip_length (Py.lstrip s)). pose proof (lstrip_length s). lia.
Qed.

(** X28.  A message that the request schema accepts is the trimmed input,
    is not empty and has at most 4000 characters; validating it again
    returns it unchanged; and the [Message] the endpoint builds from it for
    the role "user" is always accepted. *)
Theorem X28_chat_request_message_is_trimmed_and_storable
    (v m : string) (id cid : Chat.uuid) (t : Datetime.t) :
  ChatSchema.message v = Some m ->
  m = Py.strip v
  /\ m <> EmptyString
  /\ Py.strip m = m
  /\ 1 <= Py.len m <= 4000
  /\ ChatSchema.message m = Some m
  /\ Chat.Message_init (Chat.MkMessage id cid "user" m None t)
     = Ok (Chat.MkMessage id cid "user" m None t).
Proof.
  unfold ChatSchema.message, ChatSchema.validate_message_not_empty.
  destruct (Z.ltb_spec (Py.len v) 1) as [|Hmin]; [done|].
  destruct (Z.ltb_spec 4000 (Py.len v)) as [|Hmax]; [done|]. cbn [orb].
  destruct (Py.truthy (Py.strip v)) eqn:Hs; [|done]. cbn [negb].
  intros [= <-]. apply truthy_true in Hs.
  pose proof (strip_length v) as Hlen.
  assert (1 <= Py.len (Py.strip v)) as Hpos.
  { unfold Py.len. destruct (Py.strip v); [done|]. cbn. lia. }
  split_and!; try done.
  - apply strip_idemp.
  - lia.
  - rewrite strip_idemp.
    rewrite (proj2 (Z.ltb_ge _ _)) by done.
    rewrite (proj2 (Z.ltb_ge _ _)) by lia. cbn [orb].
    by rewrite (proj2 (truthy_true _) Hs).
  - apply Message_init_text; [set_solver|]. cbn [Chat.content].
    by rewrite strip_idemp.
Qed.

End SchemaFacts.

(* ===================================================================== *)
(** * The recurring-task service and the statistics *)
(* ===================================================================== *)

Section ServiceFacts.
Context `{Platform}.

(** X29.  For a task with a due date, [calculate_next_due_date] of the
    recurring service, given the task's recurrence, interval and the text of
    its due date, returns the due date that [complete_task] gives the
    successor; where the computation in [complete_task] raises, the service
    returns [None]. *)
Theorem X29_recurring_service_agrees_with_complete_task
    (T : Task.t) (recurrence text : string) (due : Datetime.t) :
  Task.recurrence T = Some recurrence ->
  Task.due_date T = Some due ->
  text <> EmptyString ->
  fromisoformat (Py.replace_Z text) = Some due ->
  RecurringService.calculate_next_due_date recurrence
    (Task.recurrence_interval T) (Some text)
  = match next_due_date T with
    | Ok next_due => next_due
    | Raise _ => None
    end.
Proof.
  intros Hrec Hdue Htext Hparse.
  unfold RecurringService.calculate_next_due_date, next_due_date.
  cbn [Py.truthy_opt]. rewrite (proj2 (truthy_true _) Htext). cbn [negb].
  rewrite Hparse, Hdue, Hrec.
  destruct (String.eqb_spec recurrence "daily") as [->|Hd].
  { rewrite bool_decide_true by done. by destruct (Datetime.add_days _ _). }
  rewrite bool_decide_false by congruence.
  destruct (String.eqb_spec recurrence "weekly") as [->|Hw].
  { rewrite bool_decide_true by done. by destruct (Datetime.add_weeks _ _). }
  rewrite bool_decide_false by congruence.
  destruct (String.eqb_spec recurrence "monthly") as [->|Hm].
  { rewrite bool_decide_true by done. by destruct (Datetime.add_days _ _). }
  rewrite bool_decide_false by congruence.
  destruct (String.eqb_spec recurrence "custom") as [->|Hc].
  - rewrite bool_decide_true by done. cbn [andb].
    destruct (Py.truthy_int _); [|done].
    destruct (Task.recurrence_interval T); [|done].
    by destruct (Datetime.add_days _ _).
  - by rewrite bool_decide_false by congruence.
Qed.

End ServiceFacts.

Section StatsFacts.

Lemma filter_length_le {A} (P Q : A -> Prop)
    `{forall x, Decision (P x)} `{forall x, Decision (Q x)} (l : list A) :
  (forall x, P x -> Q x) ->
  (length (filter P l) <= length (filter Q l))%nat.
Proof.
  intros HPQ. induction l as [|x l IH]; [done|].
  rewrite !filter_cons. specialize (HPQ x).
  destruct (decide (P x)), (decide (Q x)); cbn [length]; try lia. tauto.
Qed.

Lemma filter_length_iff {A} (P Q : A -> Prop)
    `{forall x, Decision (P x)} `{forall x, Decision (Q x)} (l : list A) :
  (forall x, P x <-> Q x) -> length (filter P l) = length (filter Q l).
Proof.
  intros HPQ.
  apply Nat.le_antisymm; apply filter_length_le; intros x ?; by apply HPQ.
Qed.

(** X30.  In the statistics of a user, [total] is the sum of [completed]
    and [pending], and [overdue] lies between 0 and [pending].  For a user
    id without surrounding white space the three counts are the counts that
    [list_tasks] reports for "all", "completed" and "pending". *)
Theorem X30_stats_agree_with_listings
    (now : Datetime.t) (user_id : string) (s : store) :
  let st := Stats.get_user_stats now user_id s in
  Stats.total st = Stats.completed st + Stats.pending st
  /\ 0 <= Stats.overdue st <= Stats.pending st
  /\ (Py.strip user_id = user_id -> user_id <> EmptyString ->
      exists all pending completed,
        list_tasks user_id "all" s = (Ok all, s)
        /\ list_tasks user_id "pending" s = (Ok pending, s)
        /\ list_tasks user_id "completed" s = (Ok completed, s)
        /\ lr_count all = Stats.total st
        /\ lr_count pending = Stats.pending st
        /\ lr_count completed = Stats.completed st).
Proof.
  cbv zeta. unfold Stats.get_user_stats, Stats.count.
  cbn [Stats.total Stats.completed Stats.pending Stats.overdue].
  split_and!.
  - rewrite <- Nat2Z.inj_add. f_equal.
    apply filter_split_length; intros [i row]; cbn;
      destruct (bool_decide _), (Task.completed row); cbn; tauto.
  - lia.
  - apply inj_le, filter_length_le. intros [i row]. cbn.
    by intros [? _]%andb_True.
  - intros Hstrip Hu.
    assert (Py.strip user_id <> EmptyString) as Hu' by by rewrite Hstrip.
    destruct valid_statuses_elem as (Hall & Hpending & Hcompleted).
    destruct (list_tasks_Ok user_id "all" s Hu' Hall) as (ra & Hpa & _ & ->).
    destruct (list_tasks_Ok user_id "pending" s Hu' Hpending)
      as (rp & Hpp & _ & ->).
    destruct (list_tasks_Ok user_id "completed" s Hu' Hcompleted)
      as (rc & Hpc & _ & ->).
    do 3 eexists. split_and!; try done; cbn [lr_count];
      rewrite length_fmap; f_equal;
      [rewrite Hpa|rewrite Hpp|rewrite Hpc];
      apply filter_length_iff; intros [i row];
      unfold list_tasks_where; cbn; rewrite Hstrip;
      destruct (bool_decide _), (Task.completed row); cbn; tauto.
Qed.

End StatsFacts.

(* ===================================================================== *)
(** * Instances of the further properties *)
(* ===================================================================== *)

Lemma X1_witness :
  exists lr,
    list_tasks " alice " "pending" Example.chores = (Ok lr, Example.chores)
    /\ lr_count lr = Z.of_nat (length (lr_tasks lr))
    /\ NoDup (te_id <$> lr_tasks lr).
Proof.
  destruct (X1_list_tasks_returns_the_owners_rows " alice " "pending"
              Example.chores) as (lr & Hl & Hcount & Hnodup & _).
  - vm_compute. discriminate.
  - apply valid_statuses_elem.
  - by exists lr.
Defined.

Lemma X2_witness :
  exists lr,
    list_tasks "alice" "all" Example.chores = (Ok lr, Example.chores)
    /\ StronglySorted (λ a b, te_created_at b ≤ te_created_at a) (lr_tasks lr).
Proof.
  eexists. split; [reflexivity|].
  apply (X2_list_tasks_is_newest_first "alice" "all" Example.chores
           Example.chores).
  reflexivity.
Defined.

Lemma X3_witness :
  exists all pending completed,
    list_tasks "alice" "all" Example.chores = (Ok all, Example.chores)
    /\ list_tasks "alice" "pending" Example.chores = (Ok pending, Example.chores)
    /\ list_tasks "alice" "completed" Example.chores
       = (Ok completed, Example.chores)
    /\ lr_count all = lr_count pending + lr_count completed.
Proof.
  destruct (X3_list_tasks_pending_and_completed_partition "alice"
              Example.chores)
    as (all & pending & completed & Ha & Hp & Hc & Hsum & _).
  - vm_compute. discriminate.
  - by exists all, pending, completed.
Defined.


Lemma X5_witness :
  exists e s',
    add_task (H := Example.postgres) Example.jan1 "alice" "   " None None None
      None None None Example.chores = (Raise e, s')
    /\ store_tasks s' = store_tasks Example.chores
    /\ exn_cls e = ValueError.
Proof.
  eexists _, _.
  destruct (X5_add_task_failure_modes (H := Example.postgres) Example.jan1
              "alice" "   " None None None None None None Example.chores
              _ _ eq_refl) as (Hs & [[Hcls _]|[Hcls _]]).
  - split_and!; [reflexivity | exact Hs | exact Hcls].
  - vm_compute in Hcls. discriminate.
Defined.

Lemma X6_witness :
  exists s',
    delete_task "alice" (Some 2) Example.chores
    = (Ok {| dr_task_id := 2;
             dr_message := "Task 'call mom' deleted successfully" |}, s')
    /\ store_tasks s' !! 2 = None
    /\ delete_task "alice" (Some 2) s' = (Raise (delete_task_not_found 2), s').
Proof.
  destruct (X6_delete_task_removes_one_row "alice" 2 Example.chores
              Example.call_mom) as (s' & Hdel & Hgone & _ & _ & Hagain).
  - discriminate.
  - lia.
  - reflexivity.
  - reflexivity.
  - exists s'. split_and!; [exact Hdel | exact Hgone | exact Hagain].
Defined.

Lemma X7_witness :
  exists r s1 dr s2,
    add_task (H := Example.postgres) Example.jan1 "alice" "buy milk" None None
      None None None None Example.empty_store = (Ok r, s1)
    /\ delete_task "alice" (Some (ti_id (tr_task r))) s1 = (Ok dr, s2)
    /\ store_tasks s2 = store_tasks Example.empty_store
    /\ store_next_id s2 = 2.
Proof.
  eexists _, _.
  destruct (X7_add_task_then_delete_task (H := Example.postgres) Example.jan1
              "alice" "buy milk" None None None None None None
              Example.empty_store _ _ eq_refl eq_refl)
    as (dr & s2 & Hdel & _ & Hrows & Hnext & _).
  exists dr, s2. split_and!; [reflexivity | exact Hdel | exact Hrows | exact Hnext].
Defined.

Lemma X8_witness :
  exists r s1 r',
    complete_task (H := Example.postgres) Example.jan31 "alice" (Some 2)
      Example.chores = (Ok r, s1)
    /\ cr_next_task r = None
    /\ complete_task (H := Example.postgres) (Example.jan31 + 1) "alice" (Some 2)
         s1
       = (Ok r',
          Store (<[2 := mark_completed (Example.jan31 + 1) Example.call_mom]>
                   (store_tasks Example.chores))
            (store_next_id Example.chores))
    /\ cr_task r' = cr_task r.
Proof.
  destruct (X8_complete_task_without_recurrence (H := Example.postgres)
              Example.jan31 (Example.jan31 + 1) "alice" 2 Example.chores
              Example.call_mom)
    as (r & s1 & r' & Hrun & Hnext & _ & _ & _ & Hagain & _ & Hsame).
  - discriminate.
  - lia.
  - reflexivity.
  - reflexivity.
  - reflexivity.
  - reflexivity.
  - reflexivity.
  - exists r, s1, r'.
    split_and!; [exact Hrun | exact Hnext | exact Hagain | exact Hsame].
Defined.

Lemma X9_witness :
  exists r1 s1 r2 s2,
    complete_task (H := Example.lenient) Example.jan1 "alice" (Some 1)
      Example.alice_store = (Ok r1, s1)
    /\ complete_task (H := Example.lenient) Example.jan31 "alice" (Some 1) s1
       = (Ok r2, s2)
    /\ (Task.parent_task_id <$> store_tasks s2 !! 2) = Some (Some 1)
    /\ (Task.parent_task_id <$> store_tasks s2 !! 3) = Some (Some 1)
    /\ store_next_id s2 = 4.
Proof.
  destruct (X9_complete_recurring_task_twice (H := Example.lenient)
              Example.jan1 Example.jan31 "alice" 1 Example.alice_store
              Example.milk
              (Some (Example.jan31 + 1 * Datetime.us_per_day)))
    as (r1 & s1 & r2 & s2 & S1 & S2 & Hrun1 & Hrun2 & _ & _ & Hrow1 & Hrow2
        & Hp1 & Hp2 & _ & _ & _ & _ & _ & _ & Hnext).
  - discriminate.
  - lia.
  - reflexivity.
  - reflexivity.
  - reflexivity.
  - reflexivity.
  - reflexivity.
  - reflexivity.
  - unfold int4_max. simpl. lia.
  - reflexivity.
  - reflexivity.
  - exists r1, s1, r2, s2.
    split_and!; [exact Hrun1 | exact Hrun2 | | | exact Hnext].
    + change (store_next_id Example.alice_store) with 2 in Hrow1.
      by rewrite Hrow1, <- Hp1.
    + change (store_next_id Example.alice_store + 1) with 3 in Hrow2.
      by rewrite Hrow2, <- Hp2.
Defined.

Lemma X10_witness :
  let out :=
    complete_task (H := Example.no_successors) Example.jan1 "alice" (Some 1)
      Example.alice_store in
  fst out
  = Raise (Exn PlainException "Database error: violates foreign key constraint")
  /\ Task.completed <$> store_tasks (snd out) !! 1 = Some false.
Proof.
  cbv zeta.
  destruct (X10_complete_task_is_all_or_nothing (H := Example.no_successors)
              Example.jan1 "alice" 1 Example.alice_store Example.milk
              (Some (Example.jan31 + 1 * Datetime.us_per_day))
              "violates foreign key constraint") as (Hrun & _ & Hflag).
  - discriminate.
  - lia.
  - reflexivity.
  - reflexivity.
  - reflexivity.
  - reflexivity.
  - reflexivity.
  - reflexivity.
  - split; [exact Hrun | exact Hflag].
Defined.

Lemma X11_witness :
  let out :=
    complete_task (H := Example.postgres) Example.jan1 "alice" (Some 1)
      Example.late_store in
  fst out = Raise (Exn PlainException "Database error: date value out of range")
  /\ store_tasks (snd out) = store_tasks Example.late_store.
Proof.
  apply (X11_complete_task_due_date_out_of_range (H := Example.postgres)
           Example.jan1 "alice" 1 Example.late_store Example.new_years_eve
           Example.last_day 1).
  - discriminate.
  - lia.
  - reflexivity.
  - reflexivity.
  - reflexivity.
  - left. split; reflexivity.
  - reflexivity.
Defined.

Lemma X12_witness :
  exists r s',
    update_task (H := Example.postgres) Example.jan31 "alice" (Some 2)
      Example.blank_description Example.chores = (Ok r, s')
    /\ ti_description (tr_task r) = Some "before noon"
    /\ Task.description <$> store_tasks s' !! 2 = Some (Some "before noon").
Proof.
  eexists _, _.
  destruct (X12_update_task_keeps_description_on_blank (H := Example.postgres)
              Example.jan31 "alice" (Some 2) Example.blank_description
              Example.chores _ _ "   " eq_refl eq_refl eq_refl)
    as (n & T & [= <-] & [= <-] & Hr & Hs).
  split_and!; [reflexivity | exact Hr | exact Hs].
Defined.

Lemma X13_witness :
  exists r s' pending completed,
    complete_task (H := Example.postgres) Example.jan31 "alice" (Some 2)
      Example.chores = (Ok r, s')
    /\ list_tasks "alice" "pending" s' = (Ok pending, s')
    /\ list_tasks "alice" "completed" s' = (Ok completed, s')
    /\ tb_id (cr_task r) ∈ (te_id <$> lr_tasks completed)
    /\ (tb_id (cr_task r) ∉ (te_id <$> lr_tasks pending)).
Proof.
  eexists _, _.
  destruct (X13_complete_task_moves_task_to_completed_listing
              (H := Example.postgres) Example.jan31 "alice" (Some 2)
              Example.chores _ _ eq_refl eq_refl)
    as (pending & completed & Hp & Hc & Hin & Hout & _).
  exists pending, completed.
  split_and!; [reflexivity | exact Hp | exact Hc | exact Hin | exact Hout].
Defined.

Lemma X14_witness :
  exists r s' before after,
    delete_task "alice" (Some 2) Example.chores = (Ok r, s')
    /\ list_tasks "alice" "all" Example.chores = (Ok before, Example.chores)
    /\ list_tasks "alice" "all" s' = (Ok after, s')
    /\ dr_task_id r ∈ (te_id <$> lr_tasks before)
    /\ (forall e, e ∈ lr_tasks after
                  <-> e ∈ lr_tasks before /\ te_id e <> dr_task_id r).
Proof.
  eexists _, _.
  destruct (X14_delete_task_removes_task_from_listings "alice" (Some 2) "all"
              Example.chores _ _ eq_refl (proj1 valid_statuses_elem) eq_refl)
    as (before & after & Hb & Ha & Hiff & Hin).
  exists before, after.
  split_and!; [reflexivity | exact Hb | exact Ha | exact (Hin eq_refl)
               | exact Hiff].
Defined.

Lemma X15_witness :
  exists r s' before after,
    add_task (H := Example.postgres) Example.jan31 "alice" " feed the cat "
      None None None None None None Example.chores = (Ok r, s')
    /\ list_tasks "alice" "pending" Example.chores = (Ok before, Example.chores)
    /\ list_tasks "alice" "pending" s' = (Ok after, s')
    /\ lr_count after = lr_count before + 1.
Proof.
  eexists _, _.
  destruct (X15_add_task_extends_pending_listing (H := Example.postgres)
              Example.jan31 "alice" " feed the cat " None None None None None
              None Example.chores _ _ eq_refl eq_refl)
    as (before & after & completed & entry & Hb & Ha & _ & _ & _ & _ & _
        & Hcount & _).
  exists before, after.
  split_and!; [reflexivity | exact Hb | exact Ha | exact Hcount].
Defined.

Lemma X18_witness :
  let R :=
    Runner.run_agent (H := Example.library) Example.tools
      (Example.llm_completing Example.args_999 "I could not find that task.")
      "alice" [RoleContent "user" "Complete task 999"] 5 Example.alice_store in
  exists r,
    run_outcome R = Ok r
    /\ Runner.tool_calls r = ["complete_task"]
    /\ Runner.tool_calls r
       = requested_names
           (Example.llm_completing Example.args_999 "I could not find that task.")
           (run_trace R)
    /\ Runner.error r = None.
Proof.
  cbv zeta.
  set (r := {| Runner.response := "I could not find that task.";
               Runner.tool_calls := ["complete_task"];
               Runner.success := true;
               Runner.error := None |}).
  assert (run_outcome
            (Runner.run_agent (H := Example.library) Example.tools
               (Example.llm_completing Example.args_999
                  "I could not find that task.")
               "alice" [RoleContent "user" "Complete task 999"] 5
               Example.alice_store) = Ok r) as Hout
    by (vm_compute; reflexivity).
  destruct (X18_runner_reports_every_requested_tool (H := Example.library)
              Example.tools
              (Example.llm_completing Example.args_999
                 "I could not find that task.")
              "alice" [RoleContent "user" "Complete task 999"] 5
              Example.alice_store r Hout) as [Hnames Herr].
  exists r. split_and!; [exact Hout | reflexivity | exact Hnames | exact Herr].
Defined.

Lemma X22_witness :
  exists srv',
    MCPServer.register_tool "complete_task" Example.complete_task_tool
      MCPServer.init = (Ok (), srv')
    /\ MCPServer.list_tools srv' = ["complete_task"]
    /\ MCPServer.get_tool (H := Example.library) srv' "complete_task"
       = Ok Example.complete_task_tool
    /\ MCPServer.register_tool "complete_task" Example.complete_task_tool srv'
       = (Raise (Exn ValueError "Tool 'complete_task' is already registered"),
          srv').
Proof.
  destruct (X22_register_tool_refuses_duplicates (H := Example.library)
              "complete_task" Example.complete_task_tool MCPServer.init)
    as [_ Hnew].
  - apply NoDup_nil_2.
  - destruct Hnew as (srv' & Hreg & Hnames & _ & Hget & _ & Hagain).
    + apply not_elem_of_nil.
    + exists srv'.
      split_and!; [exact Hreg | exact Hnames | exact Hget | exact Hagain].
Defined.

Lemma X23_witness :
  exists srv',
    MCPServer.register_all_tools Example.complete_task_tool
      Example.complete_task_tool Example.complete_task_tool
      Example.complete_task_tool Example.complete_task_tool
      MCPServer.init = (Ok (), srv')
    /\ MCPServer.list_tools srv'
       = ["add_task"; "list_tasks"; "complete_task"; "delete_task";
          "update_task"]
    /\ MCPServer.register_all_tools Example.complete_task_tool
         Example.complete_task_tool Example.complete_task_tool
         Example.complete_task_tool Example.complete_task_tool srv'
       = (Raise (Exn ValueError "Tool 'add_task' is already registered"), srv').
Proof.
  destruct (X23_register_all_tools_registers_five_names_once
              (H := Example.library)
              Example.complete_task_tool Example.complete_task_tool
              Example.complete_task_tool Example.complete_task_tool
              Example.complete_task_tool MCPServer.init)
    as (srv' & Hreg & Hnames & _ & _ & _ & _ & _ & Hagain).
  - repeat constructor; apply not_elem_of_nil.
  - exists srv'. split_and!; [exact Hreg | exact Hnames | exact Hagain].
Defined.

Lemma X24_witness :
  let out :=
    Chat.chat_endpoint Example.answering Example.draws "bob"
      (Chat.MkChatRequest "What is on the list?" (Some "c1")) "bob"
      Example.chat_db Example.alice_store in
  Chat.conv_user_id <$> Chat.db_conversations Example.chat_db !! "c1"
  = Some "alice"
  /\ Chat.out_result out
     = Chat.HTTPException 404 "Conversation c1 not found or access denied"
  /\ Chat.db_messages (Chat.out_db out) = Chat.db_messages Example.chat_db
  /\ Chat.out_world out = Example.alice_store.
Proof.
  cbv zeta.
  destruct (X24_chat_foreign_conversation_is_not_found Example.answering
              Example.draws "bob" "What is on the list?" "c1" Example.chat_db
              Example.alice_store) as (Hres & _ & Hmsgs & Hworld & _).
  - right. exists (Chat.MkConversation "alice" Example.jan1 (Example.jan1 + 2)).
    split; [vm_compute; reflexivity | discriminate].
  - split_and!; [vm_compute; reflexivity | exact Hres | exact Hmsgs
                 | exact Hworld].
Defined.

Lemma X25_witness :
  let out :=
    Chat.chat_endpoint Example.answering Example.draws "alice"
      (Chat.MkChatRequest "List my tasks" (Some "c1")) "alice"
      Example.chat_db Example.alice_store in
  let history :=
    [("user", "Add a task to buy milk"); ("assistant", "Added.");
     ("user", "List my tasks")] in
  Chat.InvokeOrchestrator "alice" history ∈ Chat.out_trace out
  /\ exists cid rows,
       history = (λ m, (Chat.role m, Chat.content m)) <$> rows
       /\ StronglySorted Chat.older_first rows
       /\ Chat.conv_user_id <$> Chat.db_conversations (Chat.out_db out) !! cid
          = Some "alice".
Proof.
  cbv zeta.
  assert (Chat.InvokeOrchestrator "alice"
            [("user", "Add a task to buy milk"); ("assistant", "Added.");
             ("user", "List my tasks")]
          ∈ Chat.out_trace
              (Chat.chat_endpoint Example.answering Example.draws "alice"
                 (Chat.MkChatRequest "List my tasks" (Some "c1")) "alice"
                 Example.chat_db Example.alice_store)) as Hin.
  { assert (Chat.out_trace
              (Chat.chat_endpoint Example.answering Example.draws "alice"
                 (Chat.MkChatRequest "List my tasks" (Some "c1")) "alice"
                 Example.chat_db Example.alice_store)
            = [Chat.AppendMessage
                 (Chat.MkMessage "m3" "c1" "user" "List my tasks" None
                    (Example.jan31 + 2));
               Chat.InvokeOrchestrator "alice"
                 [("user", "Add a task to buy milk"); ("assistant", "Added.");
                  ("user", "List my tasks")];
               Chat.AppendMessage
                 (Chat.MkMessage "m4" "c1" "assistant" "Done." None
                    (Example.jan31 + 3));
               Chat.RefreshUpdatedAt "c1" (Example.jan31 + 4)]) as ->
      by (vm_compute; reflexivity).
    apply list_elem_of_further, list_elem_of_here. }
  split; [exact Hin|].
  destruct (X25_chat_history_is_the_callers_conversation Example.answering
              Example.draws "alice"
              (Chat.MkChatRequest "List my tasks" (Some "c1")) "alice"
              Example.chat_db Example.alice_store _ _ Hin)
    as (_ & cid & rows & Hhistory & Hsorted & _ & Hown & _).
  exists cid, rows. split_and!; [exact Hhistory | exact Hsorted | exact Hown].
Defined.

Lemma X26_witness :
  let out :=
    Chat.chat_endpoint Example.answering Example.draws "alice"
      (Chat.MkChatRequest "List my tasks" (Some "c1")) "alice"
      Example.chat_db Example.alice_store in
  exists c',
    Chat.db_conversations (Chat.out_db out) !! "c1" = Some c'
    /\ Chat.conv_user_id c' = "alice"
    /\ Chat.conv_created_at c' = Example.jan1.
Proof.
  cbv zeta.
  destruct (X26_chat_conversations_keep_their_owner Example.answering
              Example.draws "alice"
              (Chat.MkChatRequest "List my tasks" (Some "c1")) "alice"
              Example.chat_db Example.alice_store "c1"
              (Chat.MkConversation "alice" Example.jan1 (Example.jan1 + 2)))
    as (c' & Hrow & Hown & Hcreated & _).
  - vm_compute. reflexivity.
  - vm_compute. reflexivity.
  - exists c'. split_and!; [exact Hrow | exact Hown | exact Hcreated].
Defined.


Lemma X28_witness :
  ChatSchema.message "  List my tasks " = Some "List my tasks"
  /\ ChatSchema.message "List my tasks" = Some "List my tasks"
  /\ Chat.Message_init
       (Chat.MkMessage "m3" "c1" "user" "List my tasks" None Example.jan31)
     = Ok (Chat.MkMessage "m3" "c1" "user" "List my tasks" None Example.jan31).
Proof.
  assert (ChatSchema.message "  List my tasks " = Some "List my tasks") as Hm
    by (vm_compute; reflexivity).
  destruct (X28_chat_request_message_is_trimmed_and_storable
              "  List my tasks " "List my tasks" "m3" "c1" Example.jan31 Hm)
    as (_ & _ & _ & _ & Hagain & Hinit).
  split_and!; [exact Hm | exact Hagain | exact Hinit].
Defined.

Lemma X29_witness :
  RecurringService.calculate_next_due_date (H := Example.postgres) "daily"
    None (Some "2026-01-31")
  = Some (Example.jan31 + 1 * Datetime.us_per_day)
  /\ next_due_date Example.milk
     = Ok (Some (Example.jan31 + 1 * Datetime.us_per_day)).
Proof.
  assert (next_due_date Example.milk
          = Ok (Some (Example.jan31 + 1 * Datetime.us_per_day))) as Hnext
    by (vm_compute; reflexivity).
  split; [|exact Hnext].
  pose proof (X29_recurring_service_agrees_with_complete_task
                (H := Example.postgres) Example.milk "daily" "2026-01-31"
                Example.jan31) as Hagree.
  rewrite Hnext in Hagree. apply Hagree.
  - reflexivity.
  - reflexivity.
  - discriminate.
  - reflexivity.
Defined.
